(** * pandas_alive: the animation-frame pipeline of [refactor_charts.py]

    A shallow embedding of [_BaseChart], [ScatterChart] and [LineChart]:
    the column selector ([get_data_cols]), the period-label configuration
    ([get_period_label]), the frame interpolator ([get_interpolated_df]),
    the axis scaler ([set_x_y_limits]), the period annotator
    ([show_period]) and the per-frame callbacks ([plot_point],
    [plot_line], [anim_func]).

    Conventions.
    - A pandas [Series] is a list of cells, a missing cell (NaN / NaT /
      None) being [None].  Numeric cells (int64 and float64 alike) are
      exact rationals [Q], kept in reduced form by [Qred]: the linear
      interpolation of the data is computed without the rounding of
      float64, so an interpolated value of the model is the real number
      the code approximates, and no statement below depends on more than
      that.  datetime64 cells are their nanosecond count in [Z], an int64
      in the code; where the code computes on them ([date_range], the pad
      of [set_x_y_limits]) the rounding of float64 and the bounds of int64
      are modelled.
    - A Python exception is a value of [Error]; a call that may raise
      returns a [result].  A method that mutates the chart before it raises
      returns the mutated chart together with the outcome.
    - The pandas and matplotlib primitives the source calls ([reindex],
      [fillna(method="ffill")], [interpolate], [date_range], [set_xlim],
      [ax.text] ...) are modelled by their documented behaviour; every
      primitive carries the name it has in the source. *)

From Stdlib Require Import QArith Qfield Qround ZArith List Bool Lia.
From Stdlib Require Import DecimalString.
From stdpp Require Import base option list gmap strings.

Local Open Scope Z_scope.

(** ** Exceptions *)

Inductive Label :=
| LStr (s : string)
| LInt (z : Z).

#[global] Instance Label_eq_dec : EqDecision Label.
Proof. solve_decision. Defined.

Inductive Error :=
| MissingColumn (col : Label)
    (* Exception("Could not find '%s' in the columns of the provided ...") *)
| NoNumericColumns
    (* Exception("No numeric data columns found for plotting.") *)
| PeriodLabelKeys
    (* ValueError('`period_label` dictionary must have keys for "x" and "y"') *)
| SizeNotInColumns (size : string)
    (* ValueError("Size provided as string: ..., not present in dataframe columns") *)
| FrameHasNoDtype (col : Label)
    (* AttributeError: df[col] is a DataFrame when the label is duplicated *)
| KeyError (col : Label)
| IndexOutOfBounds
    (* IndexError: index[-1] of an empty index, index[i] out of range *)
| DuplicateAxis
    (* ValueError("cannot reindex from a duplicate axis") *)
| TimeInterpolationNeedsDatetimeIndex
    (* ValueError("time-weighted interpolation only works on Series or
       DataFrames with a DatetimeIndex") *)
| AllObjectColumns
    (* TypeError("Cannot interpolate with all object-dtype columns ...") *)
| MissingInIndex
    (* NotImplementedError("Interpolation with NaNs in the index ...") *)
| NaTBound
    (* ValueError("Neither `start` nor `end` can be NaT") *)
| TimedeltaOperand
    (* TypeError: unsupported operand type(s) for +: number and Timedelta *)
| OutOfBoundsDatetime
    (* OutOfBoundsDatetime: Timestamp + Timedelta past Timestamp.max *)
| AxisLimitNaN
    (* ValueError("Axis limits cannot be NaN or Inf") *)
| KwargsNotMapping
    (* TypeError: argument after ** must be a mapping, not bool *)
| FormatError.
    (* strftime / str.format on a value of the other kind *)

Inductive result (A : Type) :=
| Ok (a : A)
| Raise (e : Error).
Arguments Ok {A} a.
Arguments Raise {A} e.

#[global] Instance result_ret : MRet result := fun A a => Ok a.

#[global] Instance result_bind : MBind result := fun A B k r =>
  match r with
  | Ok a => k a
  | Raise e => Raise e
  end.

Definition is_ok {A} (r : result A) : bool :=
  match r with Ok _ => true | Raise _ => false end.

(** ** Tables *)

(** A Series with its dtype: float/int ([np.number]), datetime64 (dtype
    kind "M") or object. *)
Inductive Series :=
| NumS (v : list (option Q))
| DtS (v : list (option Z))
| ObjS (v : list (option string)).

(** The dtype as far as the code looks at it, [np.issubdtype(dtype,
    np.number)] and [dtype.kind == "M"]: int64 and float64 are both
    [number], and the cast of an int64 column to float64 that [reindex]
    makes when it brings in missing cells does not show. *)
Inductive DType := number | datetime64 | object.

Definition dtype (s : Series) : DType :=
  match s with
  | NumS _ => number
  | DtS _ => datetime64
  | ObjS _ => object
  end.

Definition len (s : Series) : nat :=
  match s with
  | NumS v => length v
  | DtS v => length v
  | ObjS v => length v
  end.

(** A scalar taken out of a Series; [RowC] is the row that [.iloc[i]]
    returns on a DataFrame. *)
#[warnings="-register-all"]
Inductive Cell :=
| NumC (q : Q)
| DtC (t : Z)
| ObjC (s : string)
| NaC
| RowC (row : list Cell).

Definition cell_of {A} (f : A -> Cell) (o : option A) : Cell :=
  match o with
  | Some a => f a
  | None => NaC
  end.

Definition cells (s : Series) : list Cell :=
  match s with
  | NumS v => map (cell_of NumC) v
  | DtS v => map (cell_of DtC) v
  | ObjS v => map (cell_of ObjC) v
  end.

(** [s[:n]] *)
Definition head_rows (n : nat) (s : Series) : Series :=
  match s with
  | NumS v => NumS (firstn n v)
  | DtS v => DtS (firstn n v)
  | ObjS v => ObjS (firstn n v)
  end.

Definition has_missing (s : Series) : bool :=
  existsb (fun c => match c with NaC => true | _ => false end) (cells s).

Record Column := mkColumn { col_label : Label; col_data : Series }.

Record DataFrame := mkDataFrame {
  df_index : Series;
  df_columns : list Column
}.

Definition nrows (df : DataFrame) : nat := len (df_index df).

Definition label_eqb (a b : Label) : bool :=
  match a, b with
  | LStr s, LStr t => String.eqb s t
  | LInt x, LInt y => Z.eqb x y
  | _, _ => false
  end.

Definition columns (df : DataFrame) : list Label :=
  map col_label (df_columns df).

(** [col in df.columns] *)
Definition label_in (col : Label) (cols : list Label) : bool :=
  existsb (label_eqb col) cols.

(** [str(col)] *)
Definition py_str (col : Label) : string :=
  match col with
  | LStr s => s
  | LInt z => NilZero.string_of_int (Z.to_int z)
  end.

(** [df[col].dtype]: [df[col]] is a Series when exactly one column carries
    the label, a DataFrame (which has no [dtype]) when several do. *)
Definition getitem_dtype (df : DataFrame) (col : Label) : result DType :=
  match filter (fun c => label_eqb col (col_label c)) (df_columns df) with
  | [] => Raise (KeyError col)
  | [c] => Ok (dtype (col_data c))
  | _ => Raise (FrameHasNoDtype col)
  end.

(** [np.issubdtype(dt, np.number)] *)
Definition is_number (dt : DType) : bool :=
  match dt with number => true | _ => false end.

(** ** Column selector: [get_data_cols] *)

(** The [for i, col in enumerate(df.columns)] loop, with the list built so
    far as accumulator. *)
Fixpoint get_data_cols_loop (df : DataFrame) (todo : list Label)
    (data_cols : list Label) : result (list Label) :=
  match todo with
  | [] => Ok data_cols
  | col :: rest =>
      if negb (label_in col (columns df)) then Raise (MissingColumn col)
      else
        dt ← getitem_dtype df col;
        get_data_cols_loop df rest
          (if is_number dt then data_cols ++ [col] else data_cols)
  end.

Definition get_data_cols (df : DataFrame) : result (list string) :=
  data_cols ← get_data_cols_loop df (columns df) [];
  match data_cols with
  | [] => Raise NoNumericColumns
  | _ => Ok (map py_str data_cols)
  end.

(** [rename_data_columns]: [df.rename(columns={col: str(col) for col in
    data_cols})].  [data_cols] is what [get_data_cols] returns, so the keys
    of the mapping are already strings: a column is relabelled when its
    label is one of those strings (to that same string), and a numeric
    column with a non-string label keeps its label. *)
Definition rename_data_columns (df : DataFrame) : result DataFrame :=
  data_cols ← get_data_cols df;
  Ok (mkDataFrame (df_index df)
        (map (fun c =>
                match find (fun col => label_eqb (col_label c) (LStr col))
                        data_cols with
                | Some col => mkColumn (LStr (py_str (LStr col))) (col_data c)
                | None => c
                end)
             (df_columns df))).

(** ** Period label configuration: [get_period_label] *)

Inductive StyleVal :=
| SNum (q : Q)
| SStr (s : string).

(** [period_label]: a bool or a dict of keyword arguments for [ax.text]. *)
Inductive PeriodLabel :=
| PLBool (b : bool)
| PLDict (d : gmap string StyleVal).

(** Python truth value: [False] and the empty dict are falsy. *)
Definition truthy (pl : PeriodLabel) : bool :=
  match pl with
  | PLBool b => b
  | PLDict d => negb (Nat.eqb (size d) 0)
  end.

Definition default_period_label : gmap string StyleVal :=
  <["size" := SNum 12]> (<["x" := SNum (9 # 10)]>
    (<["y" := SNum (1 # 10)]> (<["ha" := SStr "right"]> ∅))).

(** [key in d] *)
Definition has_key (k : string) (d : gmap string StyleVal) : bool :=
  match d !! k with Some _ => true | None => false end.

Definition get_period_label (period_label : PeriodLabel) : result PeriodLabel :=
  if negb (truthy period_label) then Ok (PLBool false)
  else
    match period_label with
    | PLBool _ => Ok (PLDict default_period_label)
    | PLDict d =>
        if negb (has_key "x" d) || negb (has_key "y" d)
        then Raise PeriodLabelKeys
        else Ok (PLDict d)
    end.

(** ** Frame interpolator: [get_interpolated_df] *)

(** The table between [reset_index] and [set_index]: integer row labels,
    the former index as column 0, and the remaining columns. *)
Record ResetFrame := mkResetFrame {
  rf_labels : list Z;
  rf_col0 : Series;
  rf_rest : list Column
}.

(** [range(n)] *)
Definition range (n : Z) : list Z :=
  map Z.of_nat (seq 0 (Z.to_nat n)).

(** [df.reset_index()] *)
Definition reset_index (df : DataFrame) : ResetFrame :=
  mkResetFrame (range (Z.of_nat (nrows df))) (df_index df) (df_columns df).

(** [index[-1]] *)
Definition index_last (labels : list Z) : result Z :=
  match last labels with
  | Some l => Ok l
  | None => Raise IndexOutOfBounds
  end.

Fixpoint index_of (j : Z) (labels : list Z) : option nat :=
  match labels with
  | [] => None
  | l :: rest => if Z.eqb j l then Some O else S <$> index_of j rest
  end.

Fixpoint has_duplicates (labels : list Z) : bool :=
  match labels with
  | [] => false
  | l :: rest => existsb (Z.eqb l) rest || has_duplicates rest
  end.

(** Row [j] of the reindexed column: the row labelled [j], a missing cell
    where no row carries that label. *)
Definition reindex_cells {A} (labels : list Z) (v : list (option A))
    (new_index : list Z) : list (option A) :=
  map (fun j => match index_of j labels with
                | Some k => mjoin (v !! k)
                | None => None
                end) new_index.

Definition reindex_series (labels : list Z) (s : Series) (new_index : list Z)
    : Series :=
  match s with
  | NumS v => NumS (reindex_cells labels v new_index)
  | DtS v => DtS (reindex_cells labels v new_index)
  | ObjS v => ObjS (reindex_cells labels v new_index)
  end.

(** [df.reindex(new_index)] *)
Definition reindex (rf : ResetFrame) (new_index : list Z) : result ResetFrame :=
  if has_duplicates (rf_labels rf) then Raise DuplicateAxis
  else Ok (mkResetFrame new_index
             (reindex_series (rf_labels rf) (rf_col0 rf) new_index)
             (map (fun c => mkColumn (col_label c)
                              (reindex_series (rf_labels rf) (col_data c) new_index))
                  (rf_rest rf))).

(** [fillna(method="ffill")]: a missing cell takes the last value before
    it; leading missing cells stay. *)
Fixpoint ffill_from {A} (prev : option A) (v : list (option A))
    : list (option A) :=
  match v with
  | [] => []
  | Some a :: rest => Some a :: ffill_from (Some a) rest
  | None :: rest => prev :: ffill_from prev rest
  end.

Definition ffill (s : Series) : Series :=
  match s with
  | NumS v => NumS (ffill_from None v)
  | DtS v => DtS (ffill_from None v)
  | ObjS v => ObjS (ffill_from None v)
  end.

(** The first known point of a suffix that starts at position [p]. *)
Fixpoint next_valid (x : nat -> Q) (p : nat) (ys : list (option Q))
    : option (Q * Q) :=
  match ys with
  | [] => None
  | Some y :: _ => Some (x p, y)
  | None :: rest => next_valid x (S p) rest
  end.

(** [interpolate] with the default [limit_direction="forward"]: a gap
    between two known points is filled on the straight line through them
    (abscissa [x p] at position [p]), cells after the last known point take
    its value, cells before the first known point stay missing.  The two
    known points are the neighbours by position, which is what [np.interp]
    picks whenever the abscissae increase.  The value on the line is the
    exact one; [np.interp] computes it in float64 and may differ from it
    in the last bits. *)
Fixpoint interp_from (x : nat -> Q) (p : nat) (prev : option (Q * Q))
    (ys : list (option Q)) : list (option Q) :=
  match ys with
  | [] => []
  | Some y :: rest => Some y :: interp_from x (S p) (Some (x p, y)) rest
  | None :: rest =>
      match prev with
      | None => None
      | Some (x0, y0) =>
          match next_valid x (S p) rest with
          | None => Some y0
          | Some (x1, y1) =>
              Some (Qred (y0 + (y1 - y0) * (x p - x0) / (x1 - x0)))
          end
      end :: interp_from x (S p) prev rest
  end.

(** [method="linear"]: the abscissa is the row position. *)
Definition by_position (p : nat) : Q := inject_Z (Z.of_nat p).

(** [method="time"]: the abscissa is the timestamp in the index. *)
Definition by_time (index : list (option Z)) (p : nat) : Q :=
  match index !! p with
  | Some (Some t) => inject_Z t
  | _ => 0%Q
  end.

(** [Series.interpolate()]: only numeric Series are interpolated. *)
Definition series_interpolate (s : Series) : Series :=
  match s with
  | NumS v => NumS (interp_from by_position O None v)
  | other => other
  end.

(** *** int64 and float64

    [pd.date_range(first, last, periods=n)] is
    [np.linspace(0, last.value - first.value, n, dtype="int64") + first.value]:
    the spacing is computed in float64 and cast to int64. *)
Definition int64_min : Z := - 2 ^ 63.
Definition int64_max : Z := 2 ^ 63 - 1.

(** [n / d] rounded to the nearest integer, a tie to the even one
    ([0 <= n], [0 < d]). *)
Definition round_half_even (n d : Z) : Z :=
  let q := n / d in
  match 2 * (n mod d) ?= d with
  | Lt => q
  | Gt => q + 1
  | Eq => if Z.even q then q else q + 1
  end.

(** [2 ^ e <= n / d] *)
Definition ge_pow2 (n d e : Z) : bool :=
  if 0 <=? e then d * 2 ^ e <=? n else d <=? n * 2 ^ (- e).

(** The float64 nearest to a rational, ties to even: 53 significant bits.
    The exponent range is not limited; the quantities rounded here (a
    span of timestamps, a row count, their quotient and its multiples) lie
    between 2^-64 and 2^64 in magnitude. *)
Definition float64 (q : Q) : Q :=
  let r := Qred q in
  let n := Z.abs (Qnum r) in
  let d := Z.pos (Qden r) in
  if n =? 0 then 0%Q
  else
    let e0 := Z.log2 n - Z.log2 d in
    let e := if ge_pow2 n d e0 then e0 else e0 - 1 in
    let k := 52 - e in
    if 0 <=? k then
      Qred (Z.sgn (Qnum r) * round_half_even (n * 2 ^ k) d # Z.to_pos (2 ^ k))
    else
      inject_Z (Z.sgn (Qnum r) * round_half_even n (d * 2 ^ (- k)) * 2 ^ (- k)).

(** [astype("int64")] of a whole float64: the value when it fits; past the
    bounds the cast is undefined in C and gives [int64_min] on x86-64. *)
Definition astype_int64 (z : Z) : Z :=
  if (int64_min <=? z) && (z <=? int64_max) then z else int64_min.

(** int64 addition wraps around. *)
Definition wrap_int64 (z : Z) : Z := (z - int64_min) mod 2 ^ 64 + int64_min.

(** [np.linspace(0, stop, num, dtype="int64")]: [step = delta / div] and
    [y = arange(0, num) * step] in float64, the last element set to
    [stop], then (numpy 1.20 and later) [floor] and the cast.  With
    [num = 1] the only element is 0. *)
Definition linspace (stop : Z) (num : nat) : list Z :=
  let delta := float64 (inject_Z stop) in
  let div := Z.of_nat num - 1 in
  let step := float64 (delta / float64 (inject_Z div)) in
  map (fun j =>
         let y := if (0 <? div) && (Z.of_nat j =? div) then delta
                  else float64 (float64 (inject_Z (Z.of_nat j)) * step) in
         astype_int64 (Qfloor y))
      (seq 0 num).

(** [pd.date_range(first, last, periods=n)].  (A sum that wraps to
    [int64_min] exactly would read as NaT; that is not modelled.) *)
Definition date_range (first last : Z) (periods : nat) : list Z :=
  map (fun y => wrap_int64 (y + first)) (linspace (last - first) periods).

(** [first, last = interpolated_df.iloc[[0, -1], 0]] on a datetime column;
    [date_range] rejects NaT bounds. *)
Definition first_last (v : list (option Z)) : result (Z * Z) :=
  match head v, last v with
  | Some (Some f), Some (Some l) => Ok (f, l)
  | Some _, Some _ => Raise NaTBound
  | _, _ => Raise IndexOutOfBounds
  end.

(** [df.set_index(df.columns[0])] *)
Definition set_index (rf : ResetFrame) : DataFrame :=
  mkDataFrame (rf_col0 rf) (rf_rest rf).

(** The check [DataFrame.interpolate] makes before it starts. *)
Definition all_object (cols : list Column) : bool :=
  match cols with
  | [] => false
  | _ => forallb (fun c => match col_data c with ObjS _ => true | _ => false end)
           cols
  end.

(** A column that has something to fill: at least one known and at least
    one missing cell. *)
Definition needs_fill (v : list (option Q)) : bool :=
  existsb (fun o => match o with Some _ => true | None => false end) v
  && existsb (fun o => match o with Some _ => false | None => true end) v.

(** [df.interpolate()] *)
Definition interpolate_linear (df : DataFrame) : result DataFrame :=
  if all_object (df_columns df) then Raise AllObjectColumns
  else Ok (mkDataFrame (df_index df)
             (map (fun c => mkColumn (col_label c) (series_interpolate (col_data c)))
                  (df_columns df))).

(** One column of [df.interpolate(method="time")].  A numeric column with
    something to fill needs a DatetimeIndex; pandas 1.0 makes that check
    when it fills the column, later versions before they look at the
    cells. *)
Definition interpolate_time_col (index : Series) (c : Column) : result Column :=
  match col_data c with
  | NumS v =>
      if needs_fill v then
        match index with
        | DtS ix => Ok (mkColumn (col_label c) (NumS (interp_from (by_time ix) O None v)))
        | _ => Raise TimeInterpolationNeedsDatetimeIndex
        end
      else Ok c
  | _ => Ok c
  end.

Fixpoint map_result {A B} (f : A -> result B) (l : list A) : result (list B) :=
  match l with
  | [] => Ok []
  | a :: rest => b ← f a; bs ← map_result f rest; Ok (b :: bs)
  end.

(** [df.interpolate(method="time")] *)
Definition interpolate_time (df : DataFrame) : result DataFrame :=
  if all_object (df_columns df) then Raise AllObjectColumns
  else if has_missing (df_index df) then Raise MissingInIndex
  else
    cols ← map_result (interpolate_time_col (df_index df)) (df_columns df);
    Ok (mkDataFrame (df_index df) cols).

Definition get_interpolated_df (df : DataFrame) (steps_per_period : Z)
    (interpolate_period : bool) : result DataFrame :=
  let interpolated_df := reset_index df in
  let interpolated_df :=
    mkResetFrame (map (fun k => k * steps_per_period) (rf_labels interpolated_df))
      (rf_col0 interpolated_df) (rf_rest interpolated_df) in
  l ← index_last (rf_labels interpolated_df);
  let new_index := range (l + 1) in
  interpolated_df ← reindex interpolated_df new_index;
  col0 ←
    (if interpolate_period then
       match rf_col0 interpolated_df with
       | DtS v =>
           '(first, last) ← first_last v;
           Ok (DtS (map Some (date_range first last (length v))))
       | other => Ok (series_interpolate other)
       end
     else Ok (ffill (rf_col0 interpolated_df)));
  let interpolated_df :=
    set_index (mkResetFrame (rf_labels interpolated_df) col0
                 (rf_rest interpolated_df)) in
  if interpolate_period then interpolate_time interpolated_df
  else interpolate_linear interpolated_df.

(** [get_frames]: [range(len(self.df.index))], the frame numbers. *)
Definition get_frames (df : DataFrame) : list nat :=
  seq 0 (len (df_index df)).

(** ** The axes the chart draws on *)

(** The Text artist made by [ax.text]: its string and the keyword
    arguments it was created with (anchor [x], [y], size, alignment). *)
Record Text := mkText {
  text_s : string;
  text_kwargs : gmap string StyleVal
}.

(** A Line2D artist: its data and its colour. *)
Record Line := mkLine {
  line_x : list Cell;
  line_y : list Cell;
  line_color : option string
}.

(** A call [ax.scatter(x, y, s=size, color=color)]. *)
Record Scatter := mkScatter {
  sc_x : list Cell;
  sc_y : list Cell;
  sc_s : option Cell;
  sc_color : option string
}.

(** The part of a matplotlib Axes the chart touches.  [text_calls] counts
    the Text artists ever created on it. *)
Record Axes := mkAxes {
  xlim : option (Cell * Cell);
  ylim : option (Q * Q);
  texts : list Text;
  text_calls : nat;
  lines : list Line;
  collections : list Scatter
}.

Definition empty_axes : Axes := mkAxes None None [] O [] [].

Definition is_na (c : Cell) : bool :=
  match c with NaC => true | _ => false end.

(** [ax.set_xlim(left, right)]; NaN limits are refused. *)
Definition set_xlim (left right : Cell) (ax : Axes) : result Axes :=
  if is_na left || is_na right then Raise AxisLimitNaN
  else Ok (mkAxes (Some (left, right)) (ylim ax) (texts ax) (text_calls ax)
             (lines ax) (collections ax)).

(** [ax.set_ylim(bottom, top)] *)
Definition set_ylim (bottom top : option Q) (ax : Axes) : result Axes :=
  match bottom, top with
  | Some b, Some t =>
      Ok (mkAxes (xlim ax) (Some (b, t)) (texts ax) (text_calls ax)
            (lines ax) (collections ax))
  | _, _ => Raise AxisLimitNaN
  end.

(** [ax.text(s=s, transform=ax.transAxes, **kwargs)] *)
Definition ax_text (s : string) (kwargs : gmap string StyleVal) (ax : Axes)
    : Axes :=
  mkAxes (xlim ax) (ylim ax) (texts ax ++ [mkText s kwargs])
    (S (text_calls ax)) (lines ax) (collections ax).

(** [ax.texts[0].set_text(s)] *)
Definition set_text0 (s : string) (ax : Axes) : result Axes :=
  match texts ax with
  | [] => Raise IndexOutOfBounds
  | t :: rest =>
      Ok (mkAxes (xlim ax) (ylim ax) (mkText s (text_kwargs t) :: rest)
            (text_calls ax) (lines ax) (collections ax))
  end.

(** [ax.plot(x, y, arg, color=color)] with a number as third positional
    argument.  matplotlib reads the positional arguments in groups
    [x, y] or [x, y, fmt], [fmt] being a string; a number in third place
    starts a second group, a data set of one value plotted against its
    position.  The call adds two lines: the one through [(x, y)] and one
    through the single point [(0, arg)]. *)
Definition ax_plot (x y : list Cell) (arg : Z) (color : option string)
    (ax : Axes) : Axes :=
  mkAxes (xlim ax) (ylim ax) (texts ax) (text_calls ax)
    (lines ax ++ [mkLine x y color;
                  mkLine [NumC 0] [NumC (inject_Z arg)] color])
    (collections ax).

Definition ax_scatter (s : Scatter) (ax : Axes) : Axes :=
  mkAxes (xlim ax) (ylim ax) (texts ax) (text_calls ax) (lines ax)
    (collections ax ++ [s]).

(** [for line in ax.lines: line.remove()]: [ax.lines] is a plain list in
    the matplotlib the source is written for (3.1), and each removal shifts
    the rest down under the running iterator, so the loop removes the lines
    at even positions and leaves those at odd ones. *)
Fixpoint remove_while_iterating {A} (l : list A) : list A :=
  match l with
  | _ :: kept :: rest => kept :: remove_while_iterating rest
  | _ => []
  end.

Definition remove_lines (ax : Axes) : Axes :=
  mkAxes (xlim ax) (ylim ax) (texts ax) (text_calls ax)
    (remove_while_iterating (lines ax)) (collections ax).

(** ** Axis scaler: [set_x_y_limits] *)

(** A reduction that skips missing cells ([skipna=True]); missing when no
    cell is known. *)
Fixpoint reduce {A} (pick : A -> A -> A) (v : list (option A)) : option A :=
  match v with
  | [] => None
  | None :: rest => reduce pick rest
  | Some a :: rest =>
      match reduce pick rest with
      | None => Some a
      | Some b => Some (pick a b)
      end
  end.

Definition qmin (a b : Q) : Q := if Qle_bool a b then a else b.
Definition qmax (a b : Q) : Q := if Qle_bool a b then b else a.
Definition smin (a b : string) : string := if String.leb a b then a else b.
Definition smax (a b : string) : string := if String.leb a b then b else a.

(** [index.min()], [index.max()] *)
Definition index_min (s : Series) : Cell :=
  match s with
  | NumS v => cell_of NumC (reduce qmin v)
  | DtS v => cell_of DtC (reduce Z.min v)
  | ObjS v => cell_of ObjC (reduce smin v)
  end.

Definition index_max (s : Series) : Cell :=
  match s with
  | NumS v => cell_of NumC (reduce qmax v)
  | DtS v => cell_of DtC (reduce Z.max v)
  | ObjS v => cell_of ObjC (reduce smax v)
  end.

(** [pd.Timedelta(seconds=1)] in nanoseconds. *)
Definition one_second : Z := 1000000000.

(** [value + pd.Timedelta(seconds=1)]: defined on timestamps (NaT stays
    NaT) as long as the sum is a Timestamp, that is at most
    [Timestamp.max]; a number or a string on the left is a TypeError. *)
Definition add_timedelta (index : Series) (c : Cell) : result Cell :=
  match index, c with
  | DtS _, DtC t =>
      if t + one_second <=? int64_max then Ok (DtC (t + one_second))
      else Raise OutOfBoundsDatetime
  | DtS _, NaC => Ok NaC
  | _, _ => Raise TimedeltaOperand
  end.

(** [df.iloc[:n].select_dtypes(include=[np.number])] *)
Definition numeric_prefix (n : nat) (df : DataFrame) : list (list (option Q)) :=
  omap (fun c => match col_data c with
                 | NumS v => Some (firstn n v)
                 | _ => None
                 end) (df_columns df).

(** [frame.min().min(skipna=True)]: the smallest of the per-column minima. *)
Definition frame_min (cols : list (list (option Q))) : option Q :=
  reduce qmin (map (reduce qmin) cols).

Definition frame_max (cols : list (list (option Q))) : option Q :=
  reduce qmax (map (reduce qmax) cols).

(** ** Methods that mutate: state and exceptions

    A method runs on a state [S] (the axes, the chart), may change it, and
    either returns or raises; what it changed before raising stays
    changed. *)
Definition ST (S A : Type) : Type := S -> S * result A.

Definition st_ret {S A} (a : A) : ST S A := fun s => (s, Ok a).

Definition st_bind {S A B} (m : ST S A) (k : A -> ST S B) : ST S B :=
  fun s => match m s with
           | (s', Ok a) => k a s'
           | (s', Raise e) => (s', Raise e)
           end.

Declare Scope st_scope.
Delimit Scope st_scope with st.
Notation "'do' x <~ m 'in' k" := (st_bind m (fun x => k))
  (at level 10, x name, m at level 100, k at level 200) : st_scope.
Notation "m >>> k" := (st_bind m (fun _ => k))
  (at level 90, right associativity) : st_scope.
Local Open Scope st_scope.

(** A pure call that may raise. *)
Definition lift {S A} (r : result A) : ST S A := fun s => (s, r).

(** A call that replaces the state when it returns. *)
Definition update {S} (f : S -> result S) : ST S unit :=
  fun s => match f s with
           | Ok s' => (s', Ok tt)
           | Raise e => (s, Raise e)
           end.

Definition modify {S} (f : S -> S) : ST S unit := fun s => (f s, Ok tt).

Definition get {S} : ST S S := fun s => (s, Ok s).

(** [for a in l: body(a)] *)
Fixpoint for_each {S A} (l : list A) (body : A -> ST S unit) : ST S unit :=
  match l with
  | [] => st_ret tt
  | a :: rest => body a >>> for_each rest body
  end.

Definition set_x_y_limits (df : DataFrame) (i : nat) : ST Axes unit :=
  let xlim_start := index_min (head_rows (i + 1) (df_index df)) in
  do xlim_end <~ lift (add_timedelta (df_index df)
                         (index_max (head_rows (i + 1) (df_index df)))) in
  update (set_xlim xlim_start xlim_end) >>>
  update (set_ylim (frame_min (numeric_prefix (i + 1) df))
                   (frame_max (numeric_prefix (i + 1) df))).

(** ** The chart *)

(** [size]: an int or the name of a column. *)
Inductive SizeOpt :=
| SizeInt (n : Z)
| SizeStr (name : string).

(** One entry of [_points] / [_lines]: the lists under "x" and "y" and,
    for a scatter chart, the value under "size". *)
Record Points := mkPoints {
  pts_x : list Cell;
  pts_y : list Cell;
  pts_size : option Cell
}.

(** The attributes of a chart instance after [__attrs_post_init__]: [df]
    is the interpolated table; [points] is [_points] of a ScatterChart and
    [_lines] of a LineChart; [size] belongs to the former, [line_width] to
    the latter. *)
Record Chart := mkChart {
  df : DataFrame;
  period_fmt : option string;
  period_label : PeriodLabel;
  data_cols : list string;
  colors : list string;
  ax : Axes;
  points : gmap string Points;
  size : SizeOpt;
  line_width : Z
}.

Definition with_ax (c : Chart) (a : Axes) : Chart :=
  mkChart (df c) (period_fmt c) (period_label c) (data_cols c) (colors c) a
    (points c) (size c) (line_width c).

Definition with_points (c : Chart) (p : gmap string Points) : Chart :=
  mkChart (df c) (period_fmt c) (period_label c) (data_cols c) (colors c)
    (ax c) p (size c) (line_width c).

(** Run a method of the axes on [self.ax]. *)
Definition on_ax {A} (m : ST Axes A) : ST Chart A :=
  fun c => match m (ax c) with (a, r) => (with_ax c a, r) end.

(** [series[i]], [series.iloc[i]] for a frame number [i]. *)
Definition cell_at (s : Series) (i : nat) : result Cell :=
  match cells s !! i with
  | Some c => Ok c
  | None => Raise IndexOutOfBounds
  end.

(** [df[name]]: the columns that carry the label. *)
Definition getitem (d : DataFrame) (name : Label) : result (list Column) :=
  match filter (fun c => label_eqb name (col_label c)) (df_columns d) with
  | [] => Raise (KeyError name)
  | cs => Ok cs
  end.

(** [df[name].index[i]] *)
Definition getitem_index (d : DataFrame) (name : Label) (i : nat) : result Cell :=
  _ ← getitem d name;
  cell_at (df_index d) i.

(** [df[name].iloc[i]] *)
Definition getitem_iloc (d : DataFrame) (name : Label) (i : nat) : result Cell :=
  cs ← getitem d name;
  match cs with
  | [c] => cell_at (col_data c) i
  | _ => row ← map_result (fun c => cell_at (col_data c) i) cs; Ok (RowC row)
  end.

(** Python truth value of [period_fmt]: [None] and the empty string are
    falsy. *)
Definition fmt_truthy (fmt : option string) : bool :=
  match fmt with
  | Some s => negb (String.eqb s "")
  | None => false
  end.

(** [self._points[name]] *)
Definition points_of (name : string) : ST Chart Points :=
  fun c => match points c !! name with
           | Some p => (c, Ok p)
           | None => (c, Raise (KeyError (LStr name)))
           end.

Definition set_points (name : string) (p : Points) : ST Chart unit :=
  modify (fun c => with_points c (<[name := p]> (points c))).

(** [self._points[name]["x"].append(self.df[name].index[i])]: the list is
    looked up before the argument is evaluated. *)
Definition append_x (name : string) (i : nat) : ST Chart unit :=
  do p <~ points_of name in
  do c <~ get in
  do v <~ lift (getitem_index (df c) (LStr name) i) in
  set_points name (mkPoints (pts_x p ++ [v]) (pts_y p) (pts_size p)).

Definition append_y (name : string) (i : nat) : ST Chart unit :=
  do p <~ points_of name in
  do c <~ get in
  do v <~ lift (getitem_iloc (df c) (LStr name) i) in
  set_points name (mkPoints (pts_x p) (pts_y p ++ [v]) (pts_size p)).

Definition string_in (s : string) (l : list string) : bool :=
  existsb (String.eqb s) l.

(** The [if isinstance(self.size, str)] statement of [plot_point]. *)
Definition set_size (name : string) (i : nat) : ST Chart unit :=
  do c <~ get in
  match size c with
  | SizeStr sz =>
      if negb (string_in sz (data_cols c)) then lift (Raise (SizeNotInColumns sz))
      else
        do p <~ points_of name in
        do v <~ lift (getitem_iloc (df c) (LStr sz) i) in
        set_points name (mkPoints (pts_x p) (pts_y p) (Some v))
  | SizeInt n =>
      do p <~ points_of name in
      set_points name (mkPoints (pts_x p) (pts_y p) (Some (NumC (inject_Z n))))
  end.

(** ** Period annotator: [show_period] *)

(** The string formatting the annotator delegates to: [Timestamp.strftime],
    [str.format(x=...)] (which may raise) and [Index.astype(str)]. *)
Record Formatter := mkFormatter {
  strftime : Z -> string -> string;
  str_format : string -> Cell -> result string;
  astype_str : Cell -> string
}.

(** The label [s] that [show_period] computes for frame [i]. *)
Definition period_string (F : Formatter) (i : nat) : ST Chart string :=
  do c <~ get in
  match period_fmt c with
  | Some fmt =>
      if negb (String.eqb fmt "") then
        do idx_val <~ lift (cell_at (df_index (df c)) i) in
        match df_index (df c) with
        | DtS _ =>
            match idx_val with
            | DtC t => st_ret (strftime F t fmt)
            | _ => lift (Raise FormatError)
            end
        | _ => lift (str_format F fmt idx_val)
        end
      else
        do idx_val <~ lift (cell_at (df_index (df c)) i) in
        st_ret (astype_str F idx_val)
  | None =>
      do idx_val <~ lift (cell_at (df_index (df c)) i) in
      st_ret (astype_str F idx_val)
  end.

Definition show_period (F : Formatter) (i : nat) : ST Chart unit :=
  do c <~ get in
  if truthy (period_label c) then
    do s <~ period_string F i in
    let num_texts := length (texts (ax c)) in
    if Nat.eqb num_texts 0 then
      do kwargs <~ lift (get_period_label (period_label c)) in
      match kwargs with
      | PLDict d => on_ax (modify (ax_text s d))
      | PLBool _ => lift (Raise KwargsNotMapping)
      end
    else on_ax (update (set_text0 s))
  else st_ret tt.

(** ** Construction: [__attrs_post_init__] *)

(** [for name in self.data_cols: self._points[name] = {"x": [], "y": []}] *)
Definition init_points (names : list string) : gmap string Points :=
  foldl (fun m name => <[name := mkPoints [] [] None]> m) ∅ names.

(** What construction does to the chart's data: lines 75 to 82 of
    [_BaseChart.__attrs_post_init__] and the loop of the subclasses.
    [cmap] is taken as a list of colours, which [get_colors] returns as it
    is.  The figure is not modelled: between the two parts the code makes
    the figure and its axes ([create_figure], which renders a throw-away
    figure to size the axes and raises where [df.values.max()] is not
    defined, as on a table with a string column; or [plt.figure()] and
    [plt.axes()] when a figure was passed) and sets the title.  [post_init]
    returns the chart that construction leaves when the figure is made,
    on axes that hold no artist yet. *)
Definition post_init (df0 : DataFrame) (interpolate_period : bool)
    (steps_per_period : Z) (fmt : option string) (label : PeriodLabel)
    (cmap : list string) (sz : SizeOpt) (lw : Z) : result Chart :=
  names ← get_data_cols df0;
  df1 ← rename_data_columns df0;
  df2 ← get_interpolated_df df1 steps_per_period interpolate_period;
  Ok (mkChart df2 fmt label names cmap empty_axes (init_points names) sz lw).

(** The animation: [init_func()], then [anim_func(i)] for the frames of
    [get_frames()] in order, until one raises. *)
Definition animate (init_func : ST Chart unit) (anim_func : nat -> ST Chart unit)
    : ST Chart unit :=
  init_func >>>
  do c <~ get in
  for_each (get_frames (df c)) anim_func.

(** ** Scatter chart *)

Module ScatterChart.

Definition plot_point (i : nat) : ST Chart unit :=
  do c <~ get in
  on_ax (set_x_y_limits (df c) i) >>>
  for_each (zip (data_cols c) (colors c)) (fun '(name, color) =>
    append_x name i >>>
    append_y name i >>>
    set_size name i >>>
    do p <~ points_of name in
    on_ax (modify (ax_scatter
                     (mkScatter (pts_x p) (pts_y p) (pts_size p) (Some color))))).

Definition anim_func (F : Formatter) (i : nat) : ST Chart unit :=
  plot_point i >>>
  do c <~ get in
  if fmt_truthy (period_fmt c) then show_period F i else st_ret tt.

Definition init_func : ST Chart unit :=
  on_ax (modify (ax_scatter (mkScatter [] [] None None))).

End ScatterChart.

(** ** Line chart *)

Module LineChart.

Definition plot_line (i : nat) : ST Chart unit :=
  do c <~ get in
  on_ax (set_x_y_limits (df c) i) >>>
  for_each (zip (data_cols c) (colors c)) (fun '(name, color) =>
    append_x name i >>>
    append_y name i >>>
    do p <~ points_of name in
    do c <~ get in
    on_ax (modify (ax_plot (pts_x p) (pts_y p) (line_width c) (Some color)))).

Definition anim_func (F : Formatter) (i : nat) : ST Chart unit :=
  on_ax (modify remove_lines) >>>
  plot_line i >>>
  do c <~ get in
  if fmt_truthy (period_fmt c) then show_period F i else st_ret tt.

Definition init_func : ST Chart unit :=
  do c <~ get in
  on_ax (modify (ax_plot [] [] (line_width c) None)).

End LineChart.

(** ** Reference notions and example inputs *)

(** The numeric columns of a table, in column order. *)
Definition numeric_columns (cs : list Column) : list Label :=
  map col_label (filter (fun c => is_number (dtype (col_data c))) cs).

(** A table with an object column, an integer-labelled numeric column and
    a numeric column. *)
Definition three_columns : DataFrame :=
  mkDataFrame (DtS [Some 0; Some 1])
    [mkColumn (LStr "city") (ObjS [Some "a"; Some "b"]);
     mkColumn (LInt 7) (NumS [Some 1%Q; None]);
     mkColumn (LStr "temp") (NumS [Some 3%Q; Some 4%Q])].

(** A table with two numeric columns under the same label. *)
Definition twin_columns : DataFrame :=
  mkDataFrame (DtS [Some 0; Some 1])
    [mkColumn (LStr "a") (NumS [Some 1%Q; Some 2%Q]);
     mkColumn (LStr "a") (NumS [Some 3%Q; Some 4%Q])].

(** A style dict that gives only the horizontal anchor. *)
Definition only_x : gmap string StyleVal := {[ "x" := SNum (1 # 2) ]}.

(** The table of the end-to-end scenario: index 2000, 2001, 2002 and one
    numeric column 1.0, 2.0, 4.0. *)
Definition yearly : DataFrame :=
  mkDataFrame (NumS [Some 2000%Q; Some 2001%Q; Some 2002%Q])
    [mkColumn (LStr "value") (NumS [Some 1%Q; Some 2%Q; Some 4%Q])].

(** The same data on a datetime index (nanosecond timestamps). *)
Definition three_days : DataFrame :=
  mkDataFrame (DtS [Some 0; Some 86400000000000; Some 172800000000000])
    [mkColumn (LStr "value") (NumS [Some 1%Q; Some 2%Q; Some 4%Q])].



(** The row labels [get_interpolated_df] spreads the original rows over. *)
Definition spread_labels (n : nat) (steps_per_period : Z) : list Z :=
  map (fun k => k * steps_per_period) (range (Z.of_nat n)).

(** A Timestamp: an int64 other than the one that stands for NaT. *)
Definition timestamp (t : Z) : bool := (int64_min <? t) && (t <=? int64_max).

(** A span of nanoseconds that float64 and int64 both hold exactly. *)
Definition exact_span (delta : Z) : bool :=
  Qeq_bool (float64 (inject_Z delta)) (inject_Z delta)
  && (int64_min <=? delta) && (delta <=? int64_max).


(** On a datetime index: every timestamp of the first [n] rows leaves room
    for the pad of one second below [Timestamp.max].  Any other index
    passes. *)
Definition pad_fits (n : nat) (index : Series) : bool :=
  match index with
  | DtS v =>
      forallb (fun o => match o with
                        | Some t => t + one_second <=? int64_max
                        | None => true
                        end) (firstn n v)
  | _ => true
  end.

(** The three ways [get_interpolated_df] fills column 0. *)
Definition fill_index (interpolate_period : bool) (col0 : Series)
    : result Series :=
  if interpolate_period then
    match col0 with
    | DtS v =>
        '(first, last) ← first_last v;
        Ok (DtS (map Some (date_range first last (length v))))
    | other => Ok (series_interpolate other)
    end
  else Ok (ffill col0).

(** The yearly table interpolated in stepped mode, two steps per period. *)
Definition yearly_stepped : DataFrame :=
  mkDataFrame
    (NumS [Some 2000%Q; Some 2000%Q; Some 2001%Q; Some 2001%Q; Some 2002%Q])
    [mkColumn (LStr "value")
       (NumS [Some 1%Q; Some (3 # 2)%Q; Some 2%Q; Some 3%Q; Some 4%Q])].

(** The three-day table interpolated in smooth mode, two steps per period. *)
Definition three_days_smooth : DataFrame :=
  mkDataFrame
    (DtS [Some 0; Some 43200000000000; Some 86400000000000;
          Some 129600000000000; Some 172800000000000])
    [mkColumn (LStr "value")
       (NumS [Some 1%Q; Some (3 # 2)%Q; Some 2%Q; Some 3%Q; Some 4%Q])].

(** The attributes that appending a point to [_points] leaves alone. *)
Definition same_setup (c c' : Chart) : Prop :=
  ax c' = ax c /\ df c' = df c /\ size c' = size c
  /\ data_cols c' = data_cols c /\ colors c' = colors c
  /\ period_fmt c' = period_fmt c /\ period_label c' = period_label c
  /\ line_width c' = line_width c.

(** A stand-in for the string formatting of the platform, for running the
    charts on examples: every label is the format string itself. *)
Definition echo_formatter : Formatter :=
  mkFormatter (fun _ fmt => fmt) (fun fmt _ => Ok fmt) (fun _ => "").

(** The charts of the examples: the three-day table, smooth mode, two
    steps per period. *)
Definition example_chart (fmt : option string) (label : PeriodLabel)
    (cmap : list string) (sz : SizeOpt) : result Chart :=
  post_init three_days true 2 fmt label cmap sz 2.

(** The chart after the whole animation, and how the animation ended. *)
Definition run_scatter (F : Formatter) (rc : result Chart)
    : result (Chart * result unit) :=
  c ← rc; Ok (animate ScatterChart.init_func (ScatterChart.anim_func F) c).

Definition run_line (F : Formatter) (rc : result Chart)
    : result (Chart * result unit) :=
  c ← rc; Ok (animate LineChart.init_func (LineChart.anim_func F) c).

(** What drawing a frame leaves alone: the table, the label settings and
    the Text artists. *)
Definition same_labels (c c' : Chart) : Prop :=
  df c' = df c /\ period_fmt c' = period_fmt c
  /\ period_label c' = period_label c
  /\ texts (ax c') = texts (ax c)
  /\ text_calls (ax c') = text_calls (ax c).

(** A method that relates every state to the state it leaves, whether it
    returns or raises. *)
Definition preserves {S A} (R : S -> S -> Prop) (m : ST S A) : Prop :=
  forall s, R s (m s).1.

(** What [show_period] leaves alone. *)
Definition same_setup_but_ax (c c' : Chart) : Prop :=
  df c' = df c /\ period_fmt c' = period_fmt c
  /\ period_label c' = period_label c.

(** A frame callback that returned has drawn, keeping the labels, and then
    called [show_period]. *)
Definition draws_then_shows (F : Formatter) (anim_func : nat -> ST Chart unit)
    : Prop :=
  forall i c c',
    fmt_truthy (period_fmt c) = true -> anim_func i c = (c', Ok tt) ->
    exists c1, same_labels c c1 /\ show_period F i c1 = (c', Ok tt).

(** The line chart of the examples as [__attrs_post_init__] leaves it, with
    the label enabled and the format "%Y". *)
Definition line_example : Chart :=
  mkChart three_days_smooth (Some "%Y") (PLBool true) ["value"] ["red"]
    empty_axes (init_points ["value"]) (SizeInt 5) 2.

(** ** Further notions *)

(** One round of the loop of [plot_line], for the pair [(name, color)]. *)
Definition line_round (i : nat) (pair : string * string) : ST Chart unit :=
  let '(name, color) := pair in
  append_x name i >>>
  append_y name i >>>
  do p <~ points_of name in
  do c <~ get in
  on_ax (modify (ax_plot (pts_x p) (pts_y p) (line_width c) (Some color))).

(** One round of the loop of [plot_point]. *)
Definition scatter_round (i : nat) (pair : string * string) : ST Chart unit :=
  let '(name, color) := pair in
  append_x name i >>>
  append_y name i >>>
  set_size name i >>>
  do p <~ points_of name in
  on_ax (modify (ax_scatter
                   (mkScatter (pts_x p) (pts_y p) (pts_size p) (Some color)))).

(** What drawing on the axes leaves alone: everything but the axes. *)
Definition same_data (c c' : Chart) : Prop :=
  points c' = points c /\ df c' = df c /\ data_cols c' = data_cols c
  /\ colors c' = colors c /\ line_width c' = line_width c
  /\ size c' = size c /\ period_fmt c' = period_fmt c
  /\ period_label c' = period_label c.

(** The chart after a round of [plot_line] that appended [vx], [vy] to the
    entry [p] of [name]. *)
Definition line_appended (c : Chart) (name color : string) (p : Points)
    (vx vy : Cell) : Chart :=
  with_ax
    (with_points c
       (<[name := mkPoints (pts_x p ++ [vx]) (pts_y p ++ [vy]) (pts_size p)]>
          (points c)))
    (ax_plot (pts_x p ++ [vx]) (pts_y p ++ [vy]) (line_width c)
       (Some color) (ax c)).

(** The value [plot_point] stores under "size" at frame [i]: the int, or
    the value of the size column at row [i]. *)
Definition size_value (c : Chart) (i : nat) : result Cell :=
  match size c with
  | SizeInt n => Ok (NumC (inject_Z n))
  | SizeStr sz =>
      if string_in sz (data_cols c) then getitem_iloc (df c) (LStr sz) i
      else Raise (SizeNotInColumns sz)
  end.

(** The chart after a round of [plot_point] that appended [vx], [vy] to the
    entry [p] of [name] and stored the size [sv]. *)
Definition scatter_appended (c : Chart) (name color : string) (p : Points)
    (vx vy sv : Cell) : Chart :=
  with_ax
    (with_points c
       (<[name := mkPoints (pts_x p ++ [vx]) (pts_y p ++ [vy]) (Some sv)]>
          (points c)))
    (ax_scatter (mkScatter (pts_x p ++ [vx]) (pts_y p ++ [vy]) (Some sv)
                   (Some color)) (ax c)).

(** What [show_period] leaves alone on the axes. *)
Definition same_drawing (c c' : Chart) : Prop :=
  collections (ax c') = collections (ax c) /\ lines (ax c') = lines (ax c)
  /\ xlim (ax c') = xlim (ax c) /\ ylim (ax c') = ylim (ax c).


(** * Properties *)

(** ** Column selector *)

Lemma label_eqb_eq (a b : Label) : label_eqb a b = true <-> a = b.
Proof.
  destruct a as [s|x], b as [t|y]; simpl; split; intros H;
    try discriminate; try congruence.
  - apply String.eqb_eq in H. congruence.
  - injection H as ->. apply String.eqb_refl.
  - apply Z.eqb_eq in H. congruence.
  - injection H as ->. apply Z.eqb_refl.
Qed.

Lemma label_in_elem (col : Label) (cols : list Label) :
  col ∈ cols -> label_in col cols = true.
Proof.
  intros H. unfold label_in. apply existsb_exists. exists col. split.
  - by apply list_elem_of_In.
  - by apply label_eqb_eq.
Qed.

Lemma filter_label_absent (l : Label) (cs : list Column) :
  l ∉ map col_label cs ->
  filter (fun c => label_eqb l (col_label c)) cs = [].
Proof.
  induction cs as [|c cs IH]; intros Hn; [done|].
  rewrite filter_cons. simpl in Hn. apply not_elem_of_cons in Hn as [Hne Hn].
  destruct (decide _) as [Heq|_].
  - apply Is_true_true, label_eqb_eq in Heq. congruence.
  - by apply IH.
Qed.

Lemma filter_label_unique (c : Column) (cs : list Column) :
  NoDup (map col_label cs) -> c ∈ cs ->
  filter (fun c' => label_eqb (col_label c) (col_label c')) cs = [c].
Proof.
  induction cs as [|c0 cs IH]; intros Hnd Hin; [by apply elem_of_nil in Hin|].
  simpl in Hnd. apply NoDup_cons in Hnd as [Hfresh Hnd].
  rewrite filter_cons. apply elem_of_cons in Hin as [->|Hin].
  - destruct (decide _) as [_|Hne].
    + by rewrite filter_label_absent.
    + exfalso. apply Hne, Is_true_true, label_eqb_eq. done.
  - destruct (decide _) as [Heq|_].
    + exfalso. apply Is_true_true, label_eqb_eq in Heq. apply Hfresh.
      rewrite <- Heq. apply list_elem_of_fmap. by exists c.
    + by apply IH.
Qed.

Lemma getitem_dtype_unique (d : DataFrame) (c : Column) :
  NoDup (columns d) -> c ∈ df_columns d ->
  getitem_dtype d (col_label c) = Ok (dtype (col_data c)).
Proof.
  intros Hnd Hin. unfold getitem_dtype.
  by rewrite (filter_label_unique c (df_columns d) Hnd Hin).
Qed.

Lemma get_data_cols_loop_unique (d : DataFrame) (cs : list Column)
    (acc : list Label) :
  NoDup (columns d) -> cs ⊆ df_columns d ->
  get_data_cols_loop d (map col_label cs) acc = Ok (acc ++ numeric_columns cs).
Proof.
  intros Hnd. revert acc. induction cs as [|c cs IH]; intros acc Hsub; simpl.
  - unfold numeric_columns. by rewrite filter_nil, app_nil_r.
  - assert (Hc : c ∈ df_columns d) by (apply Hsub; left).
    rewrite label_in_elem by (apply list_elem_of_fmap; by exists c).
    simpl. rewrite (getitem_dtype_unique d c Hnd Hc). simpl.
    rewrite IH by (intros x Hx; apply Hsub; by right).
    unfold numeric_columns. rewrite filter_cons.
    destruct (is_number (dtype (col_data c))) eqn:E.
    + destruct (decide _) as [_|H]; [|by destruct H].
      simpl. by rewrite <- app_assoc.
    + destruct (decide _) as [H|_]; [by destruct H|]. done.
Qed.

Lemma get_data_cols_loop_found (d : DataFrame) (todo acc : list Label)
    (col : Label) :
  todo ⊆ columns d ->
  get_data_cols_loop d todo acc <> Raise (MissingColumn col).
Proof.
  revert acc. induction todo as [|c todo IH]; intros acc Hsub; simpl; [done|].
  rewrite label_in_elem by (apply Hsub; left). simpl.
  unfold getitem_dtype.
  destruct (filter _ _) as [|c1 [|c2 rest]]; simpl; try done.
  apply IH. intros x Hx. apply Hsub. by right.
Qed.

(** C7, as stated, fails: on a table with two numeric columns under one
    label, [df[col]] is a DataFrame, which has no [dtype]; [get_data_cols]
    raises that AttributeError and returns no list, although the table has
    numeric columns. *)
Lemma get_data_cols_duplicate_label_raises :
  numeric_columns (df_columns twin_columns) = [LStr "a"; LStr "a"]
  /\ get_data_cols twin_columns = Raise (FrameHasNoDtype (LStr "a")).
Proof. split; reflexivity. Qed.

(** C7, amended. On a table whose column labels are distinct, [get_data_cols]
    returns the names of exactly the numeric columns, in column order (a
    list of length at least 1), when there is at least one numeric column,
    and raises "No numeric data columns found for plotting." when there is
    none. *)
Theorem get_data_cols_numeric (d : DataFrame) :
  NoDup (columns d) ->
  (numeric_columns (df_columns d) <> [] ->
     get_data_cols d = Ok (map py_str (numeric_columns (df_columns d)))
     /\ (1 <= length (map py_str (numeric_columns (df_columns d))))%nat)
  /\ (numeric_columns (df_columns d) = [] ->
        get_data_cols d = Raise NoNumericColumns).
Proof.
  intros Hnd. unfold get_data_cols, columns.
  rewrite (get_data_cols_loop_unique d (df_columns d) [] Hnd) by done.
  simpl. split; intros H.
  - destruct (numeric_columns (df_columns d)) as [|l ls]; [done|].
    split; [done|]. simpl. lia.
  - by rewrite H.
Qed.

Lemma get_data_cols_numeric_witness :
  get_data_cols three_columns = Ok ["7"; "temp"]
  /\ get_data_cols (mkDataFrame (DtS []) [mkColumn (LStr "city") (ObjS [])])
     = Raise NoNumericColumns.
Proof.
  split.
  - refine (proj1 (proj1 (get_data_cols_numeric three_columns _) _)).
    + apply (bool_decide_unpack _). reflexivity.
    + vm_compute. discriminate.
  - refine (proj2 (get_data_cols_numeric _ _) _).
    + apply (bool_decide_unpack _). reflexivity.
    + reflexivity.
Defined.

(** C10. The "Could not find ... in the columns" branch of [get_data_cols]
    is dead: the loop runs over [df.columns], so [col not in df.columns] is
    false at every iteration and that exception is raised for no table. *)
Theorem get_data_cols_never_missing (d : DataFrame) (col : Label) :
  get_data_cols d <> Raise (MissingColumn col).
Proof.
  unfold get_data_cols.
  pose proof (get_data_cols_loop_found d (columns d) [] col) as H.
  destruct (get_data_cols_loop d (columns d) []) as [l|e] eqn:E; simpl.
  - by destruct l.
  - intros [= ->]. by apply H.
Qed.

(** ** Period label configuration *)

Lemma has_key_false (k : string) (d : gmap string StyleVal) :
  has_key k d = false <-> d !! k = None.
Proof. unfold has_key. destruct (d !! k); split; congruence. Qed.

Lemma truthy_dict (d : gmap string StyleVal) :
  truthy (PLDict d) = false <-> d = ∅.
Proof.
  simpl. rewrite negb_false_iff, Nat.eqb_eq. apply map_size_empty_iff.
Qed.

(** C9, as stated, fails: for the dict [{"x": 0.5}] the keys "x" and "y" are
    not both missing, yet [get_period_label] raises the ValueError. *)
Lemma get_period_label_only_x_raises :
  ~ (get_period_label (PLDict only_x) = Raise PeriodLabelKeys
     <-> only_x !! "x" = None /\ only_x !! "y" = None).
Proof.
  intros [Hraise _].
  assert (H : get_period_label (PLDict only_x) = Raise PeriodLabelKeys)
    by reflexivity.
  destruct (Hraise H) as [Hx _]. vm_compute in Hx. discriminate.
Qed.

(** C9, amended.  A falsy [period_label] ([False] or the empty dict) gives
    [False]; [True] gives the default style dict, which has the keys "x"
    and "y"; a non-empty dict raises the ValueError exactly when at least
    one of the keys "x" and "y" is missing, and is returned unchanged
    otherwise. *)
Theorem get_period_label_cases (pl : PeriodLabel) :
  (truthy pl = false -> get_period_label pl = Ok (PLBool false))
  /\ (pl = PLBool true ->
        get_period_label pl = Ok (PLDict default_period_label)
        /\ has_key "x" default_period_label = true
        /\ has_key "y" default_period_label = true)
  /\ (forall d, pl = PLDict d -> d <> ∅ ->
        (get_period_label pl = Raise PeriodLabelKeys
           <-> d !! "x" = None \/ d !! "y" = None)
        /\ (get_period_label pl = Ok (PLDict d)
           <-> d !! "x" <> None /\ d !! "y" <> None)).
Proof.
  split; [|split].
  - intros H. unfold get_period_label. by rewrite H.
  - intros ->. split; [reflexivity|]. split; reflexivity.
  - intros d -> Hne.
    assert (Ht : truthy (PLDict d) = true).
    { destruct (truthy (PLDict d)) eqn:E; [done|].
      by apply truthy_dict in E. }
    unfold get_period_label. rewrite Ht. simpl.
    rewrite <- !has_key_false.
    destruct (has_key "x" d), (has_key "y" d); simpl;
      repeat split; try done; try discriminate; auto;
      try (intros [?|?]; done); try (intros [? ?]; done).
Qed.

Lemma get_period_label_cases_witness :
  get_period_label (PLDict ∅) = Ok (PLBool false)
  /\ get_period_label (PLBool true) = Ok (PLDict default_period_label)
  /\ get_period_label (PLDict only_x) = Raise PeriodLabelKeys.
Proof.
  split; [|split].
  - apply (proj1 (get_period_label_cases (PLDict ∅))). reflexivity.
  - apply (proj1 (proj2 (get_period_label_cases (PLBool true)))). reflexivity.
  - apply (proj2 (proj2 (get_period_label_cases (PLDict only_x))) only_x).
    + reflexivity.
    + intros H. apply (f_equal (fun m => m !! "x")) in H.
      vm_compute in H. discriminate.
    + right. reflexivity.
Defined.

(** ** Frame interpolator: the shape of the result *)

Lemma length_range (n : Z) : length (range n) = Z.to_nat n.
Proof. unfold range. by rewrite length_map, length_seq. Qed.

Lemma length_reindex_cells {A} (labels : list Z) (v : list (option A))
    (new_index : list Z) :
  length (reindex_cells labels v new_index) = length new_index.
Proof. unfold reindex_cells. by rewrite length_map. Qed.

Lemma len_reindex_series (labels : list Z) (s : Series) (new_index : list Z) :
  len (reindex_series labels s new_index) = length new_index.
Proof. destruct s; simpl; apply length_reindex_cells. Qed.

Lemma length_ffill_from {A} (prev : option A) (v : list (option A)) :
  length (ffill_from prev v) = length v.
Proof.
  revert prev. induction v as [|[a|] v IH]; intros prev; simpl; auto.
Qed.

Lemma length_interp_from (x : nat -> Q) (p : nat) (prev : option (Q * Q))
    (ys : list (option Q)) :
  length (interp_from x p prev ys) = length ys.
Proof.
  revert p prev. induction ys as [|[y|] ys IH]; intros p prev; simpl; auto.
Qed.

Lemma length_date_range (first last : Z) (periods : nat) :
  length (date_range first last periods) = periods.
Proof.
  unfold date_range, linspace. by rewrite !length_map, length_seq.
Qed.

Lemma len_fill_index (ip : bool) (col0 filled : Series) :
  fill_index ip col0 = Ok filled -> len filled = len col0.
Proof.
  unfold fill_index. destruct ip.
  - destruct col0 as [v|v|v]; simpl.
    + intros [= <-]. simpl. apply length_interp_from.
    + destruct (first_last v) as [[f l]|e]; simpl; [|done].
      intros [= <-]. simpl. by rewrite length_map, length_date_range.
    + by intros [= <-].
  - intros [= <-]. destruct col0; simpl; apply length_ffill_from.
Qed.

Lemma interpolate_linear_index (d t : DataFrame) :
  interpolate_linear d = Ok t -> df_index t = df_index d.
Proof.
  unfold interpolate_linear. destruct (all_object _); [done|].
  by intros [= <-].
Qed.

Lemma interpolate_time_index (d t : DataFrame) :
  interpolate_time d = Ok t -> df_index t = df_index d.
Proof.
  unfold interpolate_time. destruct (all_object _); [done|].
  destruct (has_missing _); [done|].
  destruct (map_result _ _); simpl; [|done]. by intros [= <-].
Qed.

(** What a successful call went through: the last label exists, the labels
    are distinct, and the index of the result is column 0 of the reindexed
    table, filled. *)
Lemma get_interpolated_df_inv (d t : DataFrame) (s : Z) (ip : bool) :
  get_interpolated_df d s ip = Ok t ->
  exists l,
    index_last (spread_labels (nrows d) s) = Ok l
    /\ has_duplicates (spread_labels (nrows d) s) = false
    /\ fill_index ip (reindex_series (spread_labels (nrows d) s) (df_index d)
                        (range (l + 1)))
       = Ok (df_index t).
Proof.
  unfold get_interpolated_df, reset_index, reindex; simpl.
  fold (spread_labels (nrows d) s).
  destruct (index_last (spread_labels (nrows d) s)) as [l|e]; simpl; [|done].
  destruct (has_duplicates (spread_labels (nrows d) s)); simpl; [done|].
  intros H. exists l. split; [done|]. split; [done|].
  unfold fill_index. destruct ip.
  - destruct (reindex_series _ (df_index d) _) as [v|v|v]; simpl in *.
    + apply interpolate_time_index in H. simpl in H. by rewrite H.
    + destruct (first_last v) as [[f la]|e]; simpl in *; [|done].
      apply interpolate_time_index in H. simpl in H. by rewrite H.
    + apply interpolate_time_index in H. simpl in H. by rewrite H.
  - apply interpolate_linear_index in H. simpl in H. by rewrite H.
Qed.

Lemma last_map {A B} (f : A -> B) (l : list A) :
  last (map f l) = f <$> last l.
Proof.
  induction l as [|a [|b l] IH]; simpl in *; auto.
Qed.

Lemma head_map {A B} (f : A -> B) (l : list A) :
  head (map f l) = f <$> head l.
Proof. by destruct l. Qed.

Lemma last_seq (n : nat) : last (seq 0 (S n)) = Some n.
Proof. rewrite seq_S. simpl. by rewrite last_snoc. Qed.

Lemma index_last_spread (n : nat) (s l : Z) :
  index_last (spread_labels n s) = Ok l ->
  (1 <= n)%nat /\ l = (Z.of_nat n - 1) * s.
Proof.
  unfold index_last, spread_labels, range. rewrite Nat2Z.id.
  destruct n as [|n]; [done|].
  rewrite !last_map, last_seq. simpl. intros [= <-]. split; [lia|].
  f_equal. lia.
Qed.

(** The number of rows of the interpolated table. *)
Lemma nrows_interpolated (d t : DataFrame) (s : Z) (ip : bool) :
  get_interpolated_df d s ip = Ok t ->
  (1 <= nrows d)%nat
  /\ nrows t = Z.to_nat ((Z.of_nat (nrows d) - 1) * s + 1).
Proof.
  intros H. apply get_interpolated_df_inv in H as (l & Hl & _ & Hfill).
  apply index_last_spread in Hl as [Hn ->]. split; [done|].
  apply len_fill_index in Hfill. unfold nrows. rewrite Hfill.
  by rewrite len_reindex_series, length_range.
Qed.

(** ** Frame interpolator: labels, first and last row *)

Lemma index_of_spread (s : Z) (n m k : nat) :
  s <> 0 -> (m <= k < m + n)%nat ->
  index_of (Z.of_nat k * s) (map (fun j => j * s) (map Z.of_nat (seq m n)))
  = Some (k - m)%nat.
Proof.
  intros Hs. revert m. induction n as [|n IH]; intros m Hk; [lia|].
  simpl. destruct (Z.eqb_spec (Z.of_nat k * s) (Z.of_nat m * s)) as [E|E].
  - apply Z.mul_cancel_r in E; [|done]. f_equal. lia.
  - assert (k <> m) by (intros ->; done).
    rewrite IH by lia. simpl. f_equal. lia.
Qed.

Lemma has_duplicates_spread (s : Z) (n : nat) :
  s <> 0 -> has_duplicates (spread_labels n s) = false.
Proof.
  intros Hs. unfold spread_labels, range. rewrite Nat2Z.id.
  generalize 0%nat as m. induction n as [|n IH]; intros m; [done|].
  simpl. rewrite IH, orb_false_r.
  apply not_true_iff_false. intros H. apply existsb_exists in H as (x & Hx & E).
  apply Z.eqb_eq in E. subst x.
  apply in_map_iff in Hx as (y & Hy & Hin).
  apply in_map_iff in Hin as (j & <- & Hj). apply in_seq in Hj.
  apply Z.mul_cancel_r in Hy; [|done]. lia.
Qed.

Lemma head_lookup {A} (l : list A) : l !! 0%nat = head l.
Proof. by destruct l. Qed.

Lemma last_range (l : Z) : 0 <= l -> last (range (l + 1)) = Some l.
Proof.
  intros Hl. unfold range. replace (Z.to_nat (l + 1)) with (S (Z.to_nat l)) by lia.
  rewrite last_map, last_seq. simpl. f_equal. lia.
Qed.

Lemma head_range (l : Z) : 0 <= l -> head (range (l + 1)) = Some 0.
Proof.
  intros Hl. unfold range. replace (Z.to_nat (l + 1)) with (S (Z.to_nat l)) by lia.
  done.
Qed.

Section Spread.
Context {A : Type} (s : Z) (v : list (option A)).
Hypothesis Hs : 0 < s.
Hypothesis Hv : (1 <= length v)%nat.

Let l : Z := (Z.of_nat (length v) - 1) * s.

Lemma reindex_cells_head :
  head (reindex_cells (spread_labels (length v) s) v (range (l + 1)))
  = head v.
Proof using Hs Hv.
  unfold reindex_cells. rewrite head_map, head_range by (subst l; nia).
  simpl. unfold spread_labels, range. rewrite Nat2Z.id.
  change 0 with (Z.of_nat 0 * s).
  rewrite index_of_spread by lia. simpl. rewrite head_lookup.
  destruct v; simpl in *; [lia|done].
Qed.

Lemma reindex_cells_last :
  last (reindex_cells (spread_labels (length v) s) v (range (l + 1)))
  = last v.
Proof using Hs Hv.
  unfold reindex_cells. rewrite last_map, last_range by (subst l; nia).
  simpl. unfold spread_labels, range. rewrite Nat2Z.id.
  replace l with (Z.of_nat (length v - 1) * s) by (subst l; f_equal; lia).
  rewrite index_of_spread by lia. rewrite Nat.sub_0_r, last_lookup.
  replace (Nat.pred (length v)) with (length v - 1)%nat by lia.
  destruct (v !! (length v - 1)%nat) as [x|] eqn:E; [done|].
  apply lookup_ge_None in E. lia.
Qed.
End Spread.





Lemma first_last_inv (v : list (option Z)) (f l : Z) :
  first_last v = Ok (f, l) -> head v = Some (Some f) /\ last v = Some (Some l).
Proof.
  unfold first_last.
  destruct (head v) as [[a|]|], (last v) as [[b|]|]; try done.
  by intros [= -> ->].
Qed.

Lemma float64_zero (q : Q) : (q == 0)%Q -> float64 q = 0%Q.
Proof.
  intros H. unfold float64. by rewrite (Qred_complete _ _ H).
Qed.

Lemma float64_comp (q q' : Q) : (q == q')%Q -> float64 q = float64 q'.
Proof.
  intros H. unfold float64. by rewrite (Qred_complete _ _ H).
Qed.

(** An integer of at most 53 bits is a float64. *)
Lemma float64_int (z : Z) : Z.abs z < 2 ^ 53 -> float64 (inject_Z z) = inject_Z z.
Proof.
  intros Hz. unfold float64. rewrite inject_Z_Qred.
  change (Qnum (inject_Z z)) with z. change (Qden (inject_Z z)) with 1%positive.
  destruct (Z.eqb_spec (Z.abs z) 0) as [H0|H0].
  { assert (z = 0) by lia. by subst. }
  assert (Hpos : 0 < Z.abs z) by lia.
  change (Z.log2 1) with 0. rewrite Z.sub_0_r.
  pose proof (Z.log2_spec _ Hpos) as [Hlo Hhi].
  pose proof (Z.log2_nonneg (Z.abs z)) as Hnn.
  assert (Hlt : Z.log2 (Z.abs z) < 53) by (apply Z.log2_lt_pow2; lia).
  unfold ge_pow2.
  replace (0 <=? Z.log2 (Z.abs z)) with true by (symmetry; apply Z.leb_le; lia).
  replace (1 * 2 ^ Z.log2 (Z.abs z) <=? Z.abs z) with true
    by (symmetry; apply Z.leb_le; lia).
  replace (0 <=? 52 - Z.log2 (Z.abs z)) with true
    by (symmetry; apply Z.leb_le; lia).
  set (k := 52 - Z.log2 (Z.abs z)).
  assert (Hk : 0 < 2 ^ k) by (apply Z.pow_pos_nonneg; lia).
  assert (Hr : round_half_even (Z.abs z * 2 ^ k) 1 = Z.abs z * 2 ^ k).
  { unfold round_half_even. by rewrite Z.mod_1_r, Z.div_1_r. }
  rewrite Hr, <- (inject_Z_Qred z). apply Qred_complete.
  unfold Qeq. cbn [Qnum Qden inject_Z]. rewrite Z2Pos.id by done.
  replace (z * 2 ^ k) with (Z.abs z * Z.sgn z * 2 ^ k)
    by (by rewrite Z.abs_sgn).
  ring.
Qed.

Lemma exact_span_small (delta : Z) :
  Z.abs delta < 2 ^ 53 -> exact_span delta = true.
Proof.
  intros H. unfold exact_span, int64_min, int64_max.
  rewrite float64_int by done.
  rewrite (proj2 (Qeq_bool_iff _ _) (Qeq_refl _)). simpl.
  apply andb_true_iff. split; apply Z.leb_le; lia.
Qed.

Lemma wrap_int64_timestamp (t : Z) : timestamp t = true -> wrap_int64 t = t.
Proof.
  unfold timestamp, wrap_int64, int64_min, int64_max. intros H.
  apply andb_true_iff in H as [H1 H2].
  apply Z.ltb_lt in H1. apply Z.leb_le in H2.
  rewrite Z.mod_small; lia.
Qed.






(** ** Frame interpolator: when a table is returned *)

Lemma index_last_spread_ok (n : nat) (s : Z) :
  (1 <= n)%nat ->
  index_last (spread_labels n s) = Ok ((Z.of_nat n - 1) * s).
Proof.
  intros Hn. unfold index_last, spread_labels, range. rewrite Nat2Z.id.
  destruct n as [|n]; [lia|].
  rewrite !last_map, last_seq. simpl. do 2 f_equal. lia.
Qed.

Lemma all_object_reindex (labels new_index : list Z) (cols : list Column) :
  all_object (map (fun c => mkColumn (col_label c)
                     (reindex_series labels (col_data c) new_index)) cols)
  = all_object cols.
Proof.
  assert (H : forall l : list Column,
             forallb (fun c => match col_data c with ObjS _ => true | _ => false end)
               (map (fun c => mkColumn (col_label c)
                       (reindex_series labels (col_data c) new_index)) l)
             = forallb (fun c => match col_data c with ObjS _ => true | _ => false end) l).
  { induction l as [|x l IH]; simpl; [done|].
    rewrite IH. by destruct (col_data x). }
  destruct cols as [|c cols]; [done|]. unfold all_object.
  specialize (H (c :: cols)). exact H.
Qed.



(** Stepped mode: a non-empty table whose columns are not all of object
    dtype is interpolated, whatever its index. *)
Lemma get_interpolated_df_ffill_returns (d : DataFrame) (s : Z) :
  0 < s -> (1 <= nrows d)%nat -> all_object (df_columns d) = false ->
  exists t, get_interpolated_df d s false = Ok t.
Proof.
  intros Hs Hn Hobj. unfold get_interpolated_df, reset_index, reindex; simpl.
  fold (spread_labels (nrows d) s).
  rewrite index_last_spread_ok by done. simpl.
  rewrite has_duplicates_spread by lia. simpl.
  unfold interpolate_linear, set_index. simpl.
  rewrite all_object_reindex, Hobj. by eexists.
Qed.


(** ** Frame interpolator: the claims *)




(** C2, as stated, fails: on the yearly table with two steps per period and
    [interpolate_period = True] the call raises (time-weighted
    interpolation needs a datetime index), and no mode returns 6 rows. *)
Lemma yearly_smooth_raises :
  get_interpolated_df yearly 2 true = Raise TimeInterpolationNeedsDatetimeIndex
  /\ (forall ip t, get_interpolated_df yearly 2 ip = Ok t -> nrows t <> 6%nat).
Proof.
  split; [reflexivity|].
  intros ip t H. apply nrows_interpolated in H as [_ ->]. vm_compute. lia.
Qed.

(** C2, amended.  On the yearly table with two steps per period,
    [interpolate_period = False] returns 5 rows with index 2000, 2000,
    2001, 2001, 2002 and data 1.0, 1.5, 2.0, 3.0, 4.0;
    [interpolate_period = True] raises on this numeric index, and on the
    same data with a datetime index of three days it returns 5 rows, the
    timestamps evenly spaced half a day apart and the data again 1.0, 1.5,
    2.0, 3.0, 4.0. *)
Theorem yearly_scenario :
  get_interpolated_df yearly 2 false
  = Ok (mkDataFrame
          (NumS [Some 2000%Q; Some 2000%Q; Some 2001%Q; Some 2001%Q; Some 2002%Q])
          [mkColumn (LStr "value")
             (NumS [Some 1%Q; Some (3 # 2)%Q; Some 2%Q; Some 3%Q; Some 4%Q])])
  /\ get_interpolated_df yearly 2 true
     = Raise TimeInterpolationNeedsDatetimeIndex
  /\ get_interpolated_df three_days 2 true
     = Ok (mkDataFrame
             (DtS [Some 0; Some 43200000000000; Some 86400000000000;
                   Some 129600000000000; Some 172800000000000])
             [mkColumn (LStr "value")
                (NumS [Some 1%Q; Some (3 # 2)%Q; Some 2%Q; Some 3%Q; Some 4%Q])]).
Proof. repeat split; vm_compute; reflexivity. Qed.




(** ** Axis scaler *)

Lemma qmin_le (a b : Q) : (qmin a b <= a)%Q /\ (qmin a b <= b)%Q.
Proof.
  unfold qmin. destruct (Qle_bool a b) eqn:E.
  - apply Qle_bool_iff in E. split; [apply Qle_refl|done].
  - split; [|apply Qle_refl]. apply Qlt_le_weak, Qnot_le_lt.
    intros H. apply Qle_bool_iff in H. congruence.
Qed.

Lemma qmax_ge (a b : Q) : (a <= qmax a b)%Q /\ (b <= qmax a b)%Q.
Proof.
  unfold qmax. destruct (Qle_bool a b) eqn:E.
  - apply Qle_bool_iff in E. split; [done|apply Qle_refl].
  - split; [apply Qle_refl|]. apply Qlt_le_weak, Qnot_le_lt.
    intros H. apply Qle_bool_iff in H. congruence.
Qed.

Section Reduce.
Context {A : Type} (R : A -> A -> Prop) (pick : A -> A -> A).
Hypothesis R_refl : forall a, R a a.
Hypothesis R_trans : forall a b c, R a b -> R b c -> R a c.
Hypothesis pick_below : forall a b, R (pick a b) a /\ R (pick a b) b.

(** The reduction of a list with a known cell is known and is below
    every known cell. *)
Lemma reduce_below (v : list (option A)) (a : A) :
  Some a ∈ v -> exists m, reduce pick v = Some m /\ R m a.
Proof using R_refl R_trans pick_below.
  induction v as [|x v IH]; intros Hin; [by apply elem_of_nil in Hin|].
  apply elem_of_cons in Hin as [<-|Hin]; simpl.
  - destruct (reduce pick v) as [b|]; eexists; split; try done.
    apply pick_below.
  - destruct (IH Hin) as (m & -> & Hm). destruct x as [b|].
    + eexists. split; [done|].
      eapply R_trans; [apply pick_below|exact Hm].
    + eauto.
Qed.

Lemma reduce_known (v : list (option A)) (m : A) :
  reduce pick v = Some m -> exists a, Some a ∈ v.
Proof using Type.
  induction v as [|[b|] v IH]; simpl; intros H; [done| |].
  - exists b. left.
  - destruct (IH H) as [a Ha]. exists a. by right.
Qed.
End Reduce.

Lemma frame_min_below (cols : list (list (option Q))) (col : list (option Q))
    (q : Q) :
  col ∈ cols -> Some q ∈ col ->
  exists m, frame_min cols = Some m /\ (m <= q)%Q.
Proof.
  intros Hc Hq.
  destruct (reduce_below Qle qmin Qle_refl Qle_trans qmin_le col q Hq)
    as (m0 & Hm0 & Hle0).
  assert (Hin : Some m0 ∈ map (reduce qmin) cols).
  { rewrite <- Hm0. apply list_elem_of_In, in_map, list_elem_of_In, Hc. }
  destruct (reduce_below Qle qmin Qle_refl Qle_trans qmin_le _ m0 Hin)
    as (m & Hm & Hle).
  exists m. split; [exact Hm|]. by apply Qle_trans with m0.
Qed.

Lemma frame_max_above (cols : list (list (option Q))) (col : list (option Q))
    (q : Q) :
  col ∈ cols -> Some q ∈ col ->
  exists m, frame_max cols = Some m /\ (q <= m)%Q.
Proof.
  intros Hc Hq.
  assert (Hrefl : forall a, flip Qle a a) by (intros a; apply Qle_refl).
  assert (Htrans : forall a b c, flip Qle a b -> flip Qle b c -> flip Qle a c)
    by (unfold flip; intros a b c H1 H2; by apply Qle_trans with b).
  assert (Hpick : forall a b, flip Qle (qmax a b) a /\ flip Qle (qmax a b) b)
    by (intros a b; apply qmax_ge).
  destruct (reduce_below (flip Qle) qmax Hrefl Htrans Hpick col q Hq)
    as (m0 & Hm0 & Hle0).
  assert (Hin : Some m0 ∈ map (reduce qmax) cols).
  { rewrite <- Hm0. apply list_elem_of_In, in_map, list_elem_of_In, Hc. }
  destruct (reduce_below (flip Qle) qmax Hrefl Htrans Hpick _ m0 Hin)
    as (m & Hm & Hle).
  exists m. split; [exact Hm|]. unfold flip in *. by apply Qle_trans with m0.
Qed.

Lemma numeric_prefix_elem (n : nat) (d : DataFrame) (c : Column)
    (vals : list (option Q)) :
  c ∈ df_columns d -> col_data c = NumS vals ->
  firstn n vals ∈ numeric_prefix n d.
Proof.
  intros Hc Hv. unfold numeric_prefix. apply list_elem_of_omap.
  exists c. split; [done|]. by rewrite Hv.
Qed.

Lemma elem_of_prefix {A} (l : list A) (k i : nat) (a : A) :
  (k <= i)%nat -> l !! k = Some a -> a ∈ firstn (i + 1) l.
Proof.
  intros Hk Hl. apply list_elem_of_lookup. exists k.
  rewrite lookup_take_lt by lia. done.
Qed.

(** The steps of a call that returns. *)
Lemma set_x_y_limits_inv (d : DataFrame) (i : nat) (a a' : Axes) :
  set_x_y_limits d i a = (a', Ok tt) ->
  exists xlim_end bottom top,
    add_timedelta (df_index d) (index_max (head_rows (i + 1) (df_index d)))
    = Ok xlim_end
    /\ frame_min (numeric_prefix (i + 1) d) = Some bottom
    /\ frame_max (numeric_prefix (i + 1) d) = Some top
    /\ xlim a' = Some (index_min (head_rows (i + 1) (df_index d)), xlim_end)
    /\ ylim a' = Some (bottom, top)
    /\ texts a' = texts a /\ text_calls a' = text_calls a
    /\ lines a' = lines a /\ collections a' = collections a
    /\ is_na (index_min (head_rows (i + 1) (df_index d))) = false
    /\ is_na xlim_end = false.
Proof.
  unfold set_x_y_limits, st_bind, lift, update.
  destruct (add_timedelta _ _) as [xe|e]; [|done].
  unfold set_xlim.
  destruct (is_na _ || is_na xe) eqn:Ena; [done|].
  apply orb_false_iff in Ena as [Ena1 Ena2].
  unfold set_ylim.
  destruct (frame_min _) as [b|], (frame_max _) as [t|]; try done.
  simpl. intros [= <-]. exists xe, b, t. repeat split; done.
Qed.

Lemma reduce_some {A} (pick : A -> A -> A) (v : list (option A)) (a : A) :
  Some a ∈ v -> exists m, reduce pick v = Some m.
Proof.
  intros H.
  destruct (reduce_below (fun _ _ => True) pick) with (v := v) (a := a)
    as (m & Hm & _); auto.
  by exists m.
Qed.

Lemma reduce_max_le (v : list (option Z)) (hi bound : Z) :
  forallb (fun o => match o with
                    | Some t => t + one_second <=? bound
                    | None => true
                    end) v = true ->
  reduce Z.max v = Some hi -> hi + one_second <= bound.
Proof.
  revert hi. induction v as [|[t|] v IH]; intros hi Hall H; simpl in *;
    [done| |by apply IH].
  apply andb_true_iff in Hall as [Ht Hall]. apply Z.leb_le in Ht.
  destruct (reduce Z.max v) as [m|]; injection H as <-; [|done].
  specialize (IH m Hall eq_refl). lia.
Qed.

(** On a datetime index without missing timestamps the call returns as soon
    as some numeric value is visible, the pad of one second staying below
    [Timestamp.max]. *)
Lemma set_x_y_limits_datetime_returns (d : DataFrame) (i : nat) (a : Axes) :
  dtype (df_index d) = datetime64 -> has_missing (df_index d) = false ->
  pad_fits (i + 1) (df_index d) = true ->
  (i < nrows d)%nat ->
  (exists c vals k v, c ∈ df_columns d /\ col_data c = NumS vals
                      /\ (k <= i)%nat /\ vals !! k = Some (Some v)) ->
  exists a', set_x_y_limits d i a = (a', Ok tt).
Proof.
  intros Hdt Hm Hpad Hi (c & vals & k & v & Hc & Hv & Hk & Hlk).
  unfold set_x_y_limits, st_bind, lift, update, nrows in *.
  destruct (df_index d) as [ix|ix|ix]; try done. simpl in *.
  assert (exists t, ix !! 0%nat = Some (Some t)) as [t Ht].
  { destruct ix as [|[t|] ix]; simpl in *; [lia| |].
    - by exists t.
    - unfold has_missing in Hm. simpl in Hm. done. }
  assert (Hin : Some t ∈ firstn (i + 1) ix)
    by (apply (elem_of_prefix ix 0 i); [lia|done]).
  destruct (reduce_some Z.min _ t Hin) as [lo Hlo].
  destruct (reduce_some Z.max _ t Hin) as [hi Hhi].
  rewrite Hlo, Hhi. simpl.
  pose proof (reduce_max_le _ hi int64_max Hpad Hhi) as Hfit.
  apply Z.leb_le in Hfit. rewrite Hfit.
  pose proof (numeric_prefix_elem (i + 1) d c vals Hc Hv) as Hcol.
  pose proof (elem_of_prefix vals k i (Some v) Hk Hlk) as Hval.
  destruct (frame_min_below _ _ v Hcol Hval) as (b & -> & _).
  destruct (frame_max_above _ _ v Hcol Hval) as (tp & -> & _).
  simpl. by eexists.
Qed.

(** Whenever [set_x_y_limits(df, i)] returns, the y-limits it has set
    contain every non-missing value of every numeric column in rows 0 to
    [i]; it does return on a datetime index without missing timestamps as
    soon as one such value exists and the pad of one second fits below
    [Timestamp.max]. *)
Theorem y_limits_contain_values (d : DataFrame) (i : nat) (a : Axes) :
  (forall a', set_x_y_limits d i a = (a', Ok tt) ->
     exists ymin ymax,
       ylim a' = Some (ymin, ymax)
       /\ forall c vals k v,
            c ∈ df_columns d -> col_data c = NumS vals ->
            (k <= i)%nat -> vals !! k = Some (Some v) ->
            (ymin <= v)%Q /\ (v <= ymax)%Q)
  /\ (dtype (df_index d) = datetime64 -> has_missing (df_index d) = false ->
      pad_fits (i + 1) (df_index d) = true ->
      (i < nrows d)%nat ->
      (exists c vals k v, c ∈ df_columns d /\ col_data c = NumS vals
                          /\ (k <= i)%nat /\ vals !! k = Some (Some v)) ->
      exists a', set_x_y_limits d i a = (a', Ok tt)).
Proof.
  split.
  - intros a' H.
    apply set_x_y_limits_inv in H
      as (xe & b & t & _ & Hb & Ht & _ & Hy & _).
    exists b, t. split; [exact Hy|].
    intros c vals k v Hc Hv Hk Hlk.
    pose proof (numeric_prefix_elem (i + 1) d c vals Hc Hv) as Hcol.
    pose proof (elem_of_prefix vals k i (Some v) Hk Hlk) as Hval.
    destruct (frame_min_below _ _ v Hcol Hval) as (m & Hm & Hle).
    destruct (frame_max_above _ _ v Hcol Hval) as (M & HM & Hge).
    rewrite Hb in Hm. rewrite Ht in HM.
    injection Hm as ->. injection HM as ->. done.
  - apply set_x_y_limits_datetime_returns.
Qed.

Lemma y_limits_contain_values_witness :
  exists a', set_x_y_limits three_days_smooth 3 empty_axes = (a', Ok tt)
             /\ ylim a' = Some (1%Q, 3%Q)
             /\ (1 <= 3 # 2)%Q /\ (3 # 2 <= 3)%Q.
Proof.
  destruct (y_limits_contain_values three_days_smooth 3 empty_axes)
    as [Hin Hret].
  destruct Hret as [a' Ha'];
    [reflexivity|reflexivity|reflexivity|unfold nrows; simpl; lia| |].
  { exists (mkColumn (LStr "value")
              (NumS [Some 1%Q; Some (3 # 2)%Q; Some 2%Q; Some 3%Q; Some 4%Q])),
      [Some 1%Q; Some (3 # 2)%Q; Some 2%Q; Some 3%Q; Some 4%Q], 1%nat, (3 # 2)%Q.
    repeat split; [left|lia]. }
  exists a'. split; [exact Ha'|].
  destruct (Hin a' Ha') as (ymin & ymax & Hy & Hbound).
  assert (E : a' = mkAxes (Some (DtC 0, DtC 129601000000000)) (Some (1%Q, 3%Q))
                     [] 0 [] []).
  { vm_compute in Ha'. congruence. }
  subst a'. split; [reflexivity|]. simpl in Hy. injection Hy as <- <-.
  apply (Hbound (mkColumn (LStr "value")
                   (NumS [Some 1%Q; Some (3 # 2)%Q; Some 2%Q; Some 3%Q; Some 4%Q]))
           [Some 1%Q; Some (3 # 2)%Q; Some 2%Q; Some 3%Q; Some 4%Q] 1%nat (3 # 2)%Q);
    [left|reflexivity|lia|reflexivity].
Defined.

(** C4 fails on the code.  On a numeric index [set_x_y_limits] raises the
    TypeError of the pad before it reaches [set_ylim]: the y-limits stay
    as they were, whatever values the rows 0 to [i] hold. *)
Theorem y_limits_unset_on_numeric_index (d : DataFrame) (i k : nat)
    (a : Axes) (ix : list (option Q)) (q : Q) :
  df_index d = NumS ix -> (k <= i)%nat -> ix !! k = Some (Some q) ->
  exists a', set_x_y_limits d i a = (a', Raise TimedeltaOperand)
             /\ ylim a' = ylim a.
Proof.
  intros Hix _ _. exists a. split; [|done].
  unfold set_x_y_limits, st_bind, lift. by rewrite Hix.
Qed.

Lemma y_limits_unset_on_numeric_index_witness :
  exists a' vals,
    set_x_y_limits yearly_stepped 4 empty_axes = (a', Raise TimedeltaOperand)
    /\ ylim a' = None
    /\ df_columns yearly_stepped = [mkColumn (LStr "value") (NumS vals)]
    /\ vals !! 4%nat = Some (Some 4%Q).
Proof.
  destruct (y_limits_unset_on_numeric_index yearly_stepped 4 4 empty_axes
              [Some 2000%Q; Some 2000%Q; Some 2001%Q; Some 2001%Q; Some 2002%Q]
              2002%Q eq_refl ltac:(lia) eq_refl) as (a' & Ha' & Hy).
  exists a', [Some 1%Q; Some (3 # 2)%Q; Some 2%Q; Some 3%Q; Some 4%Q].
  split; [exact Ha'|]. split; [exact Hy|]. split; reflexivity.
Defined.

(** On a datetime index the x-limits set by a call that returns run from
    the smallest timestamp of rows 0 to [i] to the largest plus one
    second. *)
Lemma x_limits_datetime (d : DataFrame) (i : nat) (a a' : Axes)
    (ix : list (option Z)) :
  df_index d = DtS ix -> set_x_y_limits d i a = (a', Ok tt) ->
  exists lo hi,
    reduce Z.min (firstn (i + 1) ix) = Some lo
    /\ reduce Z.max (firstn (i + 1) ix) = Some hi
    /\ xlim a' = Some (DtC lo, DtC (hi + one_second)).
Proof.
  intros Hix H.
  apply set_x_y_limits_inv in H
    as (xe & _ & _ & Hadd & _ & _ & Hx & _ & _ & _ & _ & _ & Hlo & Hhi).
  rewrite Hix in Hadd, Hx, Hlo. simpl in Hadd, Hx, Hlo.
  destruct (reduce Z.max (firstn (i + 1) ix)) as [hi|]; simpl in Hadd;
    [destruct (hi + one_second <=? int64_max); [|done]|];
    injection Hadd as <-; [|done].
  destruct (reduce Z.min (firstn (i + 1) ix)) as [lo|]; [|done].
  by exists lo, hi.
Qed.

(** C5 fails on the code.  On a numeric index [set_x_y_limits] raises the
    TypeError of adding [pd.Timedelta(seconds=1)] to a number, for every
    frame, before any limit is set. *)
Theorem set_x_y_limits_numeric_index_raises (d : DataFrame) (i : nat)
    (a : Axes) :
  dtype (df_index d) = number ->
  set_x_y_limits d i a = (a, Raise TimedeltaOperand).
Proof.
  intros H. unfold set_x_y_limits, st_bind, lift.
  destruct (df_index d) as [ix|ix|ix]; done.
Qed.

Lemma set_x_y_limits_numeric_index_raises_witness :
  set_x_y_limits yearly_stepped 0 empty_axes
  = (empty_axes, Raise TimedeltaOperand).
Proof.
  apply set_x_y_limits_numeric_index_raises. reflexivity.
Defined.

(** ** Scatter chart: a size that names no data column *)

Lemma set_x_y_limits_keeps (d : DataFrame) (i : nat) (a : Axes) :
  texts (set_x_y_limits d i a).1 = texts a
  /\ text_calls (set_x_y_limits d i a).1 = text_calls a
  /\ lines (set_x_y_limits d i a).1 = lines a
  /\ collections (set_x_y_limits d i a).1 = collections a.
Proof.
  unfold set_x_y_limits, st_bind, lift, update.
  destruct (add_timedelta _ _) as [xe|e]; [|done].
  unfold set_xlim. destruct (is_na _ || is_na xe); [done|].
  unfold set_ylim. destruct (frame_min _) as [b|]; [|done].
  by destruct (frame_max _) as [t|].
Qed.

Lemma append_x_keeps (name : string) (i : nat) (c : Chart) :
  same_setup c (append_x name i c).1
  /\ (is_Some (points c !! name) ->
      is_ok (getitem_index (df c) (LStr name) i) = true ->
      (append_x name i c).2 = Ok tt
      /\ is_Some (points (append_x name i c).1 !! name)).
Proof.
  unfold append_x, st_bind, points_of, get, lift, set_points, modify.
  destruct (points c !! name) as [p|] eqn:Ep; simpl.
  - destruct (getitem_index (df c) (LStr name) i) as [v|e]; simpl.
    + split; [done|]. intros _ _. split; [done|].
      rewrite lookup_insert_eq. by eexists.
    + split; [done|]. intros _ H. done.
  - split; [done|]. by intros [? ?].
Qed.

Lemma append_y_keeps (name : string) (i : nat) (c : Chart) :
  same_setup c (append_y name i c).1
  /\ (is_Some (points c !! name) ->
      is_ok (getitem_iloc (df c) (LStr name) i) = true ->
      (append_y name i c).2 = Ok tt
      /\ is_Some (points (append_y name i c).1 !! name)).
Proof.
  unfold append_y, st_bind, points_of, get, lift, set_points, modify.
  destruct (points c !! name) as [p|] eqn:Ep; simpl.
  - destruct (getitem_iloc (df c) (LStr name) i) as [v|e]; simpl.
    + split; [done|]. intros _ _. split; [done|].
      rewrite lookup_insert_eq. by eexists.
    + split; [done|]. intros _ H. done.
  - split; [done|]. by intros [? ?].
Qed.

Lemma set_size_raises (name sz : string) (i : nat) (c : Chart) :
  size c = SizeStr sz -> string_in sz (data_cols c) = false ->
  set_size name i c = (c, Raise (SizeNotInColumns sz)).
Proof.
  intros Hsz Hin. unfold set_size, st_bind, get, lift.
  by rewrite Hsz, Hin.
Qed.

(** One round of the loop of [plot_point] when the size names no data
    column: it raises, with the axes as they were. *)
Lemma plot_point_round (name sz : string) (i : nat) (c c' : Chart)
    (rest : ST Chart unit) (r : result unit) :
  size c = SizeStr sz -> string_in sz (data_cols c) = false ->
  (append_x name i >>> append_y name i >>> set_size name i >>> rest)%st c
  = (c', r) ->
  ax c' = ax c
  /\ r <> Ok tt
  /\ (is_Some (points c !! name) ->
      is_ok (getitem_index (df c) (LStr name) i) = true ->
      is_ok (getitem_iloc (df c) (LStr name) i) = true ->
      r = Raise (SizeNotInColumns sz)).
Proof.
  intros Hsz Hin H. unfold st_bind at 1 in H.
  destruct (append_x_keeps name i c) as [Hx Hxok].
  destruct (append_x name i c) as [c1 [[]|e1]] eqn:E1; simpl in Hx, Hxok.
  2: { injection H as <- <-. split; [apply Hx|]. split; [done|].
       intros H1 H2 _. by destruct (Hxok H1 H2). }
  destruct Hx as (Hax1 & Hdf1 & Hsz1 & Hdc1 & _).
  unfold st_bind at 1 in H.
  destruct (append_y_keeps name i c1) as [Hy Hyok].
  destruct (append_y name i c1) as [c2 [[]|e2]] eqn:E2; simpl in Hy, Hyok.
  2: { injection H as <- <-. split; [by rewrite (proj1 Hy)|]. split; [done|].
       intros H1 H2 H3. destruct (Hxok H1 H2) as [_ Hp].
       rewrite Hdf1 in Hyok. by destruct (Hyok Hp H3). }
  destruct Hy as (Hax2 & Hdf2 & Hsz2 & Hdc2 & _).
  unfold st_bind at 1 in H.
  rewrite (set_size_raises name sz i c2) in H by congruence.
  injection H as <- <-. split; [congruence|]. split; done.
Qed.

Lemma plot_point_unfold (i : nat) (c : Chart) :
  ScatterChart.plot_point i c
  = match set_x_y_limits (df c) i (ax c) with
    | (a, Ok _) =>
        for_each (zip (data_cols c) (colors c)) (fun '(name, color) =>
          append_x name i >>> append_y name i >>> set_size name i >>>
          do p <~ points_of name in
          on_ax (modify (ax_scatter
                   (mkScatter (pts_x p) (pts_y p) (pts_size p) (Some color)))))
          (with_ax c a)
    | (a, Raise e) => (with_ax c a, Raise e)
    end.
Proof.
  unfold ScatterChart.plot_point, st_bind, get, on_ax.
  by destruct (set_x_y_limits (df c) i (ax c)) as [a [[]|e]].
Qed.

(** [plot_point] with a size that names no data column, on a chart that
    has a series to draw. *)
Lemma plot_point_raises (c c' : Chart) (sz : string) (i : nat)
    (r : result unit) :
  size c = SizeStr sz -> string_in sz (data_cols c) = false ->
  data_cols c <> [] -> colors c <> [] ->
  ScatterChart.plot_point i c = (c', r) ->
  r <> Ok tt
  /\ collections (ax c') = collections (ax c)
  /\ (forall name, head (data_cols c) = Some name ->
        is_ok (set_x_y_limits (df c) i (ax c)).2 = true ->
        is_Some (points c !! name) ->
        is_ok (getitem_index (df c) (LStr name) i) = true ->
        is_ok (getitem_iloc (df c) (LStr name) i) = true ->
        r = Raise (SizeNotInColumns sz)).
Proof.
  intros Hsz Hin Hdc Hcol H. rewrite plot_point_unfold in H.
  pose proof (set_x_y_limits_keeps (df c) i (ax c)) as (_ & _ & _ & Hkeep).
  destruct (set_x_y_limits (df c) i (ax c)) as [a [[]|e]]; simpl in Hkeep.
  - destruct (data_cols c) as [|name names] eqn:Edc; [done|].
    destruct (colors c) as [|color cs] eqn:Ecs; [done|].
    simpl in H. unfold st_bind at 1 in H.
    destruct ((append_x name i >>> append_y name i >>> set_size name i >>>
               do p <~ points_of name in
               on_ax (modify (ax_scatter
                        (mkScatter (pts_x p) (pts_y p) (pts_size p)
                           (Some color)))))%st (with_ax c a))
      as [c1 r1] eqn:E.
    apply (plot_point_round name sz i (with_ax c a)) in E
      as (Hax & Hr & Hdesc); [|done|by simpl; rewrite Edc].
    destruct r1 as [[]|e1]; [done|]. injection H as <- <-.
    split; [done|]. split; [by rewrite Hax|].
    intros name' [= <-] _ Hp Hx Hy. by apply Hdesc.
  - injection H as <- <-. split; [done|]. split; [done|].
    intros name _ Hok. done.
Qed.

(** C8, as stated, fails: a scatter chart built with an empty colour list
    and [size="colA"], which names no data column, is constructed and its
    whole animation runs without any error (the loop of [plot_point] pairs
    the data columns with the colours and has nothing to run over). *)
Lemma scatter_without_colours_runs :
  exists c c',
    example_chart (Some "%Y") (PLBool true) [] (SizeStr "colA") = Ok c
    /\ string_in "colA" (data_cols c) = false
    /\ animate ScatterChart.init_func (ScatterChart.anim_func echo_formatter) c
       = (c', Ok tt).
Proof.
  eexists. eexists. split; [vm_compute; reflexivity|].
  split; [reflexivity|]. vm_compute. reflexivity.
Qed.

(** C8, amended.  On a scatter chart that has at least one data column and
    at least one colour and whose [size] is a string naming no data column,
    [plot_point(i)] raises for every frame [i] before any [ax.scatter]
    call, and the error is the ValueError "Size provided as string ... not
    present in dataframe columns" whenever the steps before the size check
    (the axis limits and the two appends for the first data column) go
    through; the animation stops at its first frame with nothing drawn but
    the empty scatter of [init_func]. *)
Theorem scatter_size_not_a_data_column (c : Chart) (sz : string) :
  size c = SizeStr sz -> string_in sz (data_cols c) = false ->
  data_cols c <> [] -> colors c <> [] ->
  (forall i c' r, ScatterChart.plot_point i c = (c', r) ->
     r <> Ok tt
     /\ collections (ax c') = collections (ax c)
     /\ (forall name, head (data_cols c) = Some name ->
           is_ok (set_x_y_limits (df c) i (ax c)).2 = true ->
           is_Some (points c !! name) ->
           is_ok (getitem_index (df c) (LStr name) i) = true ->
           is_ok (getitem_iloc (df c) (LStr name) i) = true ->
           r = Raise (SizeNotInColumns sz)))
  /\ (forall F c' r, (1 <= nrows (df c))%nat ->
        animate ScatterChart.init_func (ScatterChart.anim_func F) c = (c', r) ->
        r <> Ok tt
        /\ collections (ax c')
           = collections (ax c) ++ [mkScatter [] [] None None]).
Proof.
  intros Hsz Hin Hdc Hcol. split.
  - intros i c' r H. by apply (plot_point_raises c c' sz i r).
  - intros F c' r Hn H.
    unfold animate, ScatterChart.init_func, st_bind, on_ax, modify, get in H.
    simpl in H. unfold get_frames in H. simpl in H.
    destruct (len (df_index (df c))) as [|n] eqn:En; [unfold nrows in Hn; lia|].
    simpl in H. unfold st_bind at 1 in H.
    unfold ScatterChart.anim_func at 1 in H. unfold st_bind at 1 in H.
    destruct (ScatterChart.plot_point 0 _) as [c1 r1] eqn:E.
    apply (plot_point_raises _ c1 sz 0 r1) in E as (Hr & Hc & _); try done.
    destruct r1 as [[]|e1]; [done|]. injection H as <- <-.
    split; [done|]. by rewrite Hc.
Qed.

Lemma scatter_size_not_a_data_column_witness :
  exists c c',
    example_chart (Some "%Y") (PLBool true) ["red"] (SizeStr "colA") = Ok c
    /\ ScatterChart.plot_point 0 c = (c', Raise (SizeNotInColumns "colA"))
    /\ collections (ax c') = collections (ax c).
Proof.
  destruct (example_chart (Some "%Y") (PLBool true) ["red"] (SizeStr "colA"))
    as [c|e] eqn:Ec; [|vm_compute in Ec; discriminate].
  assert (Hc : c = mkChart three_days_smooth (Some "%Y") (PLBool true)
                     ["value"] ["red"] empty_axes
                     (init_points ["value"]) (SizeStr "colA") 2).
  { vm_compute in Ec. injection Ec as <-. vm_compute. reflexivity. }
  destruct (ScatterChart.plot_point 0 c) as [c' r] eqn:E.
  exists c, c'. split; [reflexivity|].
  destruct (scatter_size_not_a_data_column c "colA") as [Hpp _];
    [by subst c..|].
  destruct (Hpp 0%nat c' r E) as (_ & Hcoll & Hdesc).
  rewrite E, (Hdesc "value"); [done|subst c; try reflexivity..].
  by eexists.
Defined.

(** ** Period annotator *)

Section Preserves.
Context {S : Type} (R : S -> S -> Prop).
Hypothesis R_refl : forall s, R s s.
Hypothesis R_trans : forall s1 s2 s3, R s1 s2 -> R s2 s3 -> R s1 s3.

Lemma preserves_ret {A} (a : A) : preserves R (st_ret a).
Proof using R_refl. intros s. apply R_refl. Qed.

Lemma preserves_lift {A} (r : result A) : preserves R (lift r).
Proof using R_refl. intros s. apply R_refl. Qed.

Lemma preserves_get : preserves R get.
Proof using R_refl. intros s. apply R_refl. Qed.

Lemma preserves_bind {A B} (m : ST S A) (k : A -> ST S B) :
  preserves R m -> (forall a, preserves R (k a)) -> preserves R (st_bind m k).
Proof using R_trans.
  intros Hm Hk s. unfold st_bind. specialize (Hm s).
  destruct (m s) as [s1 [a|e]]; simpl in *; [|done].
  eapply R_trans; [exact Hm|apply Hk].
Qed.

Lemma preserves_for_each {A} (l : list A) (body : A -> ST S unit) :
  (forall a, preserves R (body a)) -> preserves R (for_each l body).
Proof using R_refl R_trans.
  intros Hb. induction l as [|a l IH]; simpl.
  - apply preserves_ret.
  - apply preserves_bind; [apply Hb|]. intros _. exact IH.
Qed.
End Preserves.

Lemma same_labels_refl (c : Chart) : same_labels c c.
Proof. by repeat split. Qed.

Lemma same_labels_trans (c1 c2 c3 : Chart) :
  same_labels c1 c2 -> same_labels c2 c3 -> same_labels c1 c3.
Proof.
  intros (H1 & H2 & H3 & H4 & H5) (K1 & K2 & K3 & K4 & K5).
  repeat split; congruence.
Qed.

Lemma same_setup_labels (c c' : Chart) : same_setup c c' -> same_labels c c'.
Proof.
  intros (Hax & Hdf & _ & _ & _ & Hf & Hl & _). repeat split; congruence.
Qed.

Lemma points_of_preserves (name : string) : preserves same_labels (points_of name).
Proof.
  intros c. unfold points_of. destruct (points c !! name); apply same_labels_refl.
Qed.

Lemma on_ax_limits_preserves (d : DataFrame) (i : nat) :
  preserves same_labels (on_ax (set_x_y_limits d i)).
Proof.
  intros c. unfold on_ax.
  pose proof (set_x_y_limits_keeps d i (ax c)) as (Ht & Hc & _).
  destruct (set_x_y_limits d i (ax c)) as [a r]. simpl in *.
  by repeat split.
Qed.

Lemma on_ax_modify_preserves (f : Axes -> Axes) :
  (forall a, texts (f a) = texts a /\ text_calls (f a) = text_calls a) ->
  preserves same_labels (on_ax (modify f)).
Proof.
  intros Hf c. unfold on_ax, modify. simpl.
  destruct (Hf (ax c)) as [H1 H2]. by repeat split.
Qed.

Lemma append_x_preserves (name : string) (i : nat) :
  preserves same_labels (append_x name i).
Proof. intros c. apply same_setup_labels, append_x_keeps. Qed.

Lemma append_y_preserves (name : string) (i : nat) :
  preserves same_labels (append_y name i).
Proof. intros c. apply same_setup_labels, append_y_keeps. Qed.

Lemma set_points_preserves (name : string) (p : Points) :
  preserves same_labels (set_points name p).
Proof. intros c. unfold set_points, modify. simpl. by repeat split. Qed.

Create HintDb labels.
#[local] Hint Resolve append_x_preserves append_y_preserves
  set_points_preserves points_of_preserves on_ax_limits_preserves : labels.

(** Methods built from the steps above by sequencing keep the labels. *)
Ltac keep_labels :=
  repeat first
    [ solve [auto with labels nocore]
    | apply (preserves_get same_labels same_labels_refl)
    | apply (preserves_ret same_labels same_labels_refl)
    | apply (preserves_lift same_labels same_labels_refl)
    | apply on_ax_modify_preserves; intros ?; by split
    | apply (preserves_for_each same_labels same_labels_refl same_labels_trans);
      intros [? ?]
    | apply (preserves_bind same_labels same_labels_trans); [|intros ?] ].

Lemma plot_line_preserves (i : nat) : preserves same_labels (LineChart.plot_line i).
Proof. unfold LineChart.plot_line. keep_labels. Qed.

Lemma set_size_preserves (name : string) (i : nat) :
  preserves same_labels (set_size name i).
Proof.
  unfold set_size.
  apply (preserves_bind same_labels same_labels_trans); [keep_labels|].
  intros c. destruct (size c) as [n|sz]; [|destruct (negb _)]; keep_labels.
Qed.

#[local] Hint Resolve set_size_preserves : labels.

Lemma plot_point_preserves (i : nat) :
  preserves same_labels (ScatterChart.plot_point i).
Proof. unfold ScatterChart.plot_point. keep_labels. Qed.

Lemma period_string_state (F : Formatter) (i : nat) (c : Chart) :
  (period_string F i c).1 = c.
Proof.
  unfold period_string, st_bind, get, lift, st_ret.
  destruct (period_fmt c) as [fmt|]; [destruct (negb _)|];
    destruct (cell_at (df_index (df c)) i) as [v|e]; simpl; try done.
  destruct (df_index (df c)); simpl; try done. by destruct v.
Qed.

Lemma period_string_ext (F : Formatter) (i : nat) (c c' : Chart) :
  df c' = df c -> period_fmt c' = period_fmt c ->
  (period_string F i c').2 = (period_string F i c).2.
Proof.
  intros Hd Hf. unfold period_string, st_bind, get, lift, st_ret.
  rewrite Hd, Hf.
  destruct (period_fmt c) as [fmt|]; [destruct (negb _)|];
    destruct (cell_at (df_index (df c)) i) as [v|e]; simpl; try done.
  destruct (df_index (df c)); simpl; try done. by destruct v.
Qed.

Lemma get_period_label_dict (pl : PeriodLabel) (kw : gmap string StyleVal) :
  get_period_label pl = Ok (PLDict kw) ->
  has_key "x" kw = true /\ has_key "y" kw = true.
Proof.
  unfold get_period_label. destruct (negb (truthy pl)); [done|].
  destruct pl as [b|d].
  - intros [= <-]. split; reflexivity.
  - destruct (has_key "x" d) eqn:Ex, (has_key "y" d) eqn:Ey; simpl; try done.
    by intros [= <-].
Qed.

(** One call of [show_period] that returns, on a chart whose label is
    enabled: with no Text on the axes it creates one, with the style of
    [get_period_label]; otherwise it only replaces the string of the
    first. *)
Lemma show_period_returns (F : Formatter) (i : nat) (c c' : Chart) :
  truthy (period_label c) = true ->
  show_period F i c = (c', Ok tt) ->
  same_setup_but_ax c c'
  /\ exists s,
       (period_string F i c).2 = Ok s
       /\ match texts (ax c) with
          | [] =>
              exists kw, get_period_label (period_label c) = Ok (PLDict kw)
                         /\ texts (ax c') = [mkText s kw]
                         /\ text_calls (ax c') = Datatypes.S (text_calls (ax c))
          | t :: rest =>
              texts (ax c') = mkText s (text_kwargs t) :: rest
              /\ text_calls (ax c') = text_calls (ax c)
          end.
Proof.
  intros Ht H. unfold show_period in H. unfold st_bind at 1 in H.
  simpl in H. rewrite Ht in H. unfold st_bind at 1 in H.
  pose proof (period_string_state F i c) as Hst.
  destruct (period_string F i c) as [c0 [s|e]]; simpl in Hst; subst c0;
    [|done].
  destruct (texts (ax c)) as [|t rest] eqn:Etx; simpl in H.
  - unfold st_bind, lift in H.
    destruct (get_period_label (period_label c)) as [[b|kw]|e] eqn:Egl;
      try done.
    unfold on_ax, modify in H. simpl in H. injection H as <-.
    split; [by repeat split|]. exists s. split; [done|].
    exists kw. simpl. rewrite Etx. by repeat split.
  - unfold on_ax, update, set_text0 in H. rewrite Etx in H. simpl in H.
    injection H as <-. split; [by repeat split|].
    exists s. split; [done|]. by split.
Qed.

Lemma for_each_app {S A} (l1 l2 : list A) (body : A -> ST S unit) (s : S) :
  for_each (l1 ++ l2) body s
  = match for_each l1 body s with
    | (s1, Ok _) => for_each l2 body s1
    | (s1, Raise e) => (s1, Raise e)
    end.
Proof.
  revert s. induction l1 as [|a l1 IH]; intros s; simpl; [done|].
  unfold st_bind. destruct (body a s) as [s1 [[]|e]]; [apply IH|done].
Qed.

Lemma for_each_one {S A} (a : A) (body : A -> ST S unit) (s s' : S) :
  for_each [a] body s = (s', Ok tt) -> body a s = (s', Ok tt).
Proof.
  simpl. unfold st_bind, st_ret. by destruct (body a s) as [s1 [[]|e]].
Qed.

Lemma line_anim_func_shows (F : Formatter) :
  draws_then_shows F (LineChart.anim_func F).
Proof.
  intros i c c' Hfmt H. unfold LineChart.anim_func in H.
  unfold st_bind at 1 in H. unfold on_ax at 1, modify at 1 in H. simpl in H.
  unfold st_bind at 1 in H.
  pose proof (plot_line_preserves i (with_ax c (remove_lines (ax c)))) as Hp.
  destruct (LineChart.plot_line i _) as [c1 [[]|e]]; [|done].
  simpl in Hp. unfold st_bind at 1, get in H.
  destruct Hp as (Hd & Hf & Hl & Htx & Hcalls). simpl in *.
  rewrite Hf, Hfmt in H. exists c1. split; [by repeat split|done].
Qed.

Lemma scatter_anim_func_shows (F : Formatter) :
  draws_then_shows F (ScatterChart.anim_func F).
Proof.
  intros i c c' Hfmt H. unfold ScatterChart.anim_func in H.
  unfold st_bind at 1 in H.
  pose proof (plot_point_preserves i c) as Hp.
  destruct (ScatterChart.plot_point i c) as [c1 [[]|e]]; [|done].
  simpl in Hp. unfold st_bind at 1, get in H.
  destruct Hp as (Hd & Hf & Hl & Htx & Hcalls).
  rewrite Hf, Hfmt in H. exists c1. split; [by repeat split|done].
Qed.

(** The frames 0 to [n], run in order from axes without Text, leave
    exactly one Text: created once, with the style of [get_period_label],
    and carrying the label of frame [n]. *)
Lemma frames_leave_one_text (F : Formatter) (anim_func : nat -> ST Chart unit)
    (n : nat) (c c' : Chart) :
  draws_then_shows F anim_func ->
  truthy (period_label c) = true -> fmt_truthy (period_fmt c) = true ->
  texts (ax c) = [] -> text_calls (ax c) = 0%nat ->
  for_each (seq 0 (Datatypes.S n)) anim_func c = (c', Ok tt) ->
  same_setup_but_ax c c'
  /\ exists kw s,
       get_period_label (period_label c) = Ok (PLDict kw)
       /\ (period_string F n c).2 = Ok s
       /\ texts (ax c') = [mkText s kw]
       /\ text_calls (ax c') = 1%nat.
Proof.
  intros Hanim Hlab Hfmt Htx Hcalls. revert c'.
  induction n as [|n IH]; intros c' H.
  - apply for_each_one in H. apply Hanim in H as (c1 & Hsame & Hshow); [|done].
    destruct Hsame as (Hd & Hf & Hl & Ht1 & Hc1).
    apply show_period_returns in Hshow as [Hsetup (s & Hs & Hcase)];
      [|by rewrite Hl].
    rewrite Ht1, Htx in Hcase. destruct Hcase as (kw & Hkw & Ht' & Hc').
    destruct Hsetup as (Hd' & Hf' & Hl').
    split; [repeat split; congruence|].
    exists kw, s. rewrite <- (period_string_ext F 0 c c1) by done.
    repeat split; congruence.
  - rewrite seq_S, for_each_app in H.
    change (0 + Datatypes.S n)%nat with (Datatypes.S n) in H.
    destruct (for_each (seq 0 (Datatypes.S n)) anim_func c)
      as [cm [[]|e]] eqn:Em; [|done].
    destruct (IH cm eq_refl) as [(Hdm & Hfm & Hlm) (kw & sn & Hkw & _ & Htm & Hcm)].
    apply for_each_one in H.
    apply Hanim in H as (c1 & Hsame & Hshow); [|congruence].
    destruct Hsame as (Hd & Hf & Hl & Ht1 & Hc1).
    apply show_period_returns in Hshow as [Hsetup (s & Hs & Hcase)];
      [|congruence].
    rewrite Ht1, Htm in Hcase. destruct Hcase as [Ht' Hc']. simpl in Ht'.
    destruct Hsetup as (Hd' & Hf' & Hl').
    split; [repeat split; congruence|].
    exists kw, s.
    rewrite <- (period_string_ext F (Datatypes.S n) c c1) by congruence.
    repeat split; try congruence.
Qed.

Lemma line_anim_func_without_fmt (F : Formatter) (i : nat) (c : Chart) :
  fmt_truthy (period_fmt c) = false ->
  same_labels c (LineChart.anim_func F i c).1.
Proof.
  intros Hfmt. unfold LineChart.anim_func.
  unfold st_bind at 1. unfold on_ax at 1, modify at 1. simpl.
  unfold st_bind at 1.
  pose proof (plot_line_preserves i (with_ax c (remove_lines (ax c)))) as Hp.
  destruct (LineChart.plot_line i _) as [c1 [[]|e]]; simpl in Hp |- *;
    [|by destruct Hp as (? & ? & ? & ? & ?)].
  destruct Hp as (Hd & Hf & Hl & Htx & Hcalls). simpl in *.
  unfold st_bind, get. rewrite Hf, Hfmt. simpl. by repeat split.
Qed.

Lemma scatter_anim_func_without_fmt (F : Formatter) (i : nat) (c : Chart) :
  fmt_truthy (period_fmt c) = false ->
  same_labels c (ScatterChart.anim_func F i c).1.
Proof.
  intros Hfmt. unfold ScatterChart.anim_func. unfold st_bind at 1.
  pose proof (plot_point_preserves i c) as Hp.
  destruct (ScatterChart.plot_point i c) as [c1 [[]|e]]; simpl in Hp |- *;
    [|done].
  destruct Hp as (Hd & Hf & Hl & Htx & Hcalls).
  unfold st_bind, get. rewrite Hf, Hfmt. simpl. by repeat split.
Qed.

(** Frames that never reach [show_period] leave the Texts alone, whether
    they return or raise. *)
Lemma frames_without_fmt (anim_func : nat -> ST Chart unit)
    (frames : list nat) (c : Chart) :
  (forall i c, fmt_truthy (period_fmt c) = false ->
               same_labels c (anim_func i c).1) ->
  fmt_truthy (period_fmt c) = false ->
  same_labels c (for_each frames anim_func c).1.
Proof.
  intros Hanim. revert c. induction frames as [|i frames IH]; intros c Hfmt.
  - apply same_labels_refl.
  - cbn [for_each]. unfold st_bind.
    pose proof (Hanim i c Hfmt) as H1.
    destruct (anim_func i c) as [c1 [[]|e]]; simpl in H1 |- *; [|done].
    eapply same_labels_trans; [exact H1|]. apply IH.
    destruct H1 as (_ & -> & _). done.
Qed.

(** C6 fails on the code.  With [period_label] enabled and no
    [period_fmt], [anim_func] never calls [show_period] (it sits under
    [if self.period_fmt:]): whatever frames a line or scatter chart runs,
    and however the run ends, the axes hold no Text afterwards and none was
    ever created.  [show_period] itself has the branch for this case: called
    on the same chart it creates the Text from [str(index[i])]. *)
Theorem period_label_skipped_without_fmt (F : Formatter) (frames : list nat)
    (i : nat) (c c' : Chart) (r : result unit) (kw : gmap string StyleVal)
    (v : Cell) :
  get_period_label (period_label c) = Ok (PLDict kw) ->
  fmt_truthy (period_fmt c) = false ->
  texts (ax c) = [] -> text_calls (ax c) = 0%nat ->
  cell_at (df_index (df c)) i = Ok v ->
  for_each frames (LineChart.anim_func F) c = (c', r)
  \/ for_each frames (ScatterChart.anim_func F) c = (c', r) ->
  texts (ax c') = [] /\ text_calls (ax c') = 0%nat
  /\ show_period F i c
     = (with_ax c (ax_text (astype_str F v) kw (ax c)), Ok tt).
Proof.
  intros Hkw Hfmt Htx Hcalls Hv Hrun.
  assert (Hsame : same_labels c c').
  { destruct Hrun as [H|H].
    - pose proof (frames_without_fmt (LineChart.anim_func F) frames c
                    (line_anim_func_without_fmt F) Hfmt) as Hs.
      by rewrite H in Hs.
    - pose proof (frames_without_fmt (ScatterChart.anim_func F) frames c
                    (scatter_anim_func_without_fmt F) Hfmt) as Hs.
      by rewrite H in Hs. }
  destruct Hsame as (_ & _ & _ & Ht & Hc).
  split; [congruence|]. split; [congruence|].
  assert (Htruthy : truthy (period_label c) = true).
  { unfold get_period_label in Hkw.
    by destruct (truthy (period_label c)). }
  unfold show_period. unfold st_bind at 1, get. rewrite Htruthy.
  assert (Hs : period_string F i c = (c, Ok (astype_str F v))).
  { unfold period_string, st_bind, get, lift, st_ret.
    unfold fmt_truthy in Hfmt.
    destruct (period_fmt c) as [fmt|]; [rewrite Hfmt|]; by rewrite Hv. }
  unfold st_bind at 1. rewrite Hs, Htx. simpl.
  unfold st_bind, lift. by rewrite Hkw.
Qed.

Lemma period_label_skipped_without_fmt_witness :
  exists c c',
    example_chart None (PLBool true) ["red"] (SizeInt 5) = Ok c
    /\ animate LineChart.init_func (LineChart.anim_func echo_formatter) c
       = (c', Ok tt)
    /\ texts (ax c') = [] /\ text_calls (ax c') = 0%nat
    /\ texts (ax (show_period echo_formatter 0 c).1)
       = [mkText "" default_period_label].
Proof.
  set (c := mkChart three_days_smooth None (PLBool true) ["value"] ["red"]
              empty_axes (init_points ["value"]) (SizeInt 5) 2).
  set (c0 := (LineChart.init_func c).1).
  set (out := for_each (get_frames (df c0))
                (LineChart.anim_func echo_formatter) c0).
  assert (E : out = (out.1, Ok tt)) by (vm_compute; reflexivity).
  destruct (period_label_skipped_without_fmt echo_formatter
              (get_frames (df c0)) 0 c0 out.1 (Ok tt) default_period_label
              (DtC 0))
    as (Ht & Hc & _); [reflexivity..|left; exact E|].
  destruct (period_label_skipped_without_fmt echo_formatter [] 0 c c (Ok tt)
              default_period_label (DtC 0))
    as (_ & _ & Hshow); [reflexivity..|left; reflexivity|].
  exists c, out.1. split; [vm_compute; reflexivity|].
  split; [exact E|]. split; [exact Ht|]. split; [exact Hc|].
  rewrite Hshow. reflexivity.
Defined.

(** On a line or scatter chart with [period_label] enabled and a non-empty
    [period_fmt], started on axes without Text: whenever the frames 0 to
    [n] have run in order, the axes hold exactly one Text, a single one
    was ever created, it has the style dict of [get_period_label] (with
    its anchor "x", "y"), and its string is the formatted index value of
    frame [n]. *)
Theorem period_annotation_single_text (F : Formatter) (n : nat)
    (c c' : Chart) :
  truthy (period_label c) = true -> fmt_truthy (period_fmt c) = true ->
  texts (ax c) = [] -> text_calls (ax c) = 0%nat ->
  for_each (seq 0 (Datatypes.S n)) (LineChart.anim_func F) c = (c', Ok tt)
  \/ for_each (seq 0 (Datatypes.S n)) (ScatterChart.anim_func F) c = (c', Ok tt) ->
  exists kw s,
    get_period_label (period_label c) = Ok (PLDict kw)
    /\ has_key "x" kw = true /\ has_key "y" kw = true
    /\ (period_string F n c).2 = Ok s
    /\ texts (ax c') = [mkText s kw]
    /\ text_calls (ax c') = 1%nat.
Proof.
  intros Hlab Hfmt Htx Hcalls [H|H].
  - apply (frames_leave_one_text F) in H
      as [_ (kw & s & Hkw & Hs & Ht & Hc)];
      [|apply line_anim_func_shows|done..].
    exists kw, s. destruct (get_period_label_dict _ _ Hkw). by repeat split.
  - apply (frames_leave_one_text F) in H
      as [_ (kw & s & Hkw & Hs & Ht & Hc)];
      [|apply scatter_anim_func_shows|done..].
    exists kw, s. destruct (get_period_label_dict _ _ Hkw). by repeat split.
Qed.

Lemma period_annotation_single_text_witness :
  exists c',
    for_each (get_frames (df line_example))
      (LineChart.anim_func echo_formatter) line_example = (c', Ok tt)
    /\ texts (ax c') = [mkText "%Y" default_period_label]
    /\ text_calls (ax c') = 1%nat.
Proof.
  set (out := for_each (get_frames (df line_example))
                (LineChart.anim_func echo_formatter) line_example).
  assert (E : out = (out.1, Ok tt)) by (vm_compute; reflexivity).
  exists out.1. split; [exact E|].
  destruct (period_annotation_single_text echo_formatter 4 line_example out.1)
    as (kw & s & Hkw & _ & _ & Hs & Ht & Hc);
    [reflexivity|reflexivity|reflexivity|reflexivity|left; exact E|].
  change (Ok (PLDict default_period_label) = Ok (PLDict kw)) in Hkw.
  injection Hkw as <-.
  change (Ok "%Y" = Ok s) in Hs. injection Hs as <-.
  split; [exact Ht|exact Hc].
Defined.

(** * Further properties of the pipeline *)

(** ** Construction *)

Lemma rename_data_columns_ok (d : DataFrame) (names : list string) :
  get_data_cols d = Ok names -> rename_data_columns d = Ok d.
Proof.
  intros H. unfold rename_data_columns. rewrite H. clear H. simpl.
  destruct d as [ix cols]. simpl. do 2 f_equal.
  induction cols as [|c cols IH]; simpl; [done|]. rewrite IH. f_equal.
  destruct (find _ names) as [col|] eqn:E; [|done].
  apply find_some in E as [_ E]. apply label_eqb_eq in E.
  destruct c as [l v]. simpl in *. by subst l.
Qed.

(** [rename_data_columns] leaves the table as it is: the keys of its
    mapping are the strings [get_data_cols] returns, so a column is only
    ever renamed to the label it already has, and a numeric column with a
    non-string label keeps that label.  It raises exactly when
    [get_data_cols] does. *)
Theorem rename_data_columns_identity (d : DataFrame) :
  (forall d', rename_data_columns d = Ok d' -> d' = d)
  /\ (forall e, rename_data_columns d = Raise e <-> get_data_cols d = Raise e).
Proof.
  destruct (get_data_cols d) as [names|e0] eqn:E.
  - rewrite (rename_data_columns_ok d names E). split; [congruence|].
    intros e. split; discriminate.
  - unfold rename_data_columns. rewrite E. simpl. split; [done|].
    intros e. split; by intros [= <-].
Qed.

Lemma init_points_lookup (names : list string) (name : string) :
  init_points names !! name
  = if decide (name ∈ names) then Some (mkPoints [] [] None) else None.
Proof.
  unfold init_points.
  assert (H : forall m : gmap string Points,
             foldl (fun m name => <[name := mkPoints [] [] None]> m) m names
               !! name
             = if decide (name ∈ names) then Some (mkPoints [] [] None)
               else m !! name).
  { induction names as [|n names IH]; intros m; cbn [foldl].
    - rewrite decide_False; [done|]. intros Hin. by apply elem_of_nil in Hin.
    - rewrite IH. destruct (decide (name ∈ names)) as [Hin|Hnin].
      + rewrite decide_True by (by right). done.
      + destruct (decide (name = n)) as [->|Hne].
        * rewrite lookup_insert_eq, decide_True by left. done.
        * rewrite lookup_insert_ne by done.
          rewrite decide_False; [done|].
          intros Hin. apply elem_of_cons in Hin as [?|?]; done. }
  rewrite H. by case_decide.
Qed.

Lemma get_data_cols_nonempty (d : DataFrame) (names : list string) :
  get_data_cols d = Ok names -> names <> [].
Proof.
  unfold get_data_cols.
  destruct (get_data_cols_loop d (columns d) []) as [[|l ls]|e]; simpl;
    try done.
  by intros [= <-].
Qed.

(** What [__attrs_post_init__] establishes.  A constructed chart has the
    data columns of the input table (at least one), the interpolated
    input as its table, an entry of [_points] / [_lines] with empty lists
    for each data column and for nothing else, and empty axes; neither
    [period_fmt], [period_label], the colours, [size] nor [line_width] is
    looked at.  An exception of [get_data_cols] or of
    [get_interpolated_df] on the input table is the exception of
    construction: both are called before the figure is made. *)
Theorem post_init_establishes (df0 : DataFrame) (ip : bool) (s : Z)
    (fmt : option string) (label : PeriodLabel) (cmap : list string)
    (sz : SizeOpt) (lw : Z) :
  (forall c, post_init df0 ip s fmt label cmap sz lw = Ok c ->
     get_data_cols df0 = Ok (data_cols c) /\ data_cols c <> []
     /\ get_interpolated_df df0 s ip = Ok (df c)
     /\ ax c = empty_axes
     /\ (forall name,
           points c !! name
           = if decide (name ∈ data_cols c) then Some (mkPoints [] [] None)
             else None)
     /\ period_fmt c = fmt /\ period_label c = label /\ colors c = cmap
     /\ size c = sz /\ line_width c = lw)
  /\ (forall e, get_data_cols df0 = Raise e ->
        post_init df0 ip s fmt label cmap sz lw = Raise e)
  /\ (forall names e, get_data_cols df0 = Ok names ->
        get_interpolated_df df0 s ip = Raise e ->
        post_init df0 ip s fmt label cmap sz lw = Raise e).
Proof.
  unfold post_init. split; [|split].
  - intros c H. destruct (get_data_cols df0) as [names|e] eqn:En; [|done].
    simpl in H. rewrite (rename_data_columns_ok df0 names En) in H. simpl in H.
    destruct (get_interpolated_df df0 s ip) as [t|e]; [|done].
    simpl in H. injection H as <-. simpl.
    split; [done|]. split; [by apply (get_data_cols_nonempty df0)|].
    split; [done|]. split; [done|]. split; [apply init_points_lookup|].
    by repeat split.
  - intros e En. by rewrite En.
  - intros names e En Et. rewrite En. simpl.
    rewrite (rename_data_columns_ok df0 names En). simpl. by rewrite Et.
Qed.

(** ** Frame interpolator: where the rows go *)

Lemma lookup_map {A B} (f : A -> B) (l : list A) (i : nat) :
  map f l !! i = f <$> l !! i.
Proof.
  revert i. induction l as [|a l IH]; intros [|i]; simpl; auto.
Qed.

Lemma lookup_range (n : Z) (i : nat) :
  (i < Z.to_nat n)%nat -> range n !! i = Some (Z.of_nat i).
Proof.
  intros Hi. unfold range. rewrite lookup_map, lookup_seq_lt by done. done.
Qed.

Lemma index_of_absent (j : Z) (labels : list Z) :
  (forall x, x ∈ labels -> x <> j) -> index_of j labels = None.
Proof.
  induction labels as [|l labels IH]; intros H; simpl; [done|].
  destruct (Z.eqb_spec j l) as [->|_].
  - exfalso. apply (H l); [left|done].
  - rewrite IH; [done|]. intros x Hx. apply H. by right.
Qed.

Lemma spread_labels_elem (n : nat) (s x : Z) :
  x ∈ spread_labels n s -> exists m : nat, x = Z.of_nat m * s.
Proof.
  unfold spread_labels, range. intros H. apply list_elem_of_In in H.
  apply in_map_iff in H as (y & <- & Hy).
  apply in_map_iff in Hy as (m & <- & _). by exists m.
Qed.

(** Row [k * s + r] of a column of the spread table: original row [k] when
    [r = 0], a missing cell between two original rows. *)
Lemma reindex_cells_lookup {A} (sn : nat) (v : list (option A)) (k r : nat) :
  (0 < sn)%nat -> (r < sn)%nat -> (1 <= length v)%nat ->
  (k * sn + r <= (length v - 1) * sn)%nat ->
  reindex_cells (spread_labels (length v) (Z.of_nat sn)) v
    (range ((Z.of_nat (length v) - 1) * Z.of_nat sn + 1)) !! (k * sn + r)%nat
  = Some (if Nat.eqb r 0 then mjoin (v !! k) else None).
Proof.
  intros Hs Hr Hlen Hle. unfold reindex_cells.
  rewrite lookup_map, lookup_range by nia. simpl. f_equal.
  destruct (Nat.eqb_spec r 0) as [->|Hr0].
  - replace (Z.of_nat (k * sn + 0)) with (Z.of_nat k * Z.of_nat sn) by lia.
    unfold spread_labels, range. rewrite Nat2Z.id.
    rewrite index_of_spread by nia. by rewrite Nat.sub_0_r.
  - rewrite index_of_absent; [done|].
    intros x Hx. apply spread_labels_elem in Hx as [m ->]. intros E.
    assert (E' : (m * sn = k * sn + r)%nat) by lia.
    apply (f_equal (fun n => n mod sn)%nat) in E'.
    rewrite Nat.Div0.mod_mul, Nat.add_comm, Nat.Div0.mod_add in E'.
    rewrite Nat.mod_small in E' by done. lia.
Qed.

Lemma length_reindexed {A} (sn : nat) (v : list (option A)) :
  length (reindex_cells (spread_labels (length v) (Z.of_nat sn)) v
            (range ((Z.of_nat (length v) - 1) * Z.of_nat sn + 1)))
  = Z.to_nat ((Z.of_nat (length v) - 1) * Z.of_nat sn + 1).
Proof. by rewrite length_reindex_cells, length_range. Qed.

(** *** Filling the gaps *)

Lemma ffill_from_known {A} (prev : option A) (ys : list (option A))
    (m : nat) (y : A) :
  ys !! m = Some (Some y) -> ffill_from prev ys !! m = Some (Some y).
Proof.
  revert prev m. induction ys as [|[a|] ys IH]; intros prev [|m] H;
    simpl in *; try done; by apply IH.
Qed.




(** A cell of the interpolated column is missing exactly when nothing is
    known before it: no known point on entry and no known cell up to its
    position. *)
Lemma interp_from_missing (x : nat -> Q) (p : nat) (prev : option (Q * Q))
    (ys : list (option Q)) (m : nat) :
  interp_from x p prev ys !! m = Some None
  <-> prev = None /\ forall i, (i <= m)%nat -> ys !! i = Some None.
Proof.
  revert p prev m. induction ys as [|[a|] ys IH]; intros p prev m.
  - simpl. split; [done|]. intros [_ H]. specialize (H m (le_n m)).
    by destruct m.
  - destruct m as [|m]; simpl.
    + split; [done|]. intros [_ H]. specialize (H 0%nat (le_n 0)). done.
    + rewrite IH. split; [by intros [? _]|].
      intros [_ H]. specialize (H 0%nat ltac:(lia)). done.
  - destruct m as [|m]; simpl.
    + split.
      * destruct prev as [[x0 y0]|]; [by destruct (next_valid _ _ _) as [[? ?]|]|].
        intros _. split; [done|]. intros i Hi. by replace i with 0%nat by lia.
      * by intros [-> _].
    + rewrite IH. split.
      * intros [-> H]. split; [done|]. intros [|i] Hi; [done|].
        simpl. apply H. lia.
      * intros [-> H]. split; [done|]. intros i Hi.
        apply (H (Datatypes.S i)). lia.
Qed.

(** *** The interpolated table, mode by mode *)

(** Stepped mode: the index is the spread index forward-filled, each
    column the spread column interpolated by position. *)
Lemma get_interpolated_df_stepped (d t : DataFrame) (s : Z) :
  get_interpolated_df d s false = Ok t ->
  df_index t
  = ffill (reindex_series (spread_labels (nrows d) s) (df_index d)
             (range ((Z.of_nat (nrows d) - 1) * s + 1)))
  /\ df_columns t
     = map (fun c =>
              mkColumn (col_label c)
                (series_interpolate
                   (reindex_series (spread_labels (nrows d) s) (col_data c)
                      (range ((Z.of_nat (nrows d) - 1) * s + 1)))))
         (df_columns d).
Proof.
  intros H. pose proof H as H0.
  apply get_interpolated_df_inv in H0 as (l & Hl & _ & _).
  apply index_last_spread in Hl as [_ ->].
  unfold get_interpolated_df, reset_index, reindex in H. simpl in H.
  fold (spread_labels (nrows d) s) in H.
  destruct (index_last (spread_labels (nrows d) s)) as [l|e] eqn:El;
    simpl in H; [|done].
  apply index_last_spread in El as [_ ->].
  destruct (has_duplicates _); simpl in H; [done|].
  unfold interpolate_linear, set_index in H. simpl in H.
  destruct (all_object _); [done|]. injection H as <-. simpl.
  split; [done|]. by rewrite map_map.
Qed.

Lemma map_result_lookup {A B} (f : A -> result B) (l : list A) (l' : list B)
    (i : nat) (a : A) :
  map_result f l = Ok l' -> l !! i = Some a ->
  exists b, l' !! i = Some b /\ f a = Ok b.
Proof.
  revert l' i. induction l as [|x l IH]; intros l' i H Hi; [done|].
  simpl in H. destruct (f x) as [b|e] eqn:Ex; simpl in H; [|done].
  destruct (map_result f l) as [bs|e] eqn:El; simpl in H; [|done].
  injection H as <-. destruct i as [|i]; simpl in *.
  - injection Hi as <-. by exists b.
  - by apply (IH bs).
Qed.

(** Smooth mode: the index is column 0 of the spread table filled, each
    column the spread column interpolated over that index when it has a
    gap to fill. *)
Lemma get_interpolated_df_smooth (d t : DataFrame) (s : Z) :
  get_interpolated_df d s true = Ok t ->
  map_result (interpolate_time_col (df_index t))
    (map (fun c =>
            mkColumn (col_label c)
              (reindex_series (spread_labels (nrows d) s) (col_data c)
                 (range ((Z.of_nat (nrows d) - 1) * s + 1))))
       (df_columns d))
  = Ok (df_columns t).
Proof.
  intros H. unfold get_interpolated_df, reset_index, reindex in H. simpl in H.
  fold (spread_labels (nrows d) s) in H.
  destruct (index_last (spread_labels (nrows d) s)) as [l|e] eqn:El;
    simpl in H; [|done].
  apply index_last_spread in El as [_ ->].
  destruct (has_duplicates _); simpl in H; [done|].
  assert (Hgen : forall col0,
            interpolate_time
              (set_index
                 (mkResetFrame (range ((Z.of_nat (nrows d) - 1) * s + 1)) col0
                    (map (fun c => mkColumn (col_label c)
                            (reindex_series (spread_labels (nrows d) s)
                               (col_data c)
                               (range ((Z.of_nat (nrows d) - 1) * s + 1))))
                       (df_columns d)))) = Ok t ->
            map_result (interpolate_time_col (df_index t))
              (map (fun c => mkColumn (col_label c)
                      (reindex_series (spread_labels (nrows d) s) (col_data c)
                         (range ((Z.of_nat (nrows d) - 1) * s + 1))))
                 (df_columns d)) = Ok (df_columns t)).
  { intros col0 Ht. unfold interpolate_time, set_index in Ht. simpl in Ht.
    destruct (all_object _); [done|]. destruct (has_missing col0); [done|].
    destruct (map_result _ _) as [cs|e] eqn:E; simpl in Ht; [|done].
    injection Ht as <-. simpl. exact E. }
  destruct (reindex_series _ (df_index d) _) as [v|v|v]; simpl in H.
  - by apply Hgen in H.
  - destruct (first_last v) as [[f la]|e]; simpl in H; [|done].
    by apply Hgen in H.
  - by apply Hgen in H.
Qed.

Lemma cells_lookup_num (v : list (option Q)) (i : nat) :
  cells (NumS v) !! i = cell_of NumC <$> v !! i.
Proof. apply lookup_map. Qed.


(** Stepped mode fills every gap but the leading one: in the result, row
    [j] of a numeric column is missing exactly when the column is missing
    in every original row up to that point, the rows [k] with
    [k * s <= j].  From the first known value on, every row has a
    value. *)
Theorem stepped_gaps_filled (d t : DataFrame) (sn ci j : nat) (c : Column)
    (v : list (option Q)) :
  (0 < sn)%nat -> get_interpolated_df d (Z.of_nat sn) false = Ok t ->
  df_columns d !! ci = Some c -> col_data c = NumS v -> length v = nrows d ->
  (j <= (nrows d - 1) * sn)%nat ->
  exists w,
    df_columns t !! ci = Some (mkColumn (col_label c) (NumS w))
    /\ (w !! j = Some None
        <-> forall k, (k * sn <= j)%nat -> v !! k = Some None).
Proof.
  intros Hs H Hc Hv Hlen Hj.
  assert (Hn : (1 <= length v)%nat).
  { rewrite Hlen. by apply nrows_interpolated in H as [? _]. }
  apply get_interpolated_df_stepped in H as [_ Hcols].
  rewrite Hcols, lookup_map, Hc. simpl. rewrite Hv. simpl.
  rewrite <- Hlen in *. eexists. split; [reflexivity|].
  rewrite interp_from_missing. split.
  - intros [_ H] k Hk.
    specialize (H (k * sn + 0)%nat ltac:(lia)).
    rewrite reindex_cells_lookup in H by (lia || nia). simpl in H.
    assert (Hlt : (k < length v)%nat) by nia.
    apply lookup_lt_is_Some in Hlt as [o Ho]. rewrite Ho in H |- *.
    simpl in H. by injection H as ->.
  - intros H. split; [done|]. intros i Hi.
    rewrite (Nat.div_mod_eq i sn), (Nat.mul_comm sn).
    assert (Hr : (i mod sn < sn)%nat) by (apply Nat.mod_upper_bound; lia).
    pose proof (Nat.div_mod_eq i sn) as Hdm.
    rewrite reindex_cells_lookup by (lia || nia).
    destruct (Nat.eqb_spec (i mod sn) 0) as [H0|_]; [|done].
    rewrite H by nia. done.
Qed.

Lemma stepped_gaps_filled_witness :
  exists t w,
    get_interpolated_df
      (mkDataFrame (DtS [Some 0; Some 10; Some 20])
         [mkColumn (LStr "value") (NumS [None; Some 2%Q; None])]) 2 false
    = Ok t
    /\ df_columns t !! 0%nat = Some (mkColumn (LStr "value") (NumS w))
    /\ w !! 1%nat = Some None /\ w !! 4%nat <> Some None.
Proof.
  set (d := mkDataFrame (DtS [Some 0; Some 10; Some 20])
              [mkColumn (LStr "value") (NumS [None; Some 2%Q; None])]).
  destruct (get_interpolated_df d 2 false) as [t|e] eqn:E;
    [|vm_compute in E; discriminate].
  destruct (stepped_gaps_filled d t 2 0 1
              (mkColumn (LStr "value") (NumS [None; Some 2%Q; None]))
              [None; Some 2%Q; None])
    as (w & Hw & H1); [lia|exact E|reflexivity..|simpl; lia|].
  destruct (stepped_gaps_filled d t 2 0 4
              (mkColumn (LStr "value") (NumS [None; Some 2%Q; None]))
              [None; Some 2%Q; None])
    as (w' & Hw' & H4); [lia|exact E|reflexivity..|simpl; lia|].
  assert (w' = w) as -> by congruence.
  exists t, w. split; [done|]. split; [exact Hw|]. split.
  - apply H1. intros [|k] Hk; [done|lia].
  - intros H. pose proof (proj1 H4 H 1%nat ltac:(lia)) as H'. discriminate.
Defined.




(** Only numeric columns are filled: in either mode a column of object
    dtype comes back spread, with its original cell at row [k * s] and a
    missing cell at every row in between. *)
Theorem object_columns_not_filled (d t : DataFrame) (ip : bool)
    (sn ci k r : nat) (c : Column) (v : list (option string)) :
  (0 < sn)%nat -> get_interpolated_df d (Z.of_nat sn) ip = Ok t ->
  df_columns d !! ci = Some c -> col_data c = ObjS v -> length v = nrows d ->
  (r < sn)%nat -> (k * sn + r <= (nrows d - 1) * sn)%nat ->
  exists w, df_columns t !! ci = Some (mkColumn (col_label c) (ObjS w))
            /\ w !! (k * sn + r)%nat
               = Some (if Nat.eqb r 0 then mjoin (v !! k) else None).
Proof.
  intros Hs H Hc Hv Hlen Hr Hle.
  pose proof (nrows_interpolated _ _ _ _ H) as [Hn _].
  assert (Hlo : reindex_cells (spread_labels (nrows d) (Z.of_nat sn)) v
                  (range ((Z.of_nat (nrows d) - 1) * Z.of_nat sn + 1))
                  !! (k * sn + r)%nat
                = Some (if Nat.eqb r 0 then mjoin (v !! k) else None)).
  { rewrite <- Hlen in *. by rewrite reindex_cells_lookup by lia. }
  destruct ip.
  - apply get_interpolated_df_smooth in H.
    eapply (map_result_lookup _ _ _ ci) in H as (c' & Hc' & Hcol);
      [|by rewrite lookup_map, Hc].
    rewrite Hv in Hcol. unfold interpolate_time_col in Hcol. simpl in Hcol.
    injection Hcol as <-. eexists. split; [exact Hc'|exact Hlo].
  - apply get_interpolated_df_stepped in H as [_ Hcols].
    rewrite Hcols, lookup_map, Hc. simpl. rewrite Hv. simpl.
    eexists. split; [reflexivity|exact Hlo].
Qed.

Lemma object_columns_not_filled_witness :
  exists t w,
    get_interpolated_df
      (mkDataFrame (DtS [Some 0; Some 10])
         [mkColumn (LStr "city") (ObjS [Some "a"; Some "b"]);
          mkColumn (LStr "temp") (NumS [Some 1%Q; Some 2%Q])]) 3 false = Ok t
    /\ df_columns t !! 0%nat = Some (mkColumn (LStr "city") (ObjS w))
    /\ w !! 1%nat = Some None.
Proof.
  destruct (get_interpolated_df _ 3 false) as [t|e] eqn:E;
    [|vm_compute in E; discriminate].
  destruct (object_columns_not_filled _ t false 3 0 0 1
              (mkColumn (LStr "city") (ObjS [Some "a"; Some "b"]))
              [Some "a"; Some "b"] ltac:(lia) E)
    as (w & Hw & Hq); try done; try lia.
  { unfold nrows. simpl. lia. }
  by exists t, w.
Defined.

Lemma inject_Z_quotient (c div : Z) :
  div <> 0 -> (inject_Z (c * div) / inject_Z div == inject_Z c)%Q.
Proof.
  intros H. rewrite inject_Z_mult. field.
  intros H0. apply H. by apply (proj1 (inject_Z_injective _ _)) in H0.
Qed.

(** An evenly divisible span below 2^53 is spaced without rounding. *)
Lemma linspace_exact (c : Z) (num : nat) :
  Z.abs (c * (Z.of_nat num - 1)) < 2 ^ 53 ->
  linspace (c * (Z.of_nat num - 1)) num
  = map (fun j => Z.of_nat j * c) (seq 0 num).
Proof.
  intros Hb. unfold linspace. apply map_ext_in. intros j Hj.
  apply in_seq in Hj as [_ Hj]. simpl in Hj.
  set (div := Z.of_nat num - 1) in *.
  assert (Hdiv : 0 <= div) by (unfold div; lia).
  assert (Hjd : Z.of_nat j <= div) by (unfold div; lia).
  destruct (Z.eq_dec (c * div) 0) as [H0|H0].
  - rewrite H0. change (float64 (inject_Z 0)) with 0%Q.
    assert (Hs : float64 (0 / float64 (inject_Z div)) = 0%Q)
      by (apply float64_zero; unfold Qdiv; apply Qmult_0_l).
    rewrite Hs.
    assert (Hy : float64 (float64 (inject_Z (Z.of_nat j)) * 0) = 0%Q)
      by (apply float64_zero, Qmult_0_r).
    rewrite Hy.
    assert (Z.of_nat j * c = 0) as ->.
    { destruct (Z.eq_dec c 0) as [->|Hc]; [lia|].
      assert (div = 0) by nia. assert (Z.of_nat j = 0) by lia. nia. }
    by destruct (_ && _).
  - assert (Hc : c <> 0) by nia. assert (Hd : 0 < div) by nia.
    assert (Hdb : Z.abs div < 2 ^ 53) by nia.
    assert (Hcb : Z.abs c < 2 ^ 53) by nia.
    assert (Hin : forall z, Z.abs z < 2 ^ 53 -> astype_int64 z = z).
    { intros z Hz. unfold astype_int64, int64_min, int64_max.
      replace (- 2 ^ 63 <=? z) with true by (symmetry; apply Z.leb_le; lia).
      replace (z <=? 2 ^ 63 - 1) with true by (symmetry; apply Z.leb_le; lia).
      done. }
    rewrite (float64_int (c * div)) by done.
    rewrite (float64_int div) by done.
    rewrite (float64_comp _ _ (inject_Z_quotient c div ltac:(lia))).
    rewrite (float64_int c) by done.
    replace (0 <? div) with true by (symmetry; apply Z.ltb_lt; lia). simpl.
    destruct (Z.eqb_spec (Z.of_nat j) div) as [->|Hne].
    + rewrite Qfloor_Z, Hin by done. lia.
    + rewrite (float64_int (Z.of_nat j)) by lia.
      assert (Hjc : Z.abs (Z.of_nat j * c) < 2 ^ 53) by nia.
      rewrite (float64_comp _ (inject_Z (Z.of_nat j * c)))
        by (by rewrite inject_Z_mult).
      by rewrite float64_int, Qfloor_Z, Hin.
Qed.

(** In smooth mode on a datetime index whose span is below 2^53 ns (some
    104 days) and a whole multiple [c] of the number of steps, the
    timestamps of the result are evenly spaced, [c] ns apart, from the
    first timestamp of the input to the last: the spacing of [date_range]
    is then exact in float64.  The timestamps of the rows in between play
    no part. *)
Theorem smooth_index_evenly_spaced (d t : DataFrame) (s c : Z)
    (ix : list (option Z)) (t0 t1 : Z) :
  0 < s -> df_index d = DtS ix -> get_interpolated_df d s true = Ok t ->
  head ix = Some (Some t0) -> last ix = Some (Some t1) ->
  timestamp t0 = true -> timestamp t1 = true ->
  Z.abs (t1 - t0) < 2 ^ 53 -> t1 - t0 = c * (Z.of_nat (nrows t) - 1) ->
  df_index t
  = DtS (map (fun j => Some (t0 + Z.of_nat j * c)) (seq 0 (nrows t))).
Proof.
  intros Hs Hix H Hh Hl Ht0 Ht1 Hb Hc.
  pose proof (nrows_interpolated _ _ _ _ H) as [Hn Hrows].
  pose proof H as H0.
  apply get_interpolated_df_inv in H0 as (l & Hlast & _ & Hfill).
  apply index_last_spread in Hlast as [_ ->].
  unfold nrows in Hn, Hfill. rewrite Hix in Hn, Hfill. simpl in Hn, Hfill.
  destruct (first_last _) as [[f la]|e] eqn:E; simpl in Hfill; [|done].
  injection Hfill as Hidx.
  apply first_last_inv in E as [Eh El].
  rewrite (reindex_cells_head s ix Hs Hn), Hh in Eh.
  rewrite (reindex_cells_last s ix Hs Hn), Hl in El.
  injection Eh as <-. injection El as <-.
  assert (Hlen : length (reindex_cells (spread_labels (length ix) s) ix
                           (range ((Z.of_nat (length ix) - 1) * s + 1)))
                 = nrows t).
  { unfold nrows. rewrite <- Hidx. simpl.
    by rewrite length_map, length_date_range. }
  rewrite Hlen in Hidx. rewrite <- Hidx. f_equal.
  unfold date_range. rewrite Hc, linspace_exact by (by rewrite <- Hc).
  rewrite !map_map. apply map_ext_in. intros j Hj.
  apply in_seq in Hj as [_ Hj]. simpl in Hj. f_equal.
  replace (Z.of_nat j * c + t0) with (t0 + Z.of_nat j * c) by lia.
  apply wrap_int64_timestamp.
  unfold timestamp, int64_min, int64_max in *.
  apply andb_true_iff in Ht0 as [A0 B0]. apply andb_true_iff in Ht1 as [A1 B1].
  apply Z.ltb_lt in A0, A1. apply Z.leb_le in B0, B1.
  assert (Hjm : 0 <= Z.of_nat j <= Z.of_nat (nrows t) - 1) by lia.
  apply andb_true_iff.
  split; [apply Z.ltb_lt|apply Z.leb_le]; destruct (Z.le_gt_cases 0 c); nia.
Qed.

Lemma smooth_index_evenly_spaced_witness :
  exists t, get_interpolated_df three_days 2 true = Ok t
            /\ cells (df_index t) !! 1%nat = Some (DtC 43200000000000).
Proof.
  destruct (get_interpolated_df three_days 2 true) as [t|e] eqn:E;
    [|vm_compute in E; discriminate].
  assert (Hr : nrows t = 5%nat).
  { apply nrows_interpolated in E as [_ ->]. reflexivity. }
  exists t. split; [done|].
  rewrite (smooth_index_evenly_spaced three_days t 2 43200000000000
             [Some 0; Some 86400000000000; Some 172800000000000]
             0 172800000000000);
    try reflexivity; try done.
  - by rewrite Hr.
  - rewrite Hr. reflexivity.
Defined.

(** ** Frame interpolator: when it raises *)

Lemma index_last_empty (s : Z) : index_last (spread_labels 0 s) = Raise IndexOutOfBounds.
Proof. reflexivity. Qed.

Lemma has_duplicates_zero (n : nat) :
  (2 <= n)%nat -> has_duplicates (spread_labels n 0) = true.
Proof.
  intros Hn. unfold spread_labels, range. rewrite Nat2Z.id.
  destruct n as [|[|n]]; [lia..|]. simpl. done.
Qed.

(** The failures of [get_interpolated_df].  An empty table raises the
    IndexError of [index[-1]] in both modes; [steps_per_period = 0] on a
    table of two rows or more gives every row the label 0 and raises on the
    duplicate axis; and for a positive [steps_per_period] stepped mode
    returns exactly when the table is not empty and its columns are not all
    of object dtype, the latter raising the TypeError of
    [DataFrame.interpolate]. *)
Theorem get_interpolated_df_failures (d : DataFrame) (s : Z) :
  (forall ip, nrows d = 0%nat ->
     get_interpolated_df d s ip = Raise IndexOutOfBounds)
  /\ (forall ip, (2 <= nrows d)%nat ->
        get_interpolated_df d 0 ip = Raise DuplicateAxis)
  /\ (0 < s -> (1 <= nrows d)%nat -> all_object (df_columns d) = true ->
      get_interpolated_df d s false = Raise AllObjectColumns)
  /\ (0 < s ->
      (is_ok (get_interpolated_df d s false) = true
       <-> (1 <= nrows d)%nat /\ all_object (df_columns d) = false)).
Proof.
  assert (Hobj : 0 < s -> (1 <= nrows d)%nat -> all_object (df_columns d) = true ->
                 get_interpolated_df d s false = Raise AllObjectColumns).
  { intros Hs Hn Ho. unfold get_interpolated_df, reset_index, reindex; simpl.
    fold (spread_labels (nrows d) s).
    rewrite index_last_spread_ok by done. simpl.
    rewrite has_duplicates_spread by lia. simpl.
    unfold interpolate_linear, set_index. simpl.
    by rewrite all_object_reindex, Ho. }
  split; [|split; [|split]].
  - intros ip Hn. unfold get_interpolated_df, reset_index; simpl.
    fold (spread_labels (nrows d) s). by rewrite Hn.
  - intros ip Hn. unfold get_interpolated_df, reset_index, reindex; simpl.
    fold (spread_labels (nrows d) 0).
    rewrite index_last_spread_ok by lia. simpl.
    by rewrite has_duplicates_zero.
  - exact Hobj.
  - intros Hs. split.
    + intros H. destruct (get_interpolated_df d s false) as [t|e] eqn:E; [|done].
      pose proof (nrows_interpolated _ _ _ _ E) as [Hn _]. split; [done|].
      destruct (all_object (df_columns d)) eqn:Ho; [|done].
      discriminate (Hobj Hs Hn eq_refl).
    + intros [Hn Ho].
      destruct (get_interpolated_df_ffill_returns d s Hs Hn Ho) as [t ->].
      done.
Qed.

Lemma get_interpolated_df_failures_witness :
  get_interpolated_df (mkDataFrame (DtS []) [mkColumn (LStr "a") (NumS [])]) 2 true
  = Raise IndexOutOfBounds
  /\ get_interpolated_df yearly 0 false = Raise DuplicateAxis
  /\ get_interpolated_df
       (mkDataFrame (DtS [Some 0]) [mkColumn (LStr "city") (ObjS [Some "a"])])
       2 false
     = Raise AllObjectColumns.
Proof.
  split; [|split].
  - apply (proj1 (get_interpolated_df_failures _ 2)). reflexivity.
  - apply (proj1 (proj2 (get_interpolated_df_failures yearly 0))).
    unfold nrows. simpl. lia.
  - apply (proj1 (proj2 (proj2 (get_interpolated_df_failures _ 2))));
      [lia|unfold nrows; simpl; lia|reflexivity].
Defined.

Lemma interp_from_complete (x : nat -> Q) (p : nat) (prev : option (Q * Q))
    (ys : list (option Q)) :
  (is_Some prev \/ exists y, head ys = Some (Some y)) ->
  Forall is_Some (interp_from x p prev ys).
Proof.
  revert p prev. induction ys as [|y0 ys IH]; intros p prev H; [constructor|].
  destruct y0 as [y|]; simpl.
  - constructor; [by eexists|]. apply IH. left. by eexists.
  - destruct H as [[[x0 y0] ->]|[y Hy]]; [|done].
    constructor.
    + destruct (next_valid _ _ _) as [[x1 y1]|]; by eexists.
    + apply IH. left. by eexists.
Qed.

Lemma map_result_raises {A B} (f : A -> result B) (l : list A) (e : Error) :
  (forall a e', a ∈ l -> f a = Raise e' -> e' = e) ->
  (exists a, a ∈ l /\ f a = Raise e) ->
  map_result f l = Raise e.
Proof.
  induction l as [|x l IH]; intros Hall (a & Ha & Hf).
  - by apply elem_of_nil in Ha.
  - simpl. destruct (f x) as [b|e'] eqn:Ex; simpl.
    + apply elem_of_cons in Ha as [->|Ha]; [congruence|].
      rewrite IH; [done| |by exists a].
      intros a' e'' Ha' Hf'. apply (Hall a'); [by right|done].
    + f_equal. apply (Hall x); [left|done].
Qed.

(** Smooth mode needs a datetime index (docstring: "must be datetime
    index"): on a numeric index without missing values, with at least two
    steps per period and at least two rows, the call raises "time-weighted
    interpolation only works on Series or DataFrames with a DatetimeIndex"
    as soon as one numeric column has a known first value. *)
Theorem smooth_mode_needs_datetime_index (d : DataFrame) (sn ci : nat)
    (ix v : list (option Q)) (c : Column) (a : Q) :
  (2 <= sn)%nat -> (2 <= nrows d)%nat ->
  df_index d = NumS ix -> has_missing (df_index d) = false ->
  df_columns d !! ci = Some c -> col_data c = NumS v -> length v = nrows d ->
  v !! 0%nat = Some (Some a) ->
  get_interpolated_df d (Z.of_nat sn) true
  = Raise TimeInterpolationNeedsDatetimeIndex.
Proof.
  intros Hs Hn Hix Hm Hc Hv Hlen Ha.
  unfold get_interpolated_df, reset_index, reindex; simpl.
  fold (spread_labels (nrows d) (Z.of_nat sn)).
  rewrite index_last_spread_ok by lia. simpl.
  rewrite has_duplicates_spread by lia. simpl.
  rewrite Hix. simpl. unfold interpolate_time, set_index. simpl.
  rewrite all_object_reindex.
  assert (Hobj : all_object (df_columns d) = false).
  { apply list_elem_of_lookup_2 in Hc. clear -Hc Hv.
    destruct (df_columns d) as [|c0 cs]; [by apply elem_of_nil in Hc|].
    unfold all_object. apply not_true_iff_false. intros H.
    rewrite forallb_forall in H. apply list_elem_of_In in Hc.
    specialize (H c Hc). by rewrite Hv in H. }
  rewrite Hobj.
  assert (Hlenix : length ix = nrows d) by (unfold nrows; by rewrite Hix).
  assert (Hcomplete : has_missing
            (NumS (interp_from by_position 0 None
               (reindex_cells (spread_labels (nrows d) (Z.of_nat sn)) ix
                  (range ((Z.of_nat (nrows d) - 1) * Z.of_nat sn + 1))))) = false).
  { unfold has_missing. simpl. apply not_true_iff_false. intros H.
    apply existsb_exists in H as (x & Hx & Hna).
    apply in_map_iff in Hx as (o & <- & Ho).
    assert (Hall : Forall is_Some
              (interp_from by_position 0 None
                 (reindex_cells (spread_labels (nrows d) (Z.of_nat sn)) ix
                    (range ((Z.of_nat (nrows d) - 1) * Z.of_nat sn + 1))))).
    { apply interp_from_complete. right. rewrite <- Hlenix.
      rewrite reindex_cells_head by lia.
      rewrite Hix in Hm. unfold has_missing in Hm. simpl in Hm.
      destruct ix as [|[y|] ix]; simpl in *; [lia| |done]. by exists y. }
    rewrite Forall_forall in Hall. apply list_elem_of_In in Ho.
    destruct (Hall o Ho) as [y ->]. done. }
  rewrite Hcomplete.
  rewrite (map_result_raises _ _ TimeInterpolationNeedsDatetimeIndex); [done| |].
  - intros c0 e' _. unfold interpolate_time_col.
    destruct (col_data c0) as [w|w|w]; try done.
    destruct (needs_fill w); [|done]. by intros [= <-].
  - exists (mkColumn (col_label c)
              (reindex_series (spread_labels (nrows d) (Z.of_nat sn)) (col_data c)
                 (range ((Z.of_nat (nrows d) - 1) * Z.of_nat sn + 1)))).
    split.
    + apply list_elem_of_In, in_map_iff. exists c. split; [done|].
      apply list_elem_of_In. by apply list_elem_of_lookup_2 in Hc.
    + unfold interpolate_time_col. simpl. rewrite Hv. simpl.
      assert (Hfill : needs_fill
                (reindex_cells (spread_labels (nrows d) (Z.of_nat sn)) v
                   (range ((Z.of_nat (nrows d) - 1) * Z.of_nat sn + 1))) = true).
      { rewrite <- Hlen in *. unfold needs_fill. apply andb_true_iff. split.
        - apply existsb_exists. exists (Some a). split; [|done].
          apply list_elem_of_In, list_elem_of_lookup. exists (0 * sn + 0)%nat.
          rewrite reindex_cells_lookup by nia. simpl. by rewrite Ha.
        - apply existsb_exists. exists None. split; [|done].
          apply list_elem_of_In, list_elem_of_lookup. exists (0 * sn + 1)%nat.
          rewrite reindex_cells_lookup by nia. done. }
      by rewrite Hfill.
Qed.

Lemma smooth_mode_needs_datetime_index_witness :
  get_interpolated_df yearly 2 true = Raise TimeInterpolationNeedsDatetimeIndex.
Proof.
  apply (smooth_mode_needs_datetime_index yearly 2 0
           [Some 2000%Q; Some 2001%Q; Some 2002%Q]
           [Some 1%Q; Some 2%Q; Some 4%Q]
           (mkColumn (LStr "value") (NumS [Some 1%Q; Some 2%Q; Some 4%Q])) 1);
    try done; try lia; unfold nrows; simpl; lia.
Defined.

(** ** Axis scaler: the x-limits and the missing first value *)

Lemma zmin_le (a b : Z) : Z.min a b <= a /\ Z.min a b <= b.
Proof. lia. Qed.

Lemma zmax_ge (a b : Z) : flip Z.le (Z.max a b) a /\ flip Z.le (Z.max a b) b.
Proof. unfold flip. lia. Qed.

(** On a datetime index, when [set_x_y_limits(df, i)] returns the x-limits
    run from the smallest timestamp of rows 0 to [i] to the largest plus
    one second: every timestamp of those rows lies within, and the two
    limits are never identical, not even on the first frame. *)
Theorem x_limits_span (d : DataFrame) (i : nat) (a a' : Axes)
    (ix : list (option Z)) :
  df_index d = DtS ix -> set_x_y_limits d i a = (a', Ok tt) ->
  exists lo hi,
    xlim a' = Some (DtC lo, DtC (hi + one_second))
    /\ (forall k t, (k <= i)%nat -> ix !! k = Some (Some t) -> lo <= t <= hi)
    /\ lo < hi + one_second.
Proof.
  intros Hix H.
  destruct (x_limits_datetime d i a a' ix Hix H) as (lo & hi & Hlo & Hhi & Hx).
  exists lo, hi. split; [exact Hx|].
  assert (Hbound : forall t, Some t ∈ firstn (i + 1) ix -> lo <= t <= hi).
  { intros t Ht.
    destruct (reduce_below Z.le Z.min Z.le_refl Z.le_trans zmin_le _ t Ht)
      as (m & Hm & Hle).
    assert (Hrefl : forall x, flip Z.le x x) by (intros x; unfold flip; lia).
    assert (Htrans : forall x y z, flip Z.le x y -> flip Z.le y z -> flip Z.le x z)
      by (unfold flip; intros x y z; lia).
    destruct (reduce_below (flip Z.le) Z.max Hrefl Htrans zmax_ge _ t Ht)
      as (M & HM & Hge).
    unfold flip in Hge. assert (m = lo) by congruence.
    assert (M = hi) by congruence. lia. }
  split.
  - intros k t Hk Hkt. apply Hbound. by apply (elem_of_prefix ix k i).
  - apply reduce_known in Hlo as [t Ht]. specialize (Hbound t Ht).
    unfold one_second. lia.
Qed.

Lemma x_limits_span_witness :
  exists a', set_x_y_limits three_days_smooth 0 empty_axes = (a', Ok tt)
             /\ xlim a' = Some (DtC 0, DtC 1000000000).
Proof.
  destruct (set_x_y_limits three_days_smooth 0 empty_axes) as [a' r] eqn:E.
  assert (r = Ok tt) as -> by (vm_compute in E; congruence).
  destruct (x_limits_span three_days_smooth 0 empty_axes a' _ eq_refl E)
    as (lo & hi & Hx & Hb & _).
  exists a'. split; [done|].
  assert (lo = 0 /\ hi = 0) as [-> ->].
  { specialize (Hb 0%nat 0 ltac:(lia) eq_refl).
    vm_compute in E. injection E as <-. simpl in Hx.
    injection Hx as Hlo Hhi. unfold one_second in Hhi. lia. }
  exact Hx.
Defined.

Lemma reduce_none {A} (pick : A -> A -> A) (v : list (option A)) :
  (forall a, Some a ∉ v) -> reduce pick v = None.
Proof.
  induction v as [|[b|] v IH]; intros H; simpl; [done| |].
  - exfalso. apply (H b). left.
  - apply IH. intros a Ha. apply (H a). by right.
Qed.

Lemma numeric_prefix_inv (n : nat) (d : DataFrame) (col : list (option Q)) :
  col ∈ numeric_prefix n d ->
  exists c vals, c ∈ df_columns d /\ col_data c = NumS vals
                 /\ col = firstn n vals.
Proof.
  unfold numeric_prefix. intros H. apply list_elem_of_omap in H as (c & Hc & Hd).
  destruct (col_data c) as [vals| |] eqn:E; try done.
  injection Hd as <-. by exists c, vals.
Qed.

(** The first frames cannot be drawn before a numeric value is known: on a
    datetime index with a known timestamp in rows 0 to [i], the pad of one
    second fitting below [Timestamp.max], if no numeric column has a known
    value in those rows then [set_x_y_limits(df, i)] raises "Axis limits
    cannot be NaN or Inf" from [set_ylim], after the x-limits have been
    set. *)
Theorem y_limits_need_a_value (d : DataFrame) (i : nat) (a : Axes)
    (ix : list (option Z)) (t0 : Z) (k0 : nat) :
  df_index d = DtS ix -> (k0 <= i)%nat -> ix !! k0 = Some (Some t0) ->
  pad_fits (i + 1) (df_index d) = true ->
  (forall c vals k q, c ∈ df_columns d -> col_data c = NumS vals ->
     (k <= i)%nat -> vals !! k <> Some (Some q)) ->
  exists a',
    set_x_y_limits d i a = (a', Raise AxisLimitNaN)
    /\ xlim a' <> None /\ ylim a' = ylim a.
Proof.
  intros Hix Hk0 Ht0 Hpad Hnone.
  unfold set_x_y_limits, st_bind, lift, update.
  rewrite Hix in Hpad |- *. simpl in Hpad |- *.
  pose proof (elem_of_prefix ix k0 i (Some t0) Hk0 Ht0) as Hin.
  destruct (reduce_some Z.min _ t0 Hin) as [lo ->].
  destruct (reduce_some Z.max _ t0 Hin) as [hi Hhi]. rewrite Hhi. simpl.
  pose proof (reduce_max_le _ hi int64_max Hpad Hhi) as Hfit.
  apply Z.leb_le in Hfit. rewrite Hfit.
  assert (Hmin : frame_min (numeric_prefix (i + 1) d) = None).
  { unfold frame_min. apply reduce_none. intros q Hq.
    apply list_elem_of_In, in_map_iff in Hq as (col & Hred & Hcol).
    apply reduce_known in Hred as [q' Hq'].
    apply list_elem_of_In, numeric_prefix_inv in Hcol as (c & vals & Hc & Hv & ->).
    apply list_elem_of_lookup in Hq' as [k Hk].
    assert (Hki : (k < i + 1)%nat).
    { apply lookup_lt_Some in Hk. rewrite length_take in Hk. lia. }
    rewrite lookup_take_lt in Hk by done.
    apply (Hnone c vals k q' Hc Hv); [lia|done]. }
  rewrite Hmin. simpl. eexists. split; [reflexivity|]. by split.
Qed.

Lemma y_limits_need_a_value_witness :
  exists a',
    set_x_y_limits
      (mkDataFrame (DtS [Some 0; Some 5])
         [mkColumn (LStr "value") (NumS [None; Some 2%Q])]) 0 empty_axes
    = (a', Raise AxisLimitNaN)
    /\ xlim a' <> None /\ ylim a' = None.
Proof.
  apply (y_limits_need_a_value _ 0 empty_axes [Some 0; Some 5] 0 0);
    [reflexivity|lia|reflexivity|reflexivity|].
  intros c vals k q Hc Hv Hk.
  apply list_elem_of_singleton in Hc. subst c. simpl in Hv.
  injection Hv as <-. assert (k = 0%nat) as -> by lia. discriminate.
Defined.

(** ** Line chart: how the series grow *)

Lemma plot_line_unfold (i : nat) (c : Chart) :
  LineChart.plot_line i c
  = match set_x_y_limits (df c) i (ax c) with
    | (a, Ok _) =>
        for_each (zip (data_cols c) (colors c)) (line_round i) (with_ax c a)
    | (a, Raise e) => (with_ax c a, Raise e)
    end.
Proof.
  unfold LineChart.plot_line, st_bind, get, on_ax.
  destruct (set_x_y_limits (df c) i (ax c)) as [a [[]|e]]; [|done].
  f_equal.
Qed.

Lemma getitem_index_cell (d : DataFrame) (name : Label) (i : nat) (v : Cell) :
  getitem_index d name i = Ok v -> cell_at (df_index d) i = Ok v.
Proof.
  unfold getitem_index. by destruct (getitem d name).
Qed.

(** A round of [plot_line] that returns has appended one point to the
    entry of [name] and drawn the line of that entry. *)
Lemma line_round_returns (i : nat) (name color : string) (c c' : Chart) :
  line_round i (name, color) c = (c', Ok tt) ->
  exists p vx vy,
    points c !! name = Some p
    /\ getitem_index (df c) (LStr name) i = Ok vx
    /\ getitem_iloc (df c) (LStr name) i = Ok vy
    /\ c' = line_appended c name color p vx vy.
Proof.
  unfold line_round, append_x, append_y, points_of, set_points, st_bind, get,
    lift, modify, on_ax. simpl.
  destruct (points c !! name) as [p|] eqn:Ep; [|done]. simpl.
  destruct (getitem_index (df c) (LStr name) i) as [vx|e]; [|done]. simpl.
  rewrite lookup_insert_eq. simpl.
  destruct (getitem_iloc (df c) (LStr name) i) as [vy|e]; [|done]. simpl.
  rewrite lookup_insert_eq. simpl. intros [= <-].
  exists p, vx, vy. repeat split; try done.
  unfold line_appended, with_ax, with_points. simpl.
  by rewrite insert_insert_eq.
Qed.

Lemma zip_fst_elem {A B} (l : list A) (k : list B) (a : A) :
  a ∈ map fst (zip l k) -> a ∈ l.
Proof.
  revert k. induction l as [|x l IH]; intros [|y k] H; simpl in *;
    try by apply elem_of_nil in H.
  apply elem_of_cons in H as [->|H]; [left|right; by apply (IH k)].
Qed.

Lemma zip_fst_NoDup {A B} (l : list A) (k : list B) :
  NoDup l -> NoDup (map fst (zip l k)).
Proof.
  revert k. induction l as [|x l IH]; intros [|y k] H; simpl;
    try apply NoDup_nil_2.
  apply NoDup_cons in H as [Hx H]. apply NoDup_cons_2; [|by apply IH].
  intros Hin. by apply zip_fst_elem in Hin.
Qed.

(** The loop of [plot_line] over pairs with distinct names: each name of
    the loop gets exactly one more point, the other entries stay, and two
    lines per pair are added to the axes. *)
Lemma line_rounds (i : nat) (pairs : list (string * string)) (c c' : Chart) :
  NoDup (map fst pairs) ->
  for_each pairs (line_round i) c = (c', Ok tt) ->
  same_labels c c'
  /\ data_cols c' = data_cols c /\ colors c' = colors c
  /\ line_width c' = line_width c
  /\ length (lines (ax c')) = (length (lines (ax c)) + 2 * length pairs)%nat
  /\ (forall name, name ∉ map fst pairs -> points c' !! name = points c !! name)
  /\ (forall name color, (name, color) ∈ pairs ->
        exists p vx vy,
          points c !! name = Some p
          /\ cell_at (df_index (df c)) i = Ok vx
          /\ getitem_iloc (df c) (LStr name) i = Ok vy
          /\ points c' !! name
             = Some (mkPoints (pts_x p ++ [vx]) (pts_y p ++ [vy]) (pts_size p))).
Proof.
  revert c. induction pairs as [|[name color] pairs IH]; intros c Hnd H.
  - simpl in H. injection H as <-. split; [apply same_labels_refl|].
    repeat split; try done; try (simpl; lia).
    intros name color Hin. by apply elem_of_nil in Hin.
  - simpl in Hnd. apply NoDup_cons in Hnd as [Hfresh Hnd].
    cbn [for_each] in H. unfold st_bind at 1 in H.
    destruct (line_round i (name, color) c) as [c1 [[]|e]] eqn:E1; [|done].
    apply line_round_returns in E1 as (p & vx & vy & Hp & Hx & Hy & ->).
    apply IH in H as (Hlab & Hdc & Hcol & Hlw & Hlen & Hother & Hsome);
      [|done].
    split.
    { eapply same_labels_trans; [|exact Hlab]. by repeat split. }
    split; [done|]. split; [done|]. split; [done|]. split.
    { rewrite Hlen. simpl. rewrite length_app. simpl. lia. }
    split.
    + intros n Hn. simpl in Hn. apply not_elem_of_cons in Hn as [Hne Hn].
      rewrite Hother by done. simpl. by rewrite lookup_insert_ne.
    + intros n col Hin. apply elem_of_cons in Hin as [[= -> ->]|Hin].
      * exists p, vx, vy. split; [done|].
        split; [by apply (getitem_index_cell _ (LStr name))|]. split; [done|].
        rewrite Hother by done. simpl. by rewrite lookup_insert_eq.
      * destruct (Hsome n col Hin) as (p' & vx' & vy' & Hp' & Hx' & Hy' & Hres).
        assert (Hne : name <> n).
        { intros ->. apply Hfresh. apply list_elem_of_In, in_map_iff.
          exists (n, col). split; [done|]. by apply list_elem_of_In. }
        simpl in Hp', Hx', Hy'. rewrite lookup_insert_ne in Hp' by done.
        by exists p', vx', vy'.
Qed.

Lemma same_data_refl (c : Chart) : same_data c c.
Proof. by repeat split. Qed.

Lemma same_data_trans (c1 c2 c3 : Chart) :
  same_data c1 c2 -> same_data c2 c3 -> same_data c1 c3.
Proof.
  intros (H1 & H2 & H3 & H4 & H5 & H6 & H7 & H8)
         (K1 & K2 & K3 & K4 & K5 & K6 & K7 & K8).
  repeat split; congruence.
Qed.

Lemma on_ax_same_data {A} (m : ST Axes A) : preserves same_data (on_ax m).
Proof.
  intros c. unfold on_ax. destruct (m (ax c)) as [a r]. by repeat split.
Qed.

Lemma period_string_same_data (F : Formatter) (i : nat) :
  preserves same_data (period_string F i).
Proof. intros c. rewrite period_string_state. apply same_data_refl. Qed.

Lemma show_period_same_data (F : Formatter) (i : nat) :
  preserves same_data (show_period F i).
Proof.
  unfold show_period.
  apply (preserves_bind same_data same_data_trans);
    [apply (preserves_get same_data same_data_refl)|].
  intros c. destruct (truthy (period_label c));
    [|apply (preserves_ret same_data same_data_refl)].
  apply (preserves_bind same_data same_data_trans);
    [apply period_string_same_data|].
  intros s. cbv zeta. destruct (Nat.eqb _ 0); [|apply on_ax_same_data].
  apply (preserves_bind same_data same_data_trans);
    [apply (preserves_lift same_data same_data_refl)|].
  intros [b|kw]; [apply (preserves_lift same_data same_data_refl)|].
  apply on_ax_same_data.
Qed.

(** A call of [LineChart.anim_func] that returns has run [plot_line] to its
    end on the chart with the lines removed, and has touched nothing but
    the axes afterwards. *)
Lemma line_anim_func_returns (F : Formatter) (i : nat) (c c' : Chart) :
  LineChart.anim_func F i c = (c', Ok tt) ->
  exists c1,
    LineChart.plot_line i (with_ax c (remove_lines (ax c))) = (c1, Ok tt)
    /\ same_data c1 c'.
Proof.
  intros H. unfold LineChart.anim_func in H.
  unfold st_bind at 1 in H. unfold on_ax at 1, modify at 1 in H. simpl in H.
  unfold st_bind at 1 in H.
  destruct (LineChart.plot_line i _) as [c1 [[]|e]] eqn:E; [|done].
  exists c1. split; [done|].
  unfold st_bind at 1, get in H.
  destruct (fmt_truthy (period_fmt c1)).
  - pose proof (show_period_same_data F i c1) as Hs. by rewrite H in Hs.
  - injection H as <-. apply same_data_refl.
Qed.

(** One frame of a line chart: every data column that has a colour gets
    the point of that frame appended, the other entries of [_lines] stay
    as they are. *)
Lemma line_frame (F : Formatter) (i : nat) (c c' : Chart) :
  NoDup (data_cols c) ->
  LineChart.anim_func F i c = (c', Ok tt) ->
  df c' = df c /\ data_cols c' = data_cols c /\ colors c' = colors c
  /\ (forall name, name ∉ map fst (zip (data_cols c) (colors c)) ->
        points c' !! name = points c !! name)
  /\ (forall name color, (name, color) ∈ zip (data_cols c) (colors c) ->
        exists p vx vy,
          points c !! name = Some p
          /\ cell_at (df_index (df c)) i = Ok vx
          /\ getitem_iloc (df c) (LStr name) i = Ok vy
          /\ points c' !! name
             = Some (mkPoints (pts_x p ++ [vx]) (pts_y p ++ [vy]) (pts_size p))).
Proof.
  intros Hnd H. apply line_anim_func_returns in H as (c1 & Hplot & Hdata).
  rewrite plot_line_unfold in Hplot. simpl in Hplot.
  destruct (set_x_y_limits (df c) i (remove_lines (ax c))) as [a [[]|e]];
    [|done].
  apply line_rounds in Hplot
    as ((Hd & _) & Hdc & Hcol & _ & _ & Hother & Hsome);
    [|by apply zip_fst_NoDup].
  destruct Hdata as (Hp' & Hd' & Hdc' & Hcol' & _).
  simpl in *. rewrite Hp'.
  split; [congruence|]. split; [congruence|]. split; [congruence|].
  split; [exact Hother|exact Hsome].
Qed.

(** After the frames 0 to [n] of a line chart whose data column names are
    distinct and whose series start empty, the series of every data column
    that has a colour holds exactly the points of rows 0 to [n]: its x list
    is the first [n + 1] index values and its y list the values of that
    column at those rows. *)
Theorem line_series_accumulate (F : Formatter) (n : nat) (c c' : Chart) :
  NoDup (data_cols c) ->
  (forall name, name ∈ data_cols c ->
     points c !! name = Some (mkPoints [] [] None)) ->
  for_each (seq 0 (Datatypes.S n)) (LineChart.anim_func F) c = (c', Ok tt) ->
  forall name color, (name, color) ∈ zip (data_cols c) (colors c) ->
    exists p,
      points c' !! name = Some p
      /\ pts_x p = firstn (Datatypes.S n) (cells (df_index (df c)))
      /\ length (pts_x p) = Datatypes.S n
      /\ length (pts_y p) = Datatypes.S n
      /\ forall i y, pts_y p !! i = Some y ->
           getitem_iloc (df c) (LStr name) i = Ok y.
Proof.
  intros Hnd Hfresh.
  assert (Hgen : forall m c',
            for_each (seq 0 m) (LineChart.anim_func F) c = (c', Ok tt) ->
            df c' = df c /\ data_cols c' = data_cols c /\ colors c' = colors c
            /\ forall name color, (name, color) ∈ zip (data_cols c) (colors c) ->
                 exists p,
                   points c' !! name = Some p
                   /\ pts_x p = firstn m (cells (df_index (df c)))
                   /\ length (pts_x p) = m /\ length (pts_y p) = m
                   /\ forall i y, pts_y p !! i = Some y ->
                        getitem_iloc (df c) (LStr name) i = Ok y).
  { induction m as [|m IH]; intros c2 H.
    - simpl in H. injection H as <-. repeat split; try done.
      intros name color Hin. exists (mkPoints [] [] None).
      split.
      { apply Hfresh. apply (zip_fst_elem _ (colors c)).
        apply list_elem_of_In, in_map_iff. exists (name, color).
        split; [done|]. by apply list_elem_of_In. }
      by repeat split.
    - rewrite seq_S, for_each_app in H.
      change (0 + m)%nat with m in H.
      destruct (for_each (seq 0 m) (LineChart.anim_func F) c)
        as [cm [[]|e]] eqn:Em; [|done].
      destruct (IH cm eq_refl) as (Hd & Hdc & Hcol & Hpts).
      apply for_each_one in H.
      apply line_frame in H as (Hd' & Hdc' & Hcol' & _ & Hsome);
        [|by rewrite Hdc].
      split; [congruence|]. split; [congruence|]. split; [congruence|].
      intros name color Hin.
      destruct (Hpts name color Hin) as (p & Hp & Hx & Hlx & Hly & Hy).
      rewrite Hdc, Hcol in Hsome.
      destruct (Hsome name color Hin) as (p0 & vx & vy & Hp0 & Hvx & Hvy & Hres).
      assert (p0 = p) as -> by congruence.
      rewrite Hd in Hvx, Hvy.
      exists (mkPoints (pts_x p ++ [vx]) (pts_y p ++ [vy]) (pts_size p)).
      split; [done|]. simpl.
      unfold cell_at in Hvx.
      destruct (cells (df_index (df c)) !! m) as [v0|] eqn:Ecell; [|done].
      injection Hvx as ->.
      split; [by rewrite (take_S_r _ _ vx Ecell), Hx|].
      split; [rewrite length_app; simpl; lia|].
      split; [rewrite length_app; simpl; lia|].
      intros i y Hi.
      destruct (decide (i < length (pts_y p))%nat) as [Hlt|Hge].
      + rewrite lookup_app_l in Hi by done. by apply Hy.
      + rewrite lookup_app_r in Hi by lia.
        destruct (i - length (pts_y p))%nat as [|j] eqn:Ej; [|done].
        simpl in Hi. injection Hi as <-.
        by replace i with m by lia. }
  intros H name color Hin.
  destruct (Hgen _ _ H) as (_ & _ & _ & Hpts). by apply (Hpts name color).
Qed.

Lemma line_series_accumulate_witness :
  exists c' p,
    for_each (seq 0 3) (LineChart.anim_func echo_formatter) line_example
    = (c', Ok tt)
    /\ points c' !! "value" = Some p
    /\ pts_x p = [DtC 0; DtC 43200000000000; DtC 86400000000000]
    /\ length (pts_y p) = 3%nat.
Proof.
  set (out := for_each (seq 0 3) (LineChart.anim_func echo_formatter)
                line_example).
  assert (E : out = (out.1, Ok tt)) by (vm_compute; reflexivity).
  destruct (line_series_accumulate echo_formatter 2 line_example out.1)
    with (name := "value") (color := "red")
    as (p & Hp & Hx & _ & Hly & _).
  - apply (bool_decide_unpack _). reflexivity.
  - intros name Hn. apply list_elem_of_singleton in Hn. by subst name.
  - exact E.
  - left.
  - exists out.1, p. split; [exact E|]. by repeat split.
Defined.

(** ** Scatter chart: what a frame draws *)

Lemma plot_point_rounds (i : nat) (c : Chart) :
  ScatterChart.plot_point i c
  = match set_x_y_limits (df c) i (ax c) with
    | (a, Ok _) =>
        for_each (zip (data_cols c) (colors c)) (scatter_round i) (with_ax c a)
    | (a, Raise e) => (with_ax c a, Raise e)
    end.
Proof.
  unfold ScatterChart.plot_point, st_bind, get, on_ax.
  destruct (set_x_y_limits (df c) i (ax c)) as [a [[]|e]]; [|done].
  f_equal.
Qed.

(** A round of [plot_point] that returns has appended one point to the
    entry of [name], stored the size of the frame, and added one scatter of
    all the points of that entry. *)
Lemma scatter_round_returns (i : nat) (name color : string) (c c' : Chart) :
  scatter_round i (name, color) c = (c', Ok tt) ->
  exists p vx vy sv,
    points c !! name = Some p
    /\ getitem_index (df c) (LStr name) i = Ok vx
    /\ getitem_iloc (df c) (LStr name) i = Ok vy
    /\ size_value c i = Ok sv
    /\ c' = scatter_appended c name color p vx vy sv.
Proof.
  unfold scatter_round, append_x, append_y, set_size, points_of, set_points,
    st_bind, get, lift, modify, on_ax, size_value. simpl.
  destruct (points c !! name) as [p|] eqn:Ep; [|done]. simpl.
  destruct (getitem_index (df c) (LStr name) i) as [vx|e]; [|done]. simpl.
  rewrite lookup_insert_eq. simpl.
  destruct (getitem_iloc (df c) (LStr name) i) as [vy|e]; [|done]. simpl.
  destruct (size c) as [n|sz]; simpl.
  - rewrite lookup_insert_eq. simpl. rewrite lookup_insert_eq. simpl.
    intros [= <-]. exists p, vx, vy, (NumC (inject_Z n)).
    repeat split; try done.
    unfold scatter_appended, with_ax, with_points. simpl.
    by rewrite !insert_insert_eq.
  - destruct (string_in sz (data_cols c)); simpl; [|done].
    rewrite lookup_insert_eq. simpl.
    destruct (getitem_iloc (df c) (LStr sz) i) as [sv|e]; [|done]. simpl.
    rewrite lookup_insert_eq. simpl.
    intros [= <-]. exists p, vx, vy, sv. repeat split; try done.
    unfold scatter_appended, with_ax, with_points. simpl.
    by rewrite !insert_insert_eq.
Qed.

Lemma scatter_rounds (i : nat) (pairs : list (string * string)) (c c' : Chart) :
  for_each pairs (scatter_round i) c = (c', Ok tt) ->
  df c' = df c /\ data_cols c' = data_cols c /\ colors c' = colors c
  /\ size c' = size c
  /\ exists drawn,
       collections (ax c') = collections (ax c) ++ drawn
       /\ length drawn = length pairs
       /\ Forall (fun s => exists sv, size_value c i = Ok sv /\ sc_s s = Some sv)
            drawn.
Proof.
  revert c. induction pairs as [|[name color] pairs IH]; intros c H.
  - simpl in H. injection H as <-. repeat split; try done.
    exists []. by rewrite app_nil_r.
  - cbn [for_each] in H. unfold st_bind at 1 in H.
    destruct (scatter_round i (name, color) c) as [c1 [[]|e]] eqn:E1; [|done].
    apply scatter_round_returns in E1
      as (p & vx & vy & sv & Hp & Hx & Hy & Hsv & ->).
    apply IH in H as (Hd & Hdc & Hcol & Hsz & drawn & Hdrawn & Hlen & Hall).
    simpl in *. repeat split; try done.
    exists (mkScatter (pts_x p ++ [vx]) (pts_y p ++ [vy]) (Some sv) (Some color)
              :: drawn).
    split; [by rewrite Hdrawn, <- app_assoc|]. split; [simpl; lia|].
    constructor; [by exists sv|].
    eapply Forall_impl; [exact Hall|]. intros s (sv' & Hs & Hsc).
    exists sv'. split; [|done]. by rewrite <- Hs.
Qed.
Lemma plot_point_adds (i : nat) (c c' : Chart) :
  ScatterChart.plot_point i c = (c', Ok tt) ->
  exists drawn,
    collections (ax c') = collections (ax c) ++ drawn
    /\ length drawn = length (zip (data_cols c) (colors c)).
Proof.
  intros H. rewrite plot_point_rounds in H.
  pose proof (set_x_y_limits_keeps (df c) i (ax c)) as (_ & _ & _ & Hkeep).
  destruct (set_x_y_limits (df c) i (ax c)) as [a [[]|e]]; [|done].
  apply scatter_rounds in H as (_ & _ & _ & _ & drawn & Hdrawn & Hlen & _).
  simpl in *. exists drawn. by rewrite Hdrawn, Hkeep.
Qed.

(** One frame of a scatter chart: [plot_point(i)] keeps the collections
    already on the axes and adds one scatter per data column that has a
    colour; each of them is drawn with the one size of this frame, the int
    [size] or the value of the size column at row [i]. *)
Theorem scatter_frame_draws (i : nat) (c c' : Chart) :
  ScatterChart.plot_point i c = (c', Ok tt) ->
  exists drawn,
    collections (ax c') = collections (ax c) ++ drawn
    /\ length drawn = length (zip (data_cols c) (colors c))
    /\ Forall (fun s => exists sv, size_value c i = Ok sv /\ sc_s s = Some sv)
         drawn.
Proof.
  intros H. rewrite plot_point_rounds in H.
  pose proof (set_x_y_limits_keeps (df c) i (ax c)) as (_ & _ & _ & Hkeep).
  destruct (set_x_y_limits (df c) i (ax c)) as [a [[]|e]]; [|done].
  apply scatter_rounds in H as (_ & _ & _ & _ & drawn & Hdrawn & Hlen & Hall).
  simpl in *. exists drawn. rewrite Hdrawn, Hkeep. by repeat split.
Qed.

Lemma scatter_frame_draws_witness :
  exists c c' s,
    example_chart (Some "%Y") (PLBool true) ["red"] (SizeStr "value") = Ok c
    /\ ScatterChart.plot_point 3 c = (c', Ok tt)
    /\ collections (ax c') = [s] /\ sc_s s = Some (NumC 3).
Proof.
  destruct (example_chart (Some "%Y") (PLBool true) ["red"] (SizeStr "value"))
    as [c|e] eqn:Ec; [|vm_compute in Ec; discriminate].
  assert (Hc : c = mkChart three_days_smooth (Some "%Y") (PLBool true)
                     ["value"] ["red"] empty_axes
                     (init_points ["value"]) (SizeStr "value") 2).
  { vm_compute in Ec. injection Ec as <-. vm_compute. reflexivity. }
  destruct (ScatterChart.plot_point 3 c) as [c' r] eqn:E.
  assert (r = Ok tt) as -> by (subst c; vm_compute in E; congruence).
  destruct (scatter_frame_draws 3 c c' E) as (drawn & Hd & Hlen & Hall).
  subst c. simpl in Hd, Hlen.
  destruct drawn as [|s [|s' drawn]]; try discriminate Hlen.
  apply Forall_cons in Hall as [(sv & Hsv & Hs) _].
  vm_compute in Hsv. injection Hsv as <-.
  eexists. exists c', s. split; [reflexivity|]. by repeat split.
Defined.

Lemma same_drawing_refl (c : Chart) : same_drawing c c.
Proof. by repeat split. Qed.

Lemma same_drawing_trans (c1 c2 c3 : Chart) :
  same_drawing c1 c2 -> same_drawing c2 c3 -> same_drawing c1 c3.
Proof.
  intros (H1 & H2 & H3 & H4) (K1 & K2 & K3 & K4). repeat split; congruence.
Qed.

Lemma show_period_same_drawing (F : Formatter) (i : nat) :
  preserves same_drawing (show_period F i).
Proof.
  unfold show_period.
  apply (preserves_bind same_drawing same_drawing_trans);
    [apply (preserves_get same_drawing same_drawing_refl)|].
  intros c. destruct (truthy (period_label c));
    [|apply (preserves_ret same_drawing same_drawing_refl)].
  apply (preserves_bind same_drawing same_drawing_trans).
  { intros c0. rewrite period_string_state. apply same_drawing_refl. }
  intros s. cbv zeta. destruct (Nat.eqb _ 0).
  - apply (preserves_bind same_drawing same_drawing_trans);
      [apply (preserves_lift same_drawing same_drawing_refl)|].
    intros [b|kw]; [apply (preserves_lift same_drawing same_drawing_refl)|].
    intros c0. unfold on_ax, modify. simpl. by repeat split.
  - intros c0. unfold on_ax, update, set_text0.
    destruct (texts (ax c0)); simpl; by repeat split.
Qed.

Lemma scatter_anim_func_returns (F : Formatter) (i : nat) (c c' : Chart) :
  ScatterChart.anim_func F i c = (c', Ok tt) ->
  exists c1,
    ScatterChart.plot_point i c = (c1, Ok tt)
    /\ same_data c1 c' /\ same_drawing c1 c'.
Proof.
  intros H. unfold ScatterChart.anim_func in H. unfold st_bind at 1 in H.
  destruct (ScatterChart.plot_point i c) as [c1 [[]|e]] eqn:E; [|done].
  exists c1. split; [done|].
  unfold st_bind at 1, get in H.
  destruct (fmt_truthy (period_fmt c1)).
  - pose proof (show_period_same_data F i c1) as Hs.
    pose proof (show_period_same_drawing F i c1) as Hd.
    rewrite H in Hs, Hd. by split.
  - injection H as <-. split; [apply same_data_refl|apply same_drawing_refl].
Qed.

(** A scatter chart never clears what it has drawn: the frames 0 to
    [n - 1] leave on the axes every collection that was there, followed by
    one new scatter per frame and per data column that has a colour. *)
Theorem scatter_collections_pile_up (F : Formatter) (n : nat) (c c' : Chart) :
  for_each (seq 0 n) (ScatterChart.anim_func F) c = (c', Ok tt) ->
  exists drawn,
    collections (ax c') = collections (ax c) ++ drawn
    /\ length drawn = (n * length (zip (data_cols c) (colors c)))%nat.
Proof.
  revert c'. induction n as [|n IH]; intros c' H.
  - simpl in H. injection H as <-. exists []. by rewrite app_nil_r.
  - rewrite seq_S, for_each_app in H. change (0 + n)%nat with n in H.
    destruct (for_each (seq 0 n) (ScatterChart.anim_func F) c)
      as [cm [[]|e]] eqn:Em; [|done].
    destruct (IH cm eq_refl) as (drawn & Hd & Hlen).
    assert (Hsame : data_cols cm = data_cols c /\ colors cm = colors c).
    { clear -Em. revert cm Em. generalize 0%nat as start.
      induction n as [|n IHn]; intros start cm Em.
      - simpl in Em. by injection Em as <-.
      - rewrite seq_S, for_each_app in Em.
        destruct (for_each (seq start n) (ScatterChart.anim_func F) c)
          as [c0 [[]|e]] eqn:E0; [|done].
        destruct (IHn _ _ E0) as [H1 H2].
        apply for_each_one in Em.
        apply scatter_anim_func_returns in Em as (c1 & Hp & Hdata & _).
        rewrite plot_point_rounds in Hp.
        destruct (set_x_y_limits _ _ _) as [a [[]|e]]; [|done].
        apply scatter_rounds in Hp as (_ & Hdc & Hcol & _).
        destruct Hdata as (_ & _ & Hdc' & Hcol' & _). simpl in *.
        split; congruence. }
    destruct Hsame as [Hdc Hcol].
    apply for_each_one in H.
    apply scatter_anim_func_returns in H as (c1 & Hp & _ & Hdraw).
    apply plot_point_adds in Hp as (new & Hnew & Hlen').
    destruct Hdraw as (Hcoll & _).
    exists (drawn ++ new). split.
    + by rewrite Hcoll, Hnew, Hd, app_assoc.
    + rewrite length_app, Hlen, Hlen', Hdc, Hcol. lia.
Qed.

Lemma scatter_collections_pile_up_witness :
  exists c c',
    example_chart (Some "%Y") (PLBool true) ["red"] (SizeInt 5) = Ok c
    /\ for_each (seq 0 3) (ScatterChart.anim_func echo_formatter) c
       = (c', Ok tt)
    /\ length (collections (ax c')) = 3%nat.
Proof.
  destruct (example_chart (Some "%Y") (PLBool true) ["red"] (SizeInt 5))
    as [c|e] eqn:Ec; [|vm_compute in Ec; discriminate].
  assert (Hc : c = mkChart three_days_smooth (Some "%Y") (PLBool true)
                     ["value"] ["red"] empty_axes
                     (init_points ["value"]) (SizeInt 5) 2).
  { vm_compute in Ec. injection Ec as <-. vm_compute. reflexivity. }
  destruct (for_each (seq 0 3) (ScatterChart.anim_func echo_formatter) c)
    as [c' r] eqn:E.
  assert (r = Ok tt) as -> by (subst c; vm_compute in E; congruence).
  destruct (scatter_collections_pile_up echo_formatter 3 c c' E)
    as (drawn & Hd & Hlen).
  exists c, c'. split; [done|]. split; [done|].
  rewrite Hd, length_app, Hlen. by subst c.
Defined.

(** ** Period annotator: when the style dict is checked *)

(** A style dict without "x" or "y" is not rejected at construction
    ([__attrs_post_init__] never calls [get_period_label]) but by the first
    frame that reaches [show_period]: on axes without Text, once
    [plot_line] has drawn the frame and the label string is formatted,
    [anim_func] raises the ValueError of [get_period_label], leaving the
    chart as [plot_line] left it. *)
Theorem period_label_checked_at_first_frame (F : Formatter) (i : nat)
    (c c1 : Chart) (kw : gmap string StyleVal) (s : string) :
  period_label c = PLDict kw -> kw <> ∅ ->
  kw !! "x" = None \/ kw !! "y" = None ->
  fmt_truthy (period_fmt c) = true -> texts (ax c) = [] ->
  LineChart.plot_line i (with_ax c (remove_lines (ax c))) = (c1, Ok tt) ->
  (period_string F i c).2 = Ok s ->
  LineChart.anim_func F i c = (c1, Raise PeriodLabelKeys).
Proof.
  intros Hl Hne Hkeys Hfmt Htx Hplot Hs.
  pose proof (plot_line_preserves i (with_ax c (remove_lines (ax c)))) as Hp.
  rewrite Hplot in Hp. destruct Hp as (Hd & Hf & Hl1 & Ht1 & _). simpl in *.
  unfold LineChart.anim_func.
  unfold st_bind at 1. unfold on_ax at 1, modify at 1. simpl.
  unfold st_bind at 1. rewrite Hplot.
  unfold st_bind at 1, get. rewrite Hf, Hfmt.
  unfold show_period. unfold st_bind at 1, get.
  assert (Htruthy : truthy (period_label c1) = true).
  { rewrite Hl1, Hl. destruct (truthy (PLDict kw)) eqn:E; [done|].
    by apply truthy_dict in E. }
  rewrite Htruthy. unfold st_bind at 1.
  pose proof (period_string_state F i c1) as Hst.
  pose proof (period_string_ext F i c c1 Hd Hf) as Hext.
  destruct (period_string F i c1) as [c0 r]. simpl in Hst, Hext. subst c0.
  rewrite Hext, Hs. rewrite Ht1, Htx. simpl.
  unfold st_bind, lift. rewrite Hl1, Hl.
  unfold get_period_label.
  rewrite Hl1, Hl in Htruthy. rewrite Htruthy. simpl.
  destruct Hkeys as [Hk|Hk]; apply has_key_false in Hk; rewrite Hk; simpl.
  - done.
  - by rewrite orb_true_r.
Qed.

Lemma period_label_checked_at_first_frame_witness :
  exists c c1,
    example_chart (Some "%Y") (PLDict only_x) ["red"] (SizeInt 5) = Ok c
    /\ LineChart.anim_func echo_formatter 0 c = (c1, Raise PeriodLabelKeys)
    /\ points c1 !! "value" = Some (mkPoints [DtC 0] [NumC 1] None).
Proof.
  destruct (example_chart (Some "%Y") (PLDict only_x) ["red"] (SizeInt 5))
    as [c|e] eqn:Ec; [|vm_compute in Ec; discriminate].
  assert (Hc : c = mkChart three_days_smooth (Some "%Y") (PLDict only_x)
                     ["value"] ["red"] empty_axes
                     (init_points ["value"]) (SizeInt 5) 2).
  { vm_compute in Ec. injection Ec as <-. vm_compute. reflexivity. }
  destruct (LineChart.plot_line 0 (with_ax c (remove_lines (ax c))))
    as [c1 r] eqn:E.
  assert (r = Ok tt) as -> by (subst c; vm_compute in E; congruence).
  exists c, c1. split; [done|]. split.
  - subst c.
    apply (period_label_checked_at_first_frame echo_formatter 0 _ c1 only_x "%Y");
      [reflexivity| |right; reflexivity|reflexivity|reflexivity|exact E
      |reflexivity].
    intros H. apply (f_equal (fun m => m !! "x")) in H.
    vm_compute in H. discriminate.
  - subst c. vm_compute in E. injection E as <-. reflexivity.
Defined.

(** ** Columns through the pipeline *)

Lemma interpolate_time_col_label (index : Series) (c c' : Column) :
  interpolate_time_col index c = Ok c' ->
  col_label c' = col_label c /\ dtype (col_data c') = dtype (col_data c).
Proof.
  unfold interpolate_time_col. destruct (col_data c) as [v|v|v] eqn:E.
  - destruct (needs_fill v).
    + destruct index; try done. by intros [= <-].
    + intros [= <-]. by rewrite E.
  - intros [= <-]. by rewrite E.
  - intros [= <-]. by rewrite E.
Qed.

Lemma map_result_labels (index : Series) (l l' : list Column) :
  map_result (interpolate_time_col index) l = Ok l' ->
  map (fun c => (col_label c, dtype (col_data c))) l'
  = map (fun c => (col_label c, dtype (col_data c))) l.
Proof.
  revert l'. induction l as [|c l IH]; intros l' H; simpl in H.
  - by injection H as <-.
  - destruct (interpolate_time_col index c) as [c'|e] eqn:Ec; [|done].
    simpl in H. destruct (map_result _ l) as [cs|e]; [|done].
    simpl in H. injection H as <-. simpl.
    apply interpolate_time_col_label in Ec as [-> ->]. by rewrite (IH cs).
Qed.

Lemma interpolated_labels (d t : DataFrame) (s : Z) (ip : bool) :
  get_interpolated_df d s ip = Ok t -> columns t = columns d.
Proof.
  intros H. unfold columns. destruct ip.
  - apply get_interpolated_df_smooth in H. apply map_result_labels in H.
    apply (f_equal (map fst)) in H. rewrite !map_map in H. simpl in H.
    exact H.
  - apply get_interpolated_df_stepped in H as [_ ->].
    rewrite map_map. by apply map_ext.
Qed.

(** [get_interpolated_df] keeps the columns: the table it returns has the
    column labels of the input, in the same order. *)
Theorem interpolated_columns_kept (d t : DataFrame) (s : Z) (ip : bool) :
  get_interpolated_df d s ip = Ok t -> columns t = columns d.
Proof.
  intros H. unfold columns. destruct ip.
  - apply get_interpolated_df_smooth in H. apply map_result_labels in H.
    apply (f_equal (map fst)) in H. rewrite !map_map in H. simpl in H.
    exact H.
  - apply get_interpolated_df_stepped in H as [_ ->].
    rewrite map_map. by apply map_ext.
Qed.

Lemma interpolated_columns_kept_witness :
  exists t, get_interpolated_df three_columns 2 false = Ok t
            /\ columns t = [LStr "city"; LInt 7; LStr "temp"].
Proof.
  destruct (get_interpolated_df three_columns 2 false) as [t|e] eqn:E;
    [|vm_compute in E; discriminate].
  exists t. split; [done|].
  by rewrite (interpolated_columns_kept _ _ _ _ E).
Defined.

Lemma getitem_absent (d : DataFrame) (name : Label) :
  name ∉ columns d -> getitem d name = Raise (KeyError name).
Proof.
  intros H. unfold getitem. by rewrite filter_label_absent.
Qed.

(** A data column whose name is not a column label of the chart's table
    cannot be drawn: [plot_line] sets the limits and then raises KeyError
    at [self.df[name]] for the first data column.  This is what
    construction leaves for a numeric column with a non-string label:
    [data_cols] holds [str(label)], [rename_data_columns] has not renamed
    the column, and the table still carries the original label. *)
Theorem unrenamed_column_breaks_plot_line (df0 : DataFrame) (ip : bool)
    (s : Z) (fmt : option string) (label : PeriodLabel) (cmap : list string)
    (sz : SizeOpt) (lw : Z) (c : Chart) (name : string) (rest : list string)
    (i : nat) (a1 : Axes) :
  post_init df0 ip s fmt label cmap sz lw = Ok c ->
  data_cols c = name :: rest -> cmap <> [] -> LStr name ∉ columns df0 ->
  set_x_y_limits (df c) i (ax c) = (a1, Ok tt) ->
  LineChart.plot_line i c = (with_ax c a1, Raise (KeyError (LStr name))).
Proof.
  intros Hc Hdc Hcmap Habsent Hlim.
  unfold post_init in Hc.
  destruct (get_data_cols df0) as [names|e] eqn:En; [|done]. simpl in Hc.
  rewrite (rename_data_columns_ok df0 names En) in Hc. simpl in Hc.
  destruct (get_interpolated_df df0 s ip) as [t|e] eqn:Et; [|done].
  simpl in Hc. injection Hc as <-. simpl in *. subst names.
  rewrite plot_line_unfold. simpl. rewrite Hlim.
  destruct cmap as [|color colors]; [done|]. simpl.
  unfold st_bind at 1. unfold line_round.
  unfold st_bind at 1. unfold append_x, st_bind, points_of, get, lift. simpl.
  rewrite init_points_lookup. rewrite decide_True by left. simpl.
  unfold getitem_index. rewrite getitem_absent; [done|].
  by rewrite (interpolated_labels _ _ _ _ Et).
Qed.

Lemma unrenamed_column_breaks_plot_line_witness :
  exists c a1,
    post_init (mkDataFrame (DtS [Some 0; Some 10])
                 [mkColumn (LInt 7) (NumS [Some 1%Q; Some 2%Q])])
      true 2 None (PLBool false) ["red"] (SizeInt 5) 2 = Ok c
    /\ LineChart.plot_line 0 c = (with_ax c a1, Raise (KeyError (LStr "7"))).
Proof.
  destruct (post_init _ true 2 None (PLBool false) ["red"] (SizeInt 5) 2)
    as [c|e] eqn:Ec; [|vm_compute in Ec; discriminate].
  destruct (set_x_y_limits (df c) 0 (ax c)) as [a1 r] eqn:El.
  assert (r = Ok tt) as ->.
  { vm_compute in Ec. injection Ec as <-. vm_compute in El. congruence. }
  exists c, a1. split; [done|].
  apply (unrenamed_column_breaks_plot_line _ _ _ _ _ _ _ _ c "7" [] 0 a1 Ec);
    [|done| |exact El].
  - vm_compute in Ec. by injection Ec as <-.
  - intros H. apply list_elem_of_singleton in H. discriminate.
Defined.
(** ** Data columns without a colour *)

Lemma zip_fst_lookup {A B} (l : list A) (k : list B) (a : A) :
  a ∈ map fst (zip l k) ->
  exists j, (j < length k)%nat /\ l !! j = Some a.
Proof.
  revert k. induction l as [|x l IH]; intros [|y k] H; simpl in H;
    try by apply elem_of_nil in H.
  apply elem_of_cons in H as [->|H].
  - exists 0%nat. simpl. split; [lia|done].
  - destruct (IH k H) as (j & Hj & Hl). exists (Datatypes.S j). simpl.
    split; [lia|done].
Qed.

(** [zip(self.data_cols, self.line_colors)] stops at the shorter list: a
    data column that has no colour at its position (there are fewer
    colours than data columns) is never drawn.  Over any number of frames
    of a line chart with distinct data column names its series stays as
    construction left it. *)
Theorem line_without_colour_never_drawn (F : Formatter) (n j : nat)
    (c c' : Chart) (name : string) :
  NoDup (data_cols c) ->
  for_each (seq 0 n) (LineChart.anim_func F) c = (c', Ok tt) ->
  data_cols c !! j = Some name -> (length (colors c) <= j)%nat ->
  points c' !! name = points c !! name.
Proof.
  intros Hnd H Hj Hlen.
  assert (Hout : name ∉ map fst (zip (data_cols c) (colors c))).
  { intros Hin. apply zip_fst_lookup in Hin as (j' & Hj' & Hl).
    assert (j' = j) by (eapply NoDup_lookup; eauto). lia. }
  clear Hj Hlen.
  assert (Hgen : df c' = df c /\ data_cols c' = data_cols c
                 /\ colors c' = colors c
                 /\ points c' !! name = points c !! name);
    [|by destruct Hgen as (_ & _ & _ & ?)].
  revert c' H. induction n as [|n IH]; intros c' H.
  - simpl in H. by injection H as <-.
  - rewrite seq_S, for_each_app in H. change (0 + n)%nat with n in H.
    destruct (for_each (seq 0 n) (LineChart.anim_func F) c)
      as [cm [[]|e]] eqn:Em; [|done].
    destruct (IH cm eq_refl) as (Hd & Hdc & Hcol & Hpts).
    apply for_each_one in H.
    apply line_frame in H as (Hd' & Hdc' & Hcol' & Hrest & _);
      [|by rewrite Hdc].
    rewrite Hdc, Hcol in Hrest.
    split; [congruence|]. split; [congruence|]. split; [congruence|].
    by rewrite (Hrest name Hout).
Qed.

Lemma line_without_colour_never_drawn_witness :
  exists c',
    let c := mkChart
               (mkDataFrame (DtS [Some 0; Some 10])
                  [mkColumn (LStr "a") (NumS [Some 1%Q; Some 2%Q]);
                   mkColumn (LStr "b") (NumS [Some 3%Q; Some 4%Q])])
               None (PLBool false) ["a"; "b"] ["red"] empty_axes
               (init_points ["a"; "b"]) (SizeInt 5) 2 in
    for_each (seq 0 2) (LineChart.anim_func echo_formatter) c = (c', Ok tt)
    /\ points c' !! "b" = Some (mkPoints [] [] None).
Proof.
  set (c := mkChart _ None (PLBool false) ["a"; "b"] ["red"] empty_axes
              (init_points ["a"; "b"]) (SizeInt 5) 2).
  set (out := for_each (seq 0 2) (LineChart.anim_func echo_formatter) c).
  assert (E : out = (out.1, Ok tt)) by (vm_compute; reflexivity).
  exists out.1. split; [exact E|].
  rewrite (line_without_colour_never_drawn echo_formatter 2 1 c out.1 "b").
  - reflexivity.
  - apply (bool_decide_unpack _). reflexivity.
  - exact E.
  - reflexivity.
  - simpl. lia.
Defined.
